(** * blockchain_rpc: a shallow embedding of the transaction lifecycle

    The development follows the Python package [blockchain_rpc]:
    [models.py] (status enum, result tuples, configuration validators),
    [web3node.py] (gas fees, transaction builder, receipt verification,
    connection setup), [swap.py] (the Curve index lookup) and [core.py]
    (the block watcher and the two-leg arbitrage).

    Python integers are unbounded, so they are [Z].  Dictionaries with
    string keys are [gmap string _].  Code that calls out of the package
    is written in a small monad that threads the state of the outside
    world, carries raised exceptions, and records the calls and prints a
    run makes, in order. *)

From Stdlib Require Import ZArith Lia List Bool Floats.
From stdpp Require Import base gmap strings list fin_maps.

Local Open Scope string_scope.
Local Open Scope list_scope.
Local Open Scope Z_scope.

(** ** Exceptions *)

(** The exception classes the package raises or names in an [except]
    clause.  Messages are not modelled. *)
Inductive Exn : Set :=
| TypeError
| ValueError
| ZeroDivisionError
| KeyError
| KeyboardInterrupt
| TimeExhausted
| RequestException
| HTTPError
| ContractLogicError
| ABIFunctionNotFound
| ValidationError
| Web3ConnectionException
| InvalidAddressException
| InvalidPrivateKeyException
| TransactionException
| SwapException
| CoinException.

#[global] Instance Exn_eq_dec : EqDecision Exn.
Proof. solve_decision. Defined.

(** [issubclass e c]: [requests.exceptions.HTTPError] derives from
    [RequestException]; every other class listed stands alone. *)
Definition issubclass (e c : Exn) : bool :=
  match e, c with
  | HTTPError, RequestException => true
  | _, _ => bool_decide (e = c)
  end.

(** One entry of the tuple after [except]: an exception class, or some
    other object (a module, say). *)
Inductive ExceptItem : Set :=
| ExcClass (c : Exn)
| NotAClass (name : string).

Definition is_exception_class (i : ExceptItem) : bool :=
  match i with ExcClass _ => true | NotAClass _ => false end.

Definition item_matches (e : Exn) (i : ExceptItem) : bool :=
  match i with ExcClass c => issubclass e c | NotAClass _ => false end.

(** What the interpreter does when exception [e] reaches
    [except (items):].  It first checks that every entry of the tuple is
    an exception class and raises [TypeError] ("catching classes that do
    not inherit from BaseException is not allowed") otherwise; only then
    is [e] compared with the entries. *)
Definition except_matches (items : list ExceptItem) (e : Exn) : Exn + bool :=
  if forallb is_exception_class items
  then inr (existsb (item_matches e) items)
  else inl TypeError.

(** ** Runs: results, events and the monad *)

Inductive Res (A : Type) : Type :=
| Ok (a : A)
| Raise (e : Exn)
| OutOfFuel.
Arguments Ok {A} a.
Arguments Raise {A} e.
Arguments OutOfFuel {A}.

(** The status enum of [models.py]. *)
Inductive TransactionStatus : Set := SUCCESS | FAILURE | NOT_VERIFIED.

#[global] Instance TransactionStatus_eq_dec : EqDecision TransactionStatus.
Proof. solve_decision. Defined.

Definition status_value (s : TransactionStatus) : Z :=
  match s with SUCCESS => 1 | FAILURE => 0 | NOT_VERIFIED => -1 end.

(** [TransactionStatus(v)]: the member with value [v]; [ValueError] when
    there is none. *)
Definition TransactionStatus_of_value (v : Z) : Exn + TransactionStatus :=
  if v =? 1 then inr SUCCESS
  else if v =? 0 then inr FAILURE
  else if v =? -1 then inr NOT_VERIFIED
  else inl ValueError.

Definition Address := string.
Definition Hash := string.

Record TransactionResult : Set := mkResult {
  status : TransactionStatus;
  transactionHash : Hash
}.

Record GasFees : Set := mkGasFees {
  maxPriorityFeePerGas : Z;
  maxFeePerGas : Z
}.

(** ** Objects of the package, as the programs of [core.py] see them *)

(** A [Web3Node] is one connection; it is known by its endpoint. *)
Definition Endpoint := string.

Inductive SwapperClass : Set := Uniswap | Curve.

(** A [BaseSwapper] instance: its class, contract address and node. *)
Record Swapper : Set := mkSwapper {
  swapper_class : SwapperClass;
  swapper_address : Address;
  swapper_node : Endpoint
}.

(** An [ERC20Coin] instance. *)
Record Coin : Set := mkCoin {
  coin_address : Address;
  coin_node : Endpoint
}.

(** The calls the programs make on objects of the package.  The amount of
    [ListenAndSend] is a Python [float], a binary64 number. *)
Inductive Call : Set :=
| Call_send_ETH (node : Endpoint) (amount : float) (to_address : Address)
| Call_approve (coin : Coin) (spender : Address) (amount : Z)
| Call_swap (swapper : Swapper) (sell_coin buy_coin : Address) (amount : Z).

(** Queries on [web3.eth] and calls on a contract object. *)
Inductive EthQuery : Set :=
| get_block_latest
| max_priority_fee
| get_transaction_count (account : Address)
| chain_id
| sign_transaction
| send_raw_transaction
| wait_for_transaction_receipt (transaction_hash : Hash) (timeout : Z).

Inductive ContractCall : Set :=
| N_COINS
| coins (index : Z)
| get_dy (i j amount : Z)
| exchange (i j dy min_dy : Z).

(** What a run does that can be seen from outside, in order. *)
Inductive Event : Set :=
| EPrint (msg : string)
| EPrintNumber (msg : string) (n : Z)
| ESleep (seconds : Z)
| ENewWeb3 (endpoint : Endpoint)
| EIsConnected (endpoint : Endpoint)
| EEth (q : EthQuery)
| EContract (c : ContractCall)
| EMethod (c : Call).

(** A computation over a world [W]: from the world before to a result,
    the world after and the events of the run.  A raised exception keeps
    the world and the events reached so far. *)
Definition M (W A : Type) : Type :=
  W -> Res A * W * list Event.

Section Monad.
Context {W : Type}.
Local Abbreviation M := (M W).

Definition ret {A} (a : A) : M A := fun w => (Ok a, w, []).

Definition bind {A B} (m : M A) (k : A -> M B) : M B :=
  fun w =>
    match m w with
    | (Ok a, w1, t1) =>
        match k a w1 with (r, w2, t2) => (r, w2, t1 ++ t2) end
    | (Raise e, w1, t1) => (Raise e, w1, t1)
    | (OutOfFuel, w1, t1) => (OutOfFuel, w1, t1)
    end.

Definition raise {A} (e : Exn) : M A := fun w => (Raise e, w, []).

Definition out_of_fuel {A} : M A := fun w => (OutOfFuel, w, []).

Definition emit (ev : Event) : M unit := fun w => (Ok tt, w, [ev]).

Definition print (msg : string) : M unit := emit (EPrint msg).

(** An answer computed outside the package. *)
Definition of_sum {A} (r : Exn + A) : M A :=
  match r with inl e => raise e | inr a => ret a end.

(** A call that leaves the package: the event, then the world's answer. *)
Definition ask {A} (ev : Event) (oracle : W -> (Exn + A) * W) : M A :=
  fun w => match oracle w with
           | (inl e, w') => (Raise e, w', [ev])
           | (inr a, w') => (Ok a, w', [ev])
           end.

(** [try: m  except (items) as e: handler e]. *)
Definition try_except {A} (m : M A) (items : list ExceptItem)
    (handler : Exn -> M A) : M A :=
  fun w =>
    match m w with
    | (Raise e, w1, t1) =>
        match except_matches items e with
        | inl te => (Raise te, w1, t1)
        | inr true =>
            match handler e w1 with (r, w2, t2) => (r, w2, t1 ++ t2) end
        | inr false => (Raise e, w1, t1)
        end
    | other => other
    end.

(** [try: m] followed by several [except] clauses, tried in order. *)
Fixpoint dispatch {A} (clauses : list (list ExceptItem * (Exn -> M A)))
    (e : Exn) : M A :=
  match clauses with
  | [] => raise e
  | (items, handler) :: rest =>
      match except_matches items e with
      | inl te => raise te
      | inr true => handler e
      | inr false => dispatch rest e
      end
  end.

Definition try_excepts {A} (m : M A)
    (clauses : list (list ExceptItem * (Exn -> M A))) : M A :=
  fun w =>
    match m w with
    | (Raise e, w1, t1) =>
        match dispatch clauses e w1 with (r, w2, t2) => (r, w2, t1 ++ t2) end
    | other => other
    end.

(** Run [m] and hand back what it raised as a value. *)
Definition attempt {A} (m : M A) : M (Exn + A) :=
  fun w =>
    match m w with
    | (Ok a, w1, t1) => (Ok (inr a), w1, t1)
    | (Raise e, w1, t1) => (Ok (inl e), w1, t1)
    | (OutOfFuel, w1, t1) => (OutOfFuel, w1, t1)
    end.

Fixpoint run_all {A} (tasks : list (M A)) : M (list (Exn + A)) :=
  match tasks with
  | [] => ret []
  | task :: rest =>
      bind (attempt task) (fun r =>
      bind (run_all rest) (fun rs => ret (r :: rs)))
  end.

Fixpoint first_error_or_values {A} (rs : list (Exn + A)) : Exn + list A :=
  match rs with
  | [] => inr []
  | inl e :: _ => inl e
  | inr a :: rest =>
      match first_error_or_values rest with
      | inl e => inl e
      | inr values => inr (a :: values)
      end
  end.

(** [await asyncio.gather] over coroutines that never suspend:
    each runs to its end, in order, also after an earlier one has
    raised; the value is the list of results, or the first exception. *)
Definition gather {A} (tasks : list (M A)) : M (list A) :=
  bind (run_all tasks) (fun rs => of_sum (first_error_or_values rs)).

End Monad.

Declare Scope py_scope.
Delimit Scope py_scope with py.
Notation "x <- m ;; k" := (bind m (fun x => k))
  (at level 100, m at next level, k at level 200, right associativity)
  : py_scope.
Notation "m ;; k" := (bind m (fun _ => k))
  (at level 100, k at level 200, right associativity) : py_scope.
Local Open Scope py_scope.

(** ** Python arithmetic and comparison *)

(** [a % b] on integers: floor remainder, [ZeroDivisionError] for a zero
    divisor. *)
Definition py_mod (a b : Z) : Exn + Z :=
  if b =? 0 then inl ZeroDivisionError else inr (a mod b).

(** [n != o] where [o] is an [Optional[int]]: an integer never equals
    [None]. *)
Definition int_ne_optional (n : Z) (o : option Z) : bool :=
  match o with
  | Some r => negb (n =? r)
  | None => true
  end.

(** ** models.py: the configuration validators *)

Module ListenAndSendConfig.

(** [validate_num_blocks], lines 90-94. *)
Definition validate_num_blocks (value : Z) : Exn + Z :=
  if value <? 0 then inl ValueError else inr value.

(** [validate_retries], lines 96-100. *)
Definition validate_retries (value : Z) : Exn + Z :=
  if value <? 0 then inl ValueError else inr value.

End ListenAndSendConfig.

(** ** core.py: the bounded retry loop

    The same loop is written three times in [core.py]: around
    [send_ETH] (lines 101-107), around [approve] (lines 217-223) and
    around [swap] (lines 240-250).  [unsuccessful] is the first line it
    prints and [again] the call it repeats. *)

Section Retry.
Context {W : Type}.
Local Abbreviation M := (M W).

(** [while result.status != SUCCESS and retried != retries: ...]; the
    value is the pair of [result] and [retried] when the loop is left. *)
Fixpoint retry_loop (fuel : nat) (unsuccessful : string)
    (again : M TransactionResult) (retries : option Z)
    (result : TransactionResult) (retried : Z)
    : M (TransactionResult * Z) :=
  if bool_decide (status result <> SUCCESS) && int_ne_optional retried retries
  then
    match fuel with
    | O => out_of_fuel
    | S fuel' =>
        print unsuccessful ;;
        print "Retrying..." ;;
        let retried := retried + 1 in
        result <- again ;;
        retry_loop fuel' unsuccessful again retries result retried
    end
  else ret (result, retried).

(** The first call, [retried = 0], then the loop. *)
Definition with_retries (fuel : nat) (unsuccessful : string)
    (first again : M TransactionResult) (retries : option Z)
    : M (TransactionResult * Z) :=
  result <- first ;;
  retry_loop fuel unsuccessful again retries result 0.

End Retry.

(** ** core.py: the programs *)

(** The answer of the world to a call on a package object: a
    [TransactionResult], or the exception the call raises. *)
Definition Answers (W : Type) : Type :=
  Call -> W -> (Exn + TransactionResult) * W.

Definition invoke {W} (answers : Answers W) (c : Call) : M W TransactionResult :=
  ask (EMethod c) (answers c).

Module ListenAndSend.

Record t : Set := mk {
  amount : float;
  num_blocks : Z;
  retries : option Z;
  to_address : Address;
  _web3node : Endpoint
}.

(** The local variables of [execute] that outlive an iteration. *)
Record Locals : Set := mkLocals {
  current_number : Z;
  block_count : Z
}.

Section Program.
Context {W : Type} (answers : Answers W).
Local Abbreviation ML := (M (Locals * W)).

Definition get_locals : ML Locals := fun s => (Ok (fst s), s, []).

Definition set_current_number (n : Z) : ML unit :=
  fun s => (Ok tt, (mkLocals n (block_count (fst s)), snd s), []).

Definition set_block_count (n : Z) : ML unit :=
  fun s => (Ok tt, (mkLocals (current_number (fst s)) n, snd s), []).

(** A call on the node leaves the local variables alone. *)
Definition answers_here : Answers (Locals * W) :=
  fun c s => match answers c (snd s) with (r, w') => (r, (fst s, w')) end.

(** Lines 99-114: the transfer, retried, and the report. *)
Definition send (fuel : nat) (self : t) : ML unit :=
  print "Sending ETH..." ;;
  let send_ETH :=
    invoke answers_here
      (Call_send_ETH (_web3node self) (amount self) (to_address self)) in
  p <- with_retries fuel "Transaction Unsucessful" send_ETH send_ETH
         (retries self) ;;
  let result := fst p in
  if bool_decide (status result = SUCCESS) then
    print "Transaction Succeeded"
  else if bool_decide (status result = FAILURE) then
    print "Transaction Processed but Failed"
  else
    print "Transaction Not Processed".

(** Lines 91-118: one pass through the body of [while(True)].  [poll]
    is what [local_web3.eth.get_block("latest").number] gives in this
    pass. *)
Definition iteration (fuel : nat) (self : t) (poll : Exn + Z) : ML unit :=
  try_except
    (emit (EEth get_block_latest) ;;
     latest_number <- of_sum poll ;;
     locals <- get_locals ;;
     if bool_decide (latest_number <> current_number locals) then
       set_current_number latest_number ;;
       emit (EPrintNumber "Block number: " latest_number) ;;
       n <- of_sum (py_mod (block_count locals + 1) (num_blocks self)) ;;
       set_block_count n ;;
       if n =? 0 then send fuel self else ret tt
     else ret tt)
    [ExcClass HTTPError; ExcClass TimeExhausted]
    (fun _ =>
       print "Request Error: " ;;
       print "Retrying..." ;;
       emit (ESleep 3)).

(** The first passes of the loop, one per entry of [polls]. *)
Fixpoint iterations (fuel : nat) (self : t) (polls : list (Exn + Z))
    : ML unit :=
  match polls with
  | [] => ret tt
  | poll :: rest => iteration fuel self poll ;; iterations fuel self rest
  end.

(** A block with local variables, started at [init]; they are dropped
    when it is left. *)
Definition with_locals {A} (init : Locals) (m : ML A) : M W A :=
  fun w => match m (init, w) with (r, s, t) => (r, snd s, t) end.

(** Lines 81-120, with the loop cut after [length polls] passes.
    [first_poll] is the block number read before the loop. *)
Definition execute (fuel : nat) (self : t) (first_poll : Exn + Z)
    (polls : list (Exn + Z)) : M W unit :=
  print "Starting execution..." ;;
  emit (EEth get_block_latest) ;;
  current_number <- of_sum first_poll ;;
  emit (EPrintNumber "Block number: " current_number) ;;
  with_locals (mkLocals current_number 0)
    (try_except (iterations fuel self polls)
       [ExcClass KeyboardInterrupt]
       (fun _ => print "Program interrupted. Exiting gracefully...")).

End Program.
End ListenAndSend.

Module Arbitrage.

(** The addresses [execute] reads from [config.py]. *)
Record Config : Set := mkConfig {
  COIN_2_ADDRESS_1 : Address;
  COIN_1_ADDRESS_2 : Address
}.

Record t : Set := mk {
  amount : Z;
  retries : option Z;
  _web3node_1 : Endpoint;
  _web3node_2 : Endpoint;
  _swapper_1 : Swapper;
  _swapper_2 : Swapper;
  _coin1_1 : Coin;
  _coin2_2 : Coin
}.

Section Program.
Context {W : Type} (answers : Answers W).

(** [_swap], lines 215-259: approve, retried; then swap, retried. *)
Definition _swap (fuel : nat) (self : t) (sell_coin : Coin)
    (swapper : Swapper) (buy_coin_address : Address) : M W unit :=
  let approve :=
    invoke answers
      (Call_approve sell_coin (swapper_address swapper) (amount self)) in
  p <- with_retries fuel "Approval Unsucessful" approve approve
         (retries self) ;;
  let result := fst p in
  approved <-
    (if bool_decide (status result = SUCCESS) then
       print "Approval Succeeded" ;; ret true
     else if bool_decide (status result = FAILURE) then
       print "Approval Processed but Failed" ;; ret false
     else
       print "Approval Not Processed" ;; ret false) ;;
  if approved : bool then
    let swap_with (s : Swapper) :=
      invoke answers
        (Call_swap s (coin_address sell_coin) buy_coin_address
           (amount self)) in
    p <- with_retries fuel "Swap Unsucessful" (swap_with swapper)
           (swap_with (_swapper_1 self)) (retries self) ;;
    let result := fst p in
    if bool_decide (status result = SUCCESS) then
      print "Swap Succeeded"
    else if bool_decide (status result = FAILURE) then
      print "Swap Processed but Failed"
    else
      print "Swap Not Processed"
  else ret tt.

(** The two tasks [execute] hands to the thread pool, lines 265-278. *)
Definition leg_1 (fuel : nat) (cfg : Config) (self : t) : M W unit :=
  _swap fuel self (_coin1_1 self) (_swapper_1 self) (COIN_2_ADDRESS_1 cfg).

Definition leg_2 (fuel : nat) (cfg : Config) (self : t) : M W unit :=
  _swap fuel self (_coin2_2 self) (_swapper_2 self) (COIN_1_ADDRESS_2 cfg).

End Program.
End Arbitrage.

(** ** utils.py *)

(** [validate_address], lines 7-13.  [Web3.is_address] and
    [Web3.to_checksum_address] come from the client library and are
    parameters. *)
Definition validate_address {W} (is_address : string -> bool)
    (to_checksum_address : string -> Address) (address : string)
    : M W Address :=
  if negb (is_address address) then raise InvalidAddressException
  else ret (to_checksum_address address).

(** ** web3node.py *)

(** Values of the keyword arguments of [build_transaction_data]. *)
Inductive PyVal : Set :=
| PyInt (n : Z)
| PyStr (s : string)
| PyNone.

#[global] Instance PyVal_eq_dec : EqDecision PyVal.
Proof. solve_decision. Defined.

Record Block : Set := mkBlock {
  number : Z;
  baseFeePerGas : Z
}.

Record Receipt : Set := mkReceipt {
  receipt_status : Z
}.

(** The client object [self._web3], by what it answers.
    [is_connected n] is the answer to the call number [n] of
    [is_connected()] on this client, counted from 0: two calls need not
    agree.  The reads of chain state are taken as answered; signing,
    sending and the wait for a receipt may raise. *)
Record Web3 : Type := mkWeb3 {
  is_connected : nat -> bool;
  eth_get_block_latest : Block;
  eth_max_priority_fee : Z;
  eth_get_transaction_count : Address -> Z;
  eth_chain_id : Z;
  eth_sign_transaction : gmap string PyVal -> string -> Exn + string;
  eth_send_raw_transaction : string -> Exn + Hash;
  eth_wait_for_transaction_receipt : Hash -> Z -> Exn + Receipt
}.

Module Web3Node.

Record t : Type := mk {
  rpc_endpoint : Endpoint;
  retries : option Z;
  _web3 : Web3;
  _account_address : Address;
  _private_key : string
}.

Section Methods.
Context {W : Type}.
(** [TransactionData(fields).to_dictionary()]: pydantic's validation of
    the model of [models.py], with [ValidationError] when it fails. *)
Context (TransactionData_to_dictionary :
           gmap string PyVal -> Exn + gmap string PyVal).
Local Abbreviation M := (M W).

(** [get_gas_fees], lines 48-57. *)
Definition get_gas_fees (self : t) : M GasFees :=
  emit (EEth get_block_latest) ;;
  let latest_block := eth_get_block_latest (_web3 self) in
  emit (EEth max_priority_fee) ;;
  let maxPriorityFeePerGas := eth_max_priority_fee (_web3 self) in
  let base_fee := baseFeePerGas latest_block in
  let maxFeePerGas := (2 * base_fee) + maxPriorityFeePerGas in
  ret (mkGasFees maxPriorityFeePerGas maxFeePerGas).

(** [key not in d]. *)
Definition not_in (key : string) (d : gmap string PyVal) : bool :=
  match d !! key with Some _ => false | None => true end.

(** Lines 78-90 of [build_transaction_data]: the keyword arguments with
    the missing entries filled in. *)
Definition fill_parameters (self : t)
    (override_parameters : gmap string PyVal) : M (gmap string PyVal) :=
  override_parameters <-
    (if not_in "nonce" override_parameters then
       emit (EEth (get_transaction_count (_account_address self))) ;;
       ret (<["nonce" :=
               PyInt (eth_get_transaction_count (_web3 self)
                        (_account_address self))]> override_parameters)
     else ret override_parameters) ;;
  override_parameters <-
    (if not_in "maxFeePerGas" override_parameters
        || not_in "maxPriorityFeePerGas" override_parameters then
       gas_params <- get_gas_fees self ;;
       let override_parameters :=
         if not_in "maxFeePerGas" override_parameters then
           <["maxFeePerGas" := PyInt (maxFeePerGas gas_params)]>
             override_parameters
         else override_parameters in
       let override_parameters :=
         if not_in "maxPriorityFeePerGas" override_parameters then
           <["maxPriorityFeePerGas" :=
              PyInt (maxPriorityFeePerGas gas_params)]> override_parameters
         else override_parameters in
       ret override_parameters
     else ret override_parameters) ;;
  if not_in "chainId" override_parameters then
    emit (EEth chain_id) ;;
    ret (<["chainId" := PyInt (eth_chain_id (_web3 self))]>
           override_parameters)
  else ret override_parameters.

(** [build_transaction_data], lines 74-96. *)
Definition build_transaction_data (self : t)
    (override_parameters : gmap string PyVal) : M (gmap string PyVal) :=
  override_parameters <- fill_parameters self override_parameters ;;
  try_except
    (of_sum (TransactionData_to_dictionary override_parameters))
    [ExcClass ValidationError]
    (fun _ => raise TransactionException).

(** The default of the [timeout] argument. *)
Definition default_timeout : Z := 120.

(** [verify_transaction], lines 98-108.  The tuple after [except] names
    the module [requests.exceptions] between two exception classes. *)
Definition verify_transaction (self : t) (transaction_hash : Hash)
    (timeout : Z) : M TransactionStatus :=
  try_except
    (emit (EEth (wait_for_transaction_receipt transaction_hash timeout)) ;;
     receipt <- of_sum (eth_wait_for_transaction_receipt (_web3 self)
                          transaction_hash timeout) ;;
     of_sum (TransactionStatus_of_value (receipt_status receipt)))
    [ExcClass TimeExhausted; NotAClass "requests.exceptions";
     ExcClass ValueError]
    (fun _ =>
       print "Error verifying transaction: {}" ;;
       ret NOT_VERIFIED).

(** [send_transaction], lines 110-126. *)
Definition send_transaction (self : t) (transaction : gmap string PyVal)
    : M TransactionResult :=
  signed_transaction <-
    try_except
      (emit (EEth sign_transaction) ;;
       of_sum (eth_sign_transaction (_web3 self) transaction
                 (_private_key self)))
      [ExcClass ValueError; ExcClass TypeError]
      (fun _ => raise TransactionException) ;;
  transaction_hash <-
    try_excepts
      (emit (EEth send_raw_transaction) ;;
       of_sum (eth_send_raw_transaction (_web3 self) signed_transaction))
      [([ExcClass ValueError], fun _ => raise TransactionException);
       ([ExcClass RequestException], fun _ => raise TransactionException)] ;;
  status <- verify_transaction self transaction_hash default_timeout ;;
  ret (mkResult status transaction_hash).

(** The loop of [_initialize_web3], lines 139-144.  [clients k] is the
    client object the call number [k] of [Web3(Web3.HTTPProvider(..))]
    gives, counted from 0; [made] counts the calls so far, and [probed]
    the calls of [is_connected()] made on the client at hand.  The test
    of the loop calls [is_connected()] every time it is evaluated. *)
Fixpoint connect_loop (fuel : nat) (rpc_endpoint : Endpoint)
    (retries : option Z) (clients : nat -> Web3) (made : nat)
    (_web3 : Web3) (probed : nat) (retried : Z) : M (Web3 * nat * Z) :=
  emit (EIsConnected rpc_endpoint) ;;
  let connected := is_connected _web3 probed in
  let probed := S probed in
  if negb connected && int_ne_optional retried retries then
    match fuel with
    | O => out_of_fuel
    | S fuel' =>
        print "Web3 connection failed. Retrying.." ;;
        emit (ESleep 1) ;;
        let retried := retried + 1 in
        emit (ENewWeb3 rpc_endpoint) ;;
        let _web3 := clients made in
        connect_loop fuel' rpc_endpoint retries clients (S made) _web3
          0%nat retried
    end
  else ret (_web3, probed, retried).

(** [_initialize_web3], lines 134-147; the value is the client left in
    [self._web3].  Line 146 calls [is_connected()] once more on the
    client the loop has left. *)
Definition _initialize_web3 (fuel : nat) (rpc_endpoint : Endpoint)
    (retries : option Z) (clients : nat -> Web3) : M Web3 :=
  emit (ENewWeb3 rpc_endpoint) ;;
  let _web3 := clients 0%nat in
  p <- connect_loop fuel rpc_endpoint retries clients 1%nat _web3 0%nat 0 ;;
  let _web3 := fst (fst p) in
  let probed := snd (fst p) in
  emit (EIsConnected rpc_endpoint) ;;
  if negb (is_connected _web3 probed) then raise Web3ConnectionException
  else ret _web3.

(** [send_ETH], lines 59-72.  [to_wei amount] stands for
    [self._web3.to_wei(amount, 'ether')]. *)
Definition send_ETH (is_address : string -> bool)
    (to_checksum_address : string -> Address) (to_wei : float -> Z)
    (self : t) (amount : float) (to_address : string)
    : M TransactionResult :=
  to_address <- validate_address is_address to_checksum_address to_address ;;
  let amount_wei := to_wei amount in
  tx_data <-
    build_transaction_data self
      (<["value" := PyInt amount_wei]> (<["to" := PyStr to_address]> ∅)) ;;
  send_transaction self tx_data.

End Methods.
End Web3Node.

(** ** swap.py: the Curve pool *)

(** A function of a contract object, as
    [self._contract.functions.f(arguments)] gives it: the library may
    refuse the arguments, and [build_transaction] of the function may
    raise.  Neither reads the chain. *)
Definition ContractFunction : Type :=
  Exn + (gmap string PyVal -> Exn + gmap string PyVal).

(** The contract object of a Curve pool, by what its calls answer. *)
Record CurveContract : Type := mkCurveContract {
  call_N_COINS : Exn + Z;
  call_coins : Z -> Exn + Address;
  call_get_dy : Z -> Z -> Z -> Exn + Z;
  functions_exchange : Z -> Z -> Z -> Z -> ContractFunction
}.

(** [CurveData] of [models.py]. *)
Module CurveData.

Record t : Set := mk {
  tokenInIndex : Z;
  tokenOutIndex : Z;
  dy : Z;
  min_dy : Z
}.

Definition to_args (self : t) : Z * Z * Z * Z :=
  (tokenInIndex self, tokenOutIndex self, dy self, min_dy self).

End CurveData.

Module Curve.

Record t : Type := mk {
  _address : Address;
  _web3node : Web3Node.t;
  _contract : CurveContract
}.

Section Methods.
Context {W : Type}.
Context (TransactionData_to_dictionary :
           gmap string PyVal -> Exn + gmap string PyVal).
Local Abbreviation M := (M W).

(** [_lookup_coin], lines 88-97. *)
Definition _lookup_coin (self : t) (index : Z) (coin_set : gset Address)
    : M (gmap Address Z) :=
  try_except
    (emit (EContract (coins index)) ;;
     address <- of_sum (call_coins (_contract self) index) ;;
     ret (if bool_decide (address ∈ coin_set)
          then {[ address := index ]} else ∅))
    [ExcClass ContractLogicError; ExcClass ABIFunctionNotFound]
    (fun _ => raise SwapException).

(** The comprehension of line 86: later entries replace earlier ones. *)
Definition merge_results (results : list (gmap Address Z)) : gmap Address Z :=
  foldl (fun acc result => result ∪ acc) ∅ results.

(** [get_coin_indexes], lines 69-86. *)
Definition get_coin_indexes (self : t) (coin_addresses : list Address)
    : M (gmap Address Z) :=
  let coin_set : gset Address := list_to_set coin_addresses in
  num_coins <-
    try_except
      (emit (EContract N_COINS) ;; of_sum (call_N_COINS (_contract self)))
      [ExcClass ContractLogicError; ExcClass ABIFunctionNotFound]
      (fun _ => raise SwapException) ;;
  let coin_tasks :=
    map (fun i => _lookup_coin self i coin_set) (seqZ 0 num_coins) in
  results <- gather coin_tasks ;;
  ret (merge_results results).

(** [d[key]]. *)
Definition getitem (d : gmap Address Z) (key : Address) : M Z :=
  match d !! key with Some v => ret v | None => raise KeyError end.

(** [_prepare_swap], lines 99-123.  [min_dy] is an [Optional[int]];
    [CurveData] wants an [int]. *)
Definition _prepare_swap (self : t) (sell_coin_address buy_coin_address : Address)
    (amount : Z) (min_dy : option Z) : M CurveData.t :=
  indexes <- get_coin_indexes self [sell_coin_address; buy_coin_address] ;;
  if negb (Z.of_nat (size indexes) =? 2) then raise SwapException
  else
    estimated_dy <-
      try_except
        (i <- getitem indexes sell_coin_address ;;
         j <- getitem indexes buy_coin_address ;;
         emit (EContract (get_dy i j amount)) ;;
         of_sum (call_get_dy (_contract self) i j amount))
        [ExcClass ContractLogicError; ExcClass ABIFunctionNotFound;
         ExcClass ValueError]
        (fun _ => raise SwapException) ;;
    try_except
      (i <- getitem indexes sell_coin_address ;;
       j <- getitem indexes buy_coin_address ;;
       match min_dy with
       | Some m => ret (CurveData.mk i j estimated_dy m)
       | None => raise ValidationError
       end)
      [ExcClass ValidationError]
      (fun _ => raise SwapException).

(** [swap], lines 125-140.  The exchange function is made from the
    swap data before [build_transaction_data] is called for the
    argument of its [build_transaction]. *)
Definition swap (self : t) (sell_coin_address buy_coin_address : Address)
    (amount : Z) (min_dy : option Z) : M TransactionResult :=
  swap_data <- _prepare_swap self sell_coin_address buy_coin_address
                 amount min_dy ;;
  match CurveData.to_args swap_data with
  | (i, j, dy, min_dy) =>
      emit (EContract (exchange i j dy min_dy)) ;;
      function <- of_sum (functions_exchange (_contract self) i j dy min_dy) ;;
      tx_data <- Web3Node.build_transaction_data
                   TransactionData_to_dictionary (_web3node self) ∅ ;;
      transaction <- of_sum (function tx_data) ;;
      Web3Node.send_transaction (_web3node self) transaction
  end.

End Methods.
End Curve.

(** ** coin.py, and the Uniswap swapper of swap.py *)

Module ERC20Coin.

Record t : Type := mk {
  _address : Address;
  _web3node : Web3Node.t;
  functions_approve : string -> Z -> ContractFunction
}.

Section Methods.
Context {W : Type}.
Context (TransactionData_to_dictionary :
           gmap string PyVal -> Exn + gmap string PyVal).
Context (is_address : string -> bool)
        (to_checksum_address : string -> Address).
Local Abbreviation M := (M W).

(** [approve], lines 22-38.  [amount] is whatever the caller passes;
    the address goes to the contract as it was given. *)
Definition approve (self : t) (address : string) (amount : PyVal)
    : M TransactionResult :=
  validate_address is_address to_checksum_address address ;;
  match amount with
  | PyInt amount =>
      function <- of_sum (functions_approve self address amount) ;;
      tx_data <- Web3Node.build_transaction_data
                   TransactionData_to_dictionary (_web3node self) ∅ ;;
      transaction <- of_sum (function tx_data) ;;
      Web3Node.send_transaction (_web3node self) transaction
  | _ => raise CoinException
  end.

End Methods.
End ERC20Coin.

Module Uniswap.

Record t : Type := mk {
  _address : Address;
  _web3node : Web3Node.t;
  functions_exactInputSingle : gmap string PyVal -> ContractFunction
}.

Section Methods.
Context {W : Type}.
Context (TransactionData_to_dictionary :
           gmap string PyVal -> Exn + gmap string PyVal).
(** [UniswapData(fields).to_dictionary()]: pydantic's validation of the
    model of [models.py]. *)
Context (UniswapData_to_dictionary :
           gmap string PyVal -> Exn + gmap string PyVal).
Local Abbreviation M := (M W).

(** The keywords [swap] itself passes to [UniswapData]. *)
Definition keywords : list string :=
  ["tokenIn"; "tokenOut"; "recipient"; "amountIn"].

(** [swap], lines 25-50.  A keyword given twice, once by [swap] and
    once in [addtional_parameters], is a [TypeError] of the call. *)
Definition swap (self : t) (sell_coin_address buy_coin_address : Address)
    (amount : Z) (addtional_parameters : gmap string PyVal)
    : M TransactionResult :=
  swap_data <-
    try_except
      (let recipient := Web3Node._account_address (_web3node self) in
       if existsb (fun key => negb (Web3Node.not_in key addtional_parameters))
            keywords
       then raise TypeError
       else
         of_sum (UniswapData_to_dictionary
                   (<["tokenIn" := PyStr sell_coin_address]>
                   (<["tokenOut" := PyStr buy_coin_address]>
                   (<["recipient" := PyStr recipient]>
                   (<["amountIn" := PyInt amount]> addtional_parameters))))))
      [ExcClass ValidationError]
      (fun _ => raise SwapException) ;;
  function <- of_sum (functions_exactInputSingle self swap_data) ;;
  tx_data <- Web3Node.build_transaction_data
               TransactionData_to_dictionary (_web3node self) ∅ ;;
  transaction <- of_sum (function tx_data) ;;
  Web3Node.send_transaction (_web3node self) transaction.

End Methods.
End Uniswap.


(** ** Reading a run *)

Definition result_of {W A} (run : Res A * W * list Event) : Res A :=
  fst (fst run).

Definition world_of {W A} (run : Res A * W * list Event) : W :=
  snd (fst run).

Definition trace_of {W A} (run : Res A * W * list Event) : list Event :=
  snd run.

(** The calls on package objects in a trace, in order. *)
Fixpoint calls_of (trace : list Event) : list Call :=
  match trace with
  | [] => []
  | EMethod c :: rest => c :: calls_of rest
  | _ :: rest => calls_of rest
  end.

(** The answer to the last of [n] further calls [c], after a call that
    was answered by [prev]. *)
Fixpoint last_answer {W} (answers : Answers W) (c : Call) (n : nat)
    (prev : (Exn + TransactionResult) * W) : (Exn + TransactionResult) * W :=
  match n with
  | O => prev
  | S n' => last_answer answers c n' (answers c (snd prev))
  end.

(** Every call named in [cs] is answered by a result that is not
    [SUCCESS]. *)
Definition never_succeeds {W} (answers : Answers W) (cs : list Call) : Prop :=
  forall c w, In c cs ->
    exists r w', answers c w = (inr r, w') /\ status r <> SUCCESS.

(** ** Worlds for concrete runs *)

Module Scenario.

(** A world that counts the calls it has answered and answers each with
    the given status. *)
Definition always (s : TransactionStatus) : Answers nat :=
  fun _ n => (inr (mkResult s "0xabc"), S n).

(** A world that answers approvals with [SUCCESS] and swaps with
    [FAILURE]. *)
Definition swaps_fail : Answers nat :=
  fun c n =>
    match c with
    | Call_swap _ _ _ _ => (inr (mkResult FAILURE "0xdef"), S n)
    | _ => (inr (mkResult SUCCESS "0xabc"), S n)
    end.

Definition transfer : Call :=
  Call_send_ETH "https://testnet" 0.5%float "0xTo".

End Scenario.

(** The object a call is made on lives on one node. *)
Definition call_node (c : Call) : Endpoint :=
  match c with
  | Call_send_ETH node _ _ => node
  | Call_approve coin _ _ => coin_node coin
  | Call_swap swapper _ _ _ => swapper_node swapper
  end.

Definition is_swap (c : Call) : bool :=
  match c with Call_swap _ _ _ _ => true | _ => false end.

(** An arbitrage over two endpoints, as [_instantiate] builds it: the
    first swapper and coin on endpoint 1, the second on endpoint 2. *)
Module ArbitrageScenario.

Definition node_1 : Endpoint := "https://endpoint-1".
Definition node_2 : Endpoint := "https://endpoint-2".

Definition swapper_1 : Swapper := mkSwapper Uniswap "0xSwap1" node_1.
Definition swapper_2 : Swapper := mkSwapper Curve "0xSwap2" node_2.
Definition coin1_1 : Coin := mkCoin "0xCoin1on1" node_1.
Definition coin2_2 : Coin := mkCoin "0xCoin2on2" node_2.

Definition config : Arbitrage.Config :=
  Arbitrage.mkConfig "0xCoin2on1" "0xCoin1on2".

Definition program (retries : Z) : Arbitrage.t :=
  Arbitrage.mk 100 (Some retries) node_1 node_2 swapper_1 swapper_2
    coin1_1 coin2_2.

End ArbitrageScenario.

(** A node whose client answers the wait for a receipt with [receipt]. *)
Module NodeScenario.

Definition web3 (connected : bool) (receipt : Exn + Receipt) : Web3 :=
  mkWeb3 (fun _ => connected) (mkBlock 100 7) 2 (fun _ => 5) 11155111
    (fun _ _ => inr "signed") (fun _ => inr "0xhash") (fun _ _ => receipt).

Definition node (receipt : Exn + Receipt) : Web3Node.t :=
  Web3Node.mk "https://testnet" (Some 5) (web3 true receipt) "0xMe" "key".

(** A stand-in for pydantic: it accepts the fields as they are when the
    nonce is an integer. *)
Definition to_dictionary (fields : gmap string PyVal)
    : Exn + gmap string PyVal :=
  match fields !! "nonce" with
  | Some (PyInt _) => inr fields
  | _ => inl ValidationError
  end.

End NodeScenario.

(** ** What the builder is expected to do, in the words of the spec *)

(** The four fields the builder takes from chain state when the caller
    leaves them out: the nonce from the sender's transaction count, the
    fees from the latest block's base fee and the priority-fee oracle,
    the chain id from the chain. *)
Definition chain_fields (self : Web3Node.t) : gmap string PyVal :=
  let web3 := Web3Node._web3 self in
  let priority := eth_max_priority_fee web3 in
  let base_fee := baseFeePerGas (eth_get_block_latest web3) in
  <["nonce" := PyInt (eth_get_transaction_count web3
                        (Web3Node._account_address self))]>
  (<["maxFeePerGas" := PyInt (2 * base_fee + priority)]>
  (<["maxPriorityFeePerGas" := PyInt priority]>
  (<["chainId" := PyInt (eth_chain_id web3)]> ∅))).

(** The chain queries this takes: the transaction count when the nonce
    is missing, both fee queries when at least one fee field is
    missing, the chain id when it is missing. *)
Definition queries_made (self : Web3Node.t) (overrides : gmap string PyVal)
    : list Event :=
  (if Web3Node.not_in "nonce" overrides
   then [EEth (get_transaction_count (Web3Node._account_address self))]
   else [])
  ++ (if Web3Node.not_in "maxFeePerGas" overrides
         || Web3Node.not_in "maxPriorityFeePerGas" overrides
      then [EEth get_block_latest; EEth max_priority_fee]
      else [])
  ++ (if Web3Node.not_in "chainId" overrides then [EEth chain_id] else []).

(** ** Reading a run of the block watcher *)

(** The height changes the watcher reports: its prints of a block
    number. *)
Fixpoint observed_changes (trace : list Event) : Z :=
  match trace with
  | [] => 0
  | EPrintNumber _ _ :: rest => 1 + observed_changes rest
  | _ :: rest => observed_changes rest
  end.

(** The transfers the watcher starts: its prints of "Sending ETH...",
    each followed by the retried [send_ETH]. *)
Fixpoint transfers_started (trace : list Event) : Z :=
  match trace with
  | [] => 0
  | EPrint msg :: rest =>
      (if String.eqb msg "Sending ETH..." then 1 else 0)
      + transfers_started rest
  | _ :: rest => transfers_started rest
  end.

(** The height changes in a list of polls that all give a block number,
    seen from [current]. *)
Fixpoint height_changes (current : Z) (polls : list (Exn + Z)) : Z :=
  match polls with
  | [] => 0
  | inr n :: rest =>
      if bool_decide (n <> current) then 1 + height_changes n rest
      else height_changes current rest
  | inl _ :: rest => height_changes current rest
  end.

(** Every call is answered with a result. *)
Definition always_answers {W} (answers : Answers W) : Prop :=
  forall c w, exists r w', answers c w = (inr r, w').

Definition is_block_number (poll : Exn + Z) : Prop :=
  match poll with inr _ => True | inl _ => False end.

Module WatcherScenario.

(** A watcher that sends every third block, with five retries. *)
Definition program : ListenAndSend.t :=
  ListenAndSend.mk 0.5%float 3 (Some 5) "0xTo" "https://testnet".

(** Polls after block 100: three new heights, one of them seen twice. *)
Definition polls : list (Exn + Z) := [inr 101; inr 101; inr 102; inr 103].

End WatcherScenario.

(** ** Reading a run of the connection setup *)

(** The connection attempts of a trace: the client objects made. *)
Fixpoint attempts_of (trace : list Event) : nat :=
  match trace with
  | [] => 0
  | ENewWeb3 _ :: rest => S (attempts_of rest)
  | _ :: rest => attempts_of rest
  end.

(** The sleeps of a trace, in order. *)
Fixpoint sleeps_of (trace : list Event) : list Z :=
  match trace with
  | [] => []
  | ESleep seconds :: rest => seconds :: sleeps_of rest
  | _ :: rest => sleeps_of rest
  end.

(** One retry as the trace shows it: the client is found unconnected,
    the program says so, sleeps one second and makes a new client. *)
Definition retry_events (endpoint : Endpoint) : list Event :=
  [EIsConnected endpoint; EPrint "Web3 connection failed. Retrying..";
   ESleep 1; ENewWeb3 endpoint].

Fixpoint retries_events (endpoint : Endpoint) (n : nat) : list Event :=
  match n with
  | O => []
  | S n' => retry_events endpoint ++ retries_events endpoint n'
  end.

(** The attempt the loop stops at, from attempt [j] with [k] retries
    left: the first whose client answers the test of the loop with
    connected, or attempt [j + k]. *)
Fixpoint settle (clients : nat -> Web3) (k j : nat) : nat :=
  match k with
  | O => j
  | S k' =>
      if is_connected (clients j) 0%nat then j else settle clients k' (S j)
  end.

Module ConnectScenario.

(** An endpoint that never reports connected. *)
Definition unreachable : nat -> Web3 :=
  fun _ => NodeScenario.web3 false (inl TimeExhausted).

(** An endpoint whose third client connects. *)
Definition third_time : nat -> Web3 :=
  fun k => NodeScenario.web3 (bool_decide (k = 2%nat)) (inl TimeExhausted).

(** An endpoint whose clients answer the first call of
    [is_connected()] with connected and every later one with
    unconnected: the connection drops after the first probe. *)
Definition dropping : nat -> Web3 :=
  fun _ =>
    mkWeb3 (fun n => bool_decide (n = 0%nat)) (mkBlock 100 7) 2 (fun _ => 5)
      11155111 (fun _ _ => inr "signed") (fun _ => inr "0xhash")
      (fun _ _ => inl TimeExhausted).

(** An endpoint whose clients answer the first call with unconnected
    and every later one with connected. *)
Definition late : nat -> Web3 :=
  fun _ =>
    mkWeb3 (fun n => negb (bool_decide (n = 0%nat))) (mkBlock 100 7) 2
      (fun _ => 5) 11155111 (fun _ _ => inr "signed") (fun _ => inr "0xhash")
      (fun _ _ => inl TimeExhausted).

End ConnectScenario.

(** ** Reading a run of the Curve swapper *)

(** The pool answers its reads: [N_COINS] gives [K] and slot [i] holds
    the coin [pool i]. *)
Definition pool_reads (c : CurveContract) (K : Z) (pool : Z -> Address)
    : Prop :=
  call_N_COINS c = inr K
  /\ forall i, 0 <= i < K -> call_coins c i = inr (pool i).

(** The coin [a] is in one of the [K] slots. *)
Definition resolves (K : Z) (pool : Z -> Address) (a : Address) : Prop :=
  exists i, 0 <= i < K /\ pool i = a.

(** What one slot contributes to the result. *)
Definition slot_entry (pool : Z -> Address) (coin_set : gset Address)
    (i : Z) : gmap Address Z :=
  if bool_decide (pool i ∈ coin_set) then {[ pool i := i ]} else ∅.

(** The reads of the index lookup: the pool size, then every slot. *)
Definition lookup_events (K : Z) : list Event :=
  EContract N_COINS :: map (fun i => EContract (coins i)) (seqZ 0 K).

(** Events that belong to the swap proper: the estimate, the exchange
    call, signing and sending. *)
Definition swap_event (ev : Event) : bool :=
  match ev with
  | EContract (get_dy _ _ _) => true
  | EContract (exchange _ _ _ _) => true
  | EEth sign_transaction => true
  | EEth send_raw_transaction => true
  | _ => false
  end.

Module CurveScenario.

(** A pool of three coins. *)
Definition slots (i : Z) : Address :=
  if i =? 0 then "0xDAI" else if i =? 1 then "0xUSDC" else "0xUSDT".

Definition contract : CurveContract :=
  mkCurveContract (inr 3) (fun i => inr (slots i)) (fun _ _ amount => inr amount)
    (fun _ _ _ _ => inr (fun tx => inr tx)).

Definition swapper : Curve.t :=
  Curve.mk "0xPool" (NodeScenario.node (inr (mkReceipt 1))) contract.

End CurveScenario.
(** ** Reading further runs of the Curve swapper *)

(** What [_lookup_coin] makes of the read of slot [i]: the entry for
    the coin read, or the exception raised, with the two contract
    errors turned into [SwapException]. *)
Definition lookup_result (c : CurveContract) (coin_set : gset Address)
    (i : Z) : Exn + gmap Address Z :=
  match call_coins c i with
  | inl e =>
      inl (if issubclass e ContractLogicError
              || issubclass e ABIFunctionNotFound
           then SwapException else e)
  | inr address =>
      inr (if bool_decide (address ∈ coin_set)
           then {[ address := i ]} else ∅)
  end.

(** Slot [j] is the last of the [K] slots that holds the coin [a]. *)
Definition last_slot (K : Z) (pool : Z -> Address) (a : Address) (j : Z)
    : Prop :=
  0 <= j < K /\ pool j = a /\ forall i, j < i < K -> pool i <> a.

Module CurvePoolScenario.

(** A pool of three slots whose second read fails. *)
Definition broken : CurveContract :=
  mkCurveContract (inr 3)
    (fun i => if i =? 1 then inl ContractLogicError
              else inr (CurveScenario.slots i))
    (fun _ _ amount => inr amount) (fun _ _ _ _ => inr (fun tx => inr tx)).

(** A pool whose size cannot be read. *)
Definition sizeless : CurveContract :=
  mkCurveContract (inl ABIFunctionNotFound)
    (fun i => inr (CurveScenario.slots i))
    (fun _ _ amount => inr amount) (fun _ _ _ _ => inr (fun tx => inr tx)).

(** A pool of four slots with "0xDAI" in slots 0 and 3. *)
Definition repeated (i : Z) : Address :=
  if i =? 3 then "0xDAI" else CurveScenario.slots i.

(** A pool of three coins whose estimate is as given. *)
Definition estimating (estimate : Exn + Z) : CurveContract :=
  mkCurveContract (inr 3) (fun i => inr (CurveScenario.slots i))
    (fun _ _ _ => estimate) (fun _ _ _ _ => inr (fun tx => inr tx)).

Definition on (c : CurveContract) : Curve.t :=
  Curve.mk "0xPool" (NodeScenario.node (inr (mkReceipt 1))) c.

End CurvePoolScenario.

(** ** Reading a run of [approve] and of the Uniswap swapper *)

(** The chain queries of a builder run without overrides. *)
Definition all_queries (self : Web3Node.t) : list Event :=
  [EEth (get_transaction_count (Web3Node._account_address self));
   EEth get_block_latest; EEth max_priority_fee; EEth chain_id].

(** What is left to do once the contract function is there: build the
    transaction data from the chain, let the function build the
    transaction, submit it. *)
Definition build_and_submit {W}
    (to_dictionary : gmap string PyVal -> Exn + gmap string PyVal)
    (node : Web3Node.t) (function : ContractFunction) (w : W)
    : Res TransactionResult * W * list Event :=
  match function with
  | inl e => (Raise e, w, [])
  | inr build_transaction =>
      match to_dictionary (chain_fields node) with
      | inl e =>
          (Raise (if bool_decide (e = ValidationError)
                  then TransactionException else e), w, all_queries node)
      | inr tx_data =>
          match build_transaction tx_data with
          | inl e => (Raise e, w, all_queries node)
          | inr transaction =>
              let run := Web3Node.send_transaction node transaction w in
              (result_of run, world_of run, all_queries node ++ trace_of run)
          end
      end
  end.

Module ContractScenario.

(** A coin whose [approve] function is accepted and builds the
    transaction data it is given with a [data] field. *)
Definition coin : ERC20Coin.t :=
  ERC20Coin.mk "0xCoin" (NodeScenario.node (inr (mkReceipt 1)))
    (fun _ _ => inr (fun tx => inr (<["data" := PyStr "approve"]> tx))).

(** A Uniswap router of the same kind. *)
Definition router : Uniswap.t :=
  Uniswap.mk "0xRouter" (NodeScenario.node (inr (mkReceipt 1)))
    (fun _ => inr (fun tx => inr (<["data" := PyStr "swap"]> tx))).

(** A stand-in for pydantic on [UniswapData]: it wants an integer
    [fee] when there is one. *)
Definition uniswap_to_dictionary (fields : gmap string PyVal)
    : Exn + gmap string PyVal :=
  match fields !! "fee" with
  | Some (PyInt _) | None => inr fields
  | _ => inl ValidationError
  end.

End ContractScenario.


(** ** abi_loader.py *)

Module ABILoader.

(** What reading one [*.json] file gives: its parsed content, or one of
    the two failures [_load_abis] catches ([FileNotFoundError],
    [json.JSONDecodeError]). *)
Inductive Read (ABI : Type) : Type :=
| Parsed (abi : ABI)
| Unreadable.
Arguments Parsed {ABI} abi.
Arguments Unreadable {ABI}.

Section Loader.
Context {ABI : Type}.

(** [_load_abis], lines 39-48, over the files the glob gives, each with
    its stem: the prints and the dictionary [_abis]. *)
Fixpoint load_files (files : list (string * Read ABI))
    (_abis : gmap string ABI) : list string * gmap string ABI :=
  match files with
  | [] => ([], _abis)
  | (name, Parsed abi) :: rest => load_files rest (<[name := abi]> _abis)
  | (name, Unreadable) :: rest =>
      match load_files rest _abis with
      | (prints, loaded) => ("Error reading from " :: prints, loaded)
      end
  end.

Definition _load_abis (files : list (string * Read ABI))
    : list string * gmap string ABI :=
  match load_files files ∅ with
  | (prints, _abis) =>
      (prints ++ (if bool_decide (_abis = ∅) then ["No ABIs found"] else []),
       _abis)
  end.

(** [get_abi], lines 28-37: the prints, and the ABI or [None] for
    [ABIException]. *)
Definition get_abi (_abis : gmap string ABI) (name : string)
    : list string * option ABI :=
  ((if bool_decide (_abis = ∅) then ["No ABIs found"] else []),
   _abis !! name).

End Loader.
End ABILoader.
(** ** Reading a load of the ABI directory *)

(** A file that could not be read or parsed. *)
Definition unreadable {ABI} (file : string * ABILoader.Read ABI) : bool :=
  match snd file with
  | ABILoader.Unreadable => true
  | ABILoader.Parsed _ => false
  end.

Module ABIScenario.

(** A directory of three files, the second of them broken. *)
Definition directory : list (string * ABILoader.Read string) :=
  [("erc20", ABILoader.Parsed "[approve]"); ("broken", ABILoader.Unreadable);
   ("curve", ABILoader.Parsed "[exchange]")].

End ABIScenario.


(** ** Budgets and worlds for further runs *)

(** A budget that [retried] can never reach: [None], or a negative
    number. *)
Definition unreachable_budget (retries : option Z) : Prop :=
  retries = None \/ exists R, retries = Some R /\ R < 0.

Module RetryScenario.

(** A world that counts its calls and answers [FAILURE] to the first
    [k] of them and [SUCCESS] from then on. *)
Definition succeeds_after (k : nat) : Answers nat :=
  fun _ n =>
    (inr (mkResult (if (n <? k)%nat then FAILURE else SUCCESS) "0xabc"), S n).

End RetryScenario.

(** A poll that fails with one of the two exceptions the loop of the
    watcher catches. *)
Definition transient (poll : Exn + Z) : bool :=
  match poll with
  | inl HTTPError => true
  | inl TimeExhausted => true
  | _ => false
  end.

Definition caught_in_loop (e : Exn) : bool :=
  bool_decide (e = HTTPError) || bool_decide (e = TimeExhausted).

Module FailureScenario.

(** A world in which every call raises [e]. *)
Definition raises (e : Exn) : Answers nat :=
  fun _ n => (inl e, S n).

(** A watcher that sends on every new block. *)
Definition every_block : ListenAndSend.t :=
  ListenAndSend.mk 0.5%float 1 (Some 5) "0xTo" "https://testnet".

End FailureScenario.

Module SubmitScenario.

(** A node whose client answers signing, sending and the wait for the
    receipt as given. *)
Definition node (sign : Exn + string) (send : Exn + Hash)
    (receipt : Exn + Receipt) : Web3Node.t :=
  Web3Node.mk "https://testnet" (Some 5)
    (mkWeb3 (fun _ => true) (mkBlock 100 7) 2 (fun _ => 5) 11155111
       (fun _ _ => sign) (fun _ => send) (fun _ _ => receipt))
    "0xMe" "key".

End SubmitScenario.

Module TransferScenario.

(** Stand-ins for the address helpers and the unit conversion of the
    client library: addresses start with "0x", the checksum form is
    the address itself, and every amount is 500 wei. *)
Definition is_address (address : string) : bool :=
  String.prefix "0x" address.

Definition to_checksum_address (address : string) : Address := address.

Definition to_wei (amount : float) : Z := 500.

End TransferScenario.

(** * Properties *)

(** ** The monad *)

Section MonadFacts.
Context {W : Type}.

Lemma bind_emit {B} (ev : Event) (k : unit -> M W B) (w : W) :
  bind (emit ev) k w =
  match k tt w with (r, w2, t2) => (r, w2, ev :: t2) end.
Proof. reflexivity. Qed.

Lemma bind_print {B} (msg : string) (k : unit -> M W B) (w : W) :
  bind (print msg) k w =
  match k tt w with (r, w2, t2) => (r, w2, EPrint msg :: t2) end.
Proof. reflexivity. Qed.

Lemma bind_ret {A B} (a : A) (k : A -> M W B) (w : W) :
  bind (ret a) k w = match k a w with (r, w2, t2) => (r, w2, t2) end.
Proof. reflexivity. Qed.

Lemma bind_print_ret {A B} (msg : string) (a : A) (k : A -> M W B) (w : W) :
  bind (bind (print msg) (fun _ => ret a)) k w =
  match k a w with (r, w2, t2) => (r, w2, EPrint msg :: t2) end.
Proof.
  unfold bind, print, emit, ret.
  destruct (k a w) as [[r w2] t2]. reflexivity.
Qed.

Lemma bind_ask_ok {A B} (ev : Event) (oracle : W -> (Exn + A) * W)
    (k : A -> M W B) (w w' : W) (a : A) :
  oracle w = (inr a, w') ->
  bind (ask ev oracle) k w =
  match k a w' with (r, w2, t2) => (r, w2, ev :: t2) end.
Proof. intros H. unfold bind, ask. rewrite H. reflexivity. Qed.

Lemma bind_ask_raise {A B} (ev : Event) (oracle : W -> (Exn + A) * W)
    (k : A -> M W B) (w w' : W) (e : Exn) :
  oracle w = (inl e, w') ->
  bind (ask ev oracle) k w = (Raise e, w', [ev]).
Proof. intros H. unfold bind, ask. rewrite H. reflexivity. Qed.

Lemma bind_assoc {A B C} (m : M W A) (k1 : A -> M W B) (k2 : B -> M W C)
    (w : W) :
  bind (bind m k1) k2 w = bind m (fun a => bind (k1 a) k2) w.
Proof.
  unfold bind.
  destruct (m w) as [[[a| |] w1] t1]; try reflexivity.
  destruct (k1 a w1) as [[[b| |] w2] t2]; try reflexivity.
  destruct (k2 b w2) as [[r w3] t3].
  rewrite app_assoc. reflexivity.
Qed.

Lemma calls_of_app (t1 t2 : list Event) :
  calls_of (t1 ++ t2) = calls_of t1 ++ calls_of t2.
Proof.
  induction t1 as [|ev t1 IH]; [reflexivity|].
  destruct ev; simpl; rewrite ?IH; reflexivity.
Qed.

End MonadFacts.

(** ** The retry loop *)

Section RetryFacts.
Context {W : Type} (answers : Answers W).

Lemma int_ne_optional_same (R : Z) : int_ne_optional R (Some R) = false.
Proof. simpl. rewrite Z.eqb_refl. reflexivity. Qed.

Lemma int_ne_optional_other (n R : Z) :
  n <> R -> int_ne_optional n (Some R) = true.
Proof. intros H. simpl. apply Z.eqb_neq in H. rewrite H. reflexivity. Qed.

(** A result that is [SUCCESS] leaves the loop at once. *)
Lemma retry_loop_success (fuel : nat) (msg : string)
    (again : M W TransactionResult) (retries : option Z)
    (result : TransactionResult) (retried : Z) (w : W) :
  status result = SUCCESS ->
  retry_loop fuel msg again retries result retried w
  = (Ok (result, retried), w, []).
Proof.
  intros Hs. destruct fuel; simpl; rewrite bool_decide_eq_false_2;
    try reflexivity; intros Hn; apply Hn; exact Hs.
Qed.

(** With [k] retries left and an operation that never succeeds, the
    loop makes [k] more calls and is left with the answer to the last. *)
Lemma retry_loop_exhausts (msg : string) (c : Call) (R : Z) :
  never_succeeds answers [c] ->
  forall (k fuel : nat) (result : TransactionResult) (retried : Z) (w : W),
    status result <> SUCCESS ->
    retried + Z.of_nat k = R ->
    (k <= fuel)%nat ->
    exists r w' t,
      retry_loop fuel msg (invoke answers c) (Some R) result retried w
      = (Ok (r, R), w', t)
      /\ calls_of t = replicate k c
      /\ last_answer answers c k (inr result, w) = (inr r, w')
      /\ status r <> SUCCESS.
Proof.
  intros Hnever k.
  induction k as [|k IH]; intros fuel result retried w Hs Hk Hfuel.
  - assert (retried = R) as -> by lia.
    exists result, w, [].
    split; [|auto].
    destruct fuel; simpl; rewrite Z.eqb_refl, andb_false_r; reflexivity.
  - destruct fuel as [|fuel]; [lia|].
    destruct (Hnever c w) as (r1 & w1 & Hans & Hs1); [left; reflexivity|].
    destruct (IH fuel r1 (retried + 1) w1 Hs1 ltac:(lia) ltac:(lia))
      as (r & w' & t & Hrun & Hcalls & Hlast & Hsr).
    exists r, w', (EPrint msg :: EPrint "Retrying..." :: EMethod c :: t).
    split; [|split; [|split]].
    + cbn [retry_loop].
      rewrite bool_decide_eq_true_2 by exact Hs.
      rewrite int_ne_optional_other by lia.
      cbn [andb].
      rewrite !bind_print. unfold invoke.
      rewrite (bind_ask_ok _ _ _ w w1 r1 Hans).
      fold (invoke answers c). rewrite Hrun. reflexivity.
    + simpl. rewrite Hcalls. reflexivity.
    + simpl. rewrite Hans. exact Hlast.
    + exact Hsr.
Qed.

(** The first call and the loop together. *)
Lemma with_retries_exhausts (msg : string) (c1 c2 : Call) (R : Z)
    (fuel : nat) (w : W) :
  never_succeeds answers [c1; c2] ->
  0 <= R ->
  (Z.to_nat R <= fuel)%nat ->
  exists r w' t,
    with_retries fuel msg (invoke answers c1) (invoke answers c2) (Some R) w
    = (Ok (r, R), w', t)
    /\ calls_of t = c1 :: replicate (Z.to_nat R) c2
    /\ last_answer answers c2 (Z.to_nat R) (answers c1 w) = (inr r, w')
    /\ status r <> SUCCESS.
Proof.
  intros Hnever HR Hfuel.
  destruct (Hnever c1 w) as (r1 & w1 & Hans & Hs1); [left; reflexivity|].
  assert (never_succeeds answers [c2]) as Hnever2.
  { intros c w0 [<-|[]]. apply Hnever. right; left; reflexivity. }
  destruct (retry_loop_exhausts msg c2 R Hnever2 (Z.to_nat R) fuel r1 0 w1
              Hs1 ltac:(lia) Hfuel)
    as (r & w' & t & Hrun & Hcalls & Hlast & Hsr).
  exists r, w', (EMethod c1 :: t).
  split; [|split; [|split]].
  - unfold with_retries, invoke.
    rewrite (bind_ask_ok _ _ _ w w1 r1 Hans).
    fold (invoke answers c2). rewrite Hrun. reflexivity.
  - simpl. rewrite Hcalls. reflexivity.
  - rewrite Hans. exact Hlast.
  - exact Hsr.
Qed.

End RetryFacts.

(** C1.  Retry exhaustion.  For a budget [R >= 0] and calls that are
    never answered with [SUCCESS], the retry loop of [core.py] (first
    call [c1], repeated call [c2]) ends normally once it has fuel for
    [R] passes: it raises nothing, [retried] has reached [R], the calls
    made are [c1] followed by exactly [R] times [c2], which is [R + 1]
    calls, and the result it hands back is the answer to the last
    call. *)
Theorem C1_retry_exhaustion {W : Type} (answers : Answers W)
    (unsuccessful : string) (c1 c2 : Call) (R : Z) (fuel : nat) (w : W) :
  0 <= R ->
  never_succeeds answers [c1; c2] ->
  (Z.to_nat R <= fuel)%nat ->
  exists r w' t,
    with_retries fuel unsuccessful (invoke answers c1) (invoke answers c2)
      (Some R) w = (Ok (r, R), w', t)
    /\ calls_of t = c1 :: replicate (Z.to_nat R) c2
    /\ Z.of_nat (length (calls_of t)) = R + 1
    /\ last_answer answers c2 (Z.to_nat R) (answers c1 w) = (inr r, w')
    /\ status r <> SUCCESS.
Proof.
  intros HR Hnever Hfuel.
  destruct (with_retries_exhausts answers unsuccessful c1 c2 R fuel w
              Hnever HR Hfuel) as (r & w' & t & Hrun & Hcalls & Hlast & Hs).
  exists r, w', t. repeat split; try assumption.
  rewrite Hcalls. simpl. rewrite length_replicate. lia.
Qed.

Lemma C1_retry_exhaustion_witness :
  exists r w' t,
    with_retries 2 "Transaction Unsucessful"
      (invoke (Scenario.always FAILURE) Scenario.transfer)
      (invoke (Scenario.always FAILURE) Scenario.transfer)
      (Some 2) 0%nat = (Ok (r, 2), w', t)
    /\ calls_of t = Scenario.transfer :: replicate (Z.to_nat 2) Scenario.transfer
    /\ Z.of_nat (length (calls_of t)) = 2 + 1
    /\ last_answer (Scenario.always FAILURE) Scenario.transfer (Z.to_nat 2)
         (Scenario.always FAILURE Scenario.transfer 0%nat) = (inr r, w')
    /\ status r <> SUCCESS.
Proof.
  apply (C1_retry_exhaustion (Scenario.always FAILURE)
           "Transaction Unsucessful" Scenario.transfer Scenario.transfer
           2 2 0%nat).
  - lia.
  - intros c w _. exists (mkResult FAILURE "0xabc"), (S w).
    split; [reflexivity | discriminate].
  - simpl. lia.
Defined.

(** ** The calls a retried operation makes, whatever it is answered *)

Section RetryCalls.
Context {W : Type} (answers : Answers W).

Lemma retry_loop_calls (msg : string) (c : Call) (retries : option Z)
    (fuel : nat) :
  forall (result : TransactionResult) (retried : Z) (w : W),
  exists n,
    calls_of (trace_of (retry_loop fuel msg (invoke answers c) retries
                          result retried w)) = replicate n c.
Proof.
  induction fuel as [|fuel IH]; intros result retried w; cbn [retry_loop].
  - exists 0%nat. destruct (_ && _); reflexivity.
  - destruct (_ && _); [|exists 0%nat; reflexivity].
    rewrite !bind_print. unfold invoke at 1.
    destruct (answers c w) as [[e|r1] w1] eqn:Hans.
    + rewrite (bind_ask_raise _ _ _ w w1 e Hans).
      exists 1%nat. reflexivity.
    + rewrite (bind_ask_ok _ _ _ w w1 r1 Hans).
      destruct (IH r1 (retried + 1) w1) as [n Hn].
      exists (S n).
      destruct (retry_loop fuel msg (invoke answers c) retries r1
                  (retried + 1) w1) as [[r2 w2] t2].
      unfold trace_of in *. simpl in *. rewrite Hn. reflexivity.
Qed.

Lemma with_retries_calls (msg : string) (c1 c2 : Call) (retries : option Z)
    (fuel : nat) (w : W) :
  exists n,
    calls_of (trace_of (with_retries fuel msg (invoke answers c1)
                          (invoke answers c2) retries w))
    = c1 :: replicate n c2.
Proof.
  unfold with_retries, invoke at 1.
  destruct (answers c1 w) as [[e|r1] w1] eqn:Hans.
  - rewrite (bind_ask_raise _ _ _ w w1 e Hans). exists 0%nat. reflexivity.
  - rewrite (bind_ask_ok _ _ _ w w1 r1 Hans).
    destruct (retry_loop_calls msg c2 retries fuel r1 0 w1) as [n Hn].
    exists n.
    destruct (retry_loop fuel msg (invoke answers c2) retries r1 0 w1)
      as [[r2 w2] t2].
    unfold trace_of in *. simpl in *. rewrite Hn. reflexivity.
Qed.

(** A first answer without [SUCCESS], a budget other than 0 and fuel
    for one pass: the operation is called again. *)
Lemma with_retries_first_retry (msg : string) (c1 c2 : Call)
    (retries : option Z) (fuel : nat) (w : W) (r1 : TransactionResult)
    (w1 : W) :
  answers c1 w = (inr r1, w1) ->
  status r1 <> SUCCESS ->
  retries <> Some 0 ->
  (0 < fuel)%nat ->
  exists n,
    calls_of (trace_of (with_retries fuel msg (invoke answers c1)
                          (invoke answers c2) retries w))
    = c1 :: c2 :: replicate n c2.
Proof.
  intros Hans Hs Hbudget Hfuel.
  destruct fuel as [|fuel]; [lia|].
  assert (int_ne_optional 0 retries = true) as Hne.
  { destruct retries as [R|]; [|reflexivity].
    apply int_ne_optional_other. intros <-. apply Hbudget. reflexivity. }
  unfold with_retries, invoke at 1.
  rewrite (bind_ask_ok _ _ _ w w1 r1 Hans).
  cbn [retry_loop]. rewrite bool_decide_eq_true_2 by exact Hs.
  rewrite Hne. cbn [andb]. rewrite !bind_print. unfold invoke at 1.
  destruct (answers c2 w1) as [[e|r2] w2] eqn:Hans2.
  - rewrite (bind_ask_raise _ _ _ w1 w2 e Hans2). exists 0%nat. reflexivity.
  - rewrite (bind_ask_ok _ _ _ w1 w2 r2 Hans2).
    destruct (retry_loop_calls msg c2 retries fuel r2 (0 + 1) w2) as [n Hn].
    exists n.
    destruct (retry_loop fuel msg (invoke answers c2) retries r2 (0 + 1) w2)
      as [[r3 w3] t3].
    unfold trace_of in *. simpl in *. rewrite Hn. reflexivity.
Qed.

(** A first answer with [SUCCESS]: the operation is not called again. *)
Lemma with_retries_no_retry (msg : string) (c1 c2 : Call)
    (retries : option Z) (fuel : nat) (w : W) (r1 : TransactionResult)
    (w1 : W) :
  answers c1 w = (inr r1, w1) ->
  status r1 = SUCCESS ->
  calls_of (trace_of (with_retries fuel msg (invoke answers c1)
                        (invoke answers c2) retries w))
  = [c1].
Proof.
  intros Hans Hs. unfold with_retries, invoke at 1.
  rewrite (bind_ask_ok _ _ _ w w1 r1 Hans).
  rewrite retry_loop_success by exact Hs. reflexivity.
Qed.

(** The trace of [m] followed by [k]. *)
Lemma trace_of_bind {A B} (m : M W A) (k : A -> M W B) (w : W) :
  trace_of (bind m k w) =
  match m w with
  | (Ok a, w1, t1) => t1 ++ trace_of (k a w1)
  | (_, _, t1) => t1
  end.
Proof.
  unfold bind, trace_of.
  destruct (m w) as [[[a| |] w1] t1]; simpl; try reflexivity.
  destruct (k a w1) as [[r w2] t2]. reflexivity.
Qed.

End RetryCalls.

(** ** The arbitrage leg *)

Section LegFacts.
Context {W : Type} (answers : Answers W).

(** The calls of a leg whose approval is answered with [SUCCESS] at
    once: that approval, then the calls of the swap with its retries. *)
Lemma leg_calls_after_approval (fuel : nat) (self : Arbitrage.t)
    (sell_coin : Coin) (swapper : Swapper) (buy_coin_address : Address)
    (w : W) (h : Hash) (w1 : W) :
  let approve :=
    Call_approve sell_coin (swapper_address swapper) (Arbitrage.amount self) in
  let own_swap :=
    Call_swap swapper (coin_address sell_coin) buy_coin_address
      (Arbitrage.amount self) in
  let first_swap :=
    Call_swap (Arbitrage._swapper_1 self) (coin_address sell_coin)
      buy_coin_address (Arbitrage.amount self) in
  answers approve w = (inr (mkResult SUCCESS h), w1) ->
  calls_of (trace_of (Arbitrage._swap answers fuel self sell_coin swapper
                        buy_coin_address w))
  = approve
    :: calls_of (trace_of (with_retries fuel "Swap Unsucessful"
                             (invoke answers own_swap)
                             (invoke answers first_swap)
                             (Arbitrage.retries self) w1)).
Proof.
  intros approve own_swap first_swap Hans.
  unfold Arbitrage._swap. fold approve own_swap first_swap.
  unfold with_retries at 1. rewrite bind_assoc. unfold invoke at 1.
  rewrite (bind_ask_ok _ _ _ w w1 _ Hans).
  unfold bind at 1. rewrite retry_loop_success by reflexivity.
  cbn [fst status].
  rewrite bool_decide_eq_true_2 by reflexivity.
  rewrite bind_print_ret.
  unfold bind at 1.
  destruct (with_retries fuel "Swap Unsucessful" (invoke answers own_swap)
              (invoke answers first_swap) (Arbitrage.retries self) w1)
    as [[[q| |] w3] t3]; unfold trace_of; cbn [fst snd].
  - destruct (bool_decide (status (fst q) = SUCCESS));
      [|destruct (bool_decide (status (fst q) = FAILURE))];
      cbn; rewrite calls_of_app; cbn; rewrite app_nil_r; reflexivity.
  - reflexivity.
  - reflexivity.
Qed.

(** C3.  In [_swap], whatever the world answers and however long the
    run lasts, the calls of a leg are approvals on the leg's coin for
    the leg's swapper and then, if any swap is made, first one swap
    through the swapper the leg was given and after it only swaps
    through [self._swapper_1].  After an approval that succeeds at
    once: a first swap answered without [SUCCESS] is resubmitted
    through [self._swapper_1] whenever the budget is not 0; when no
    swap is ever answered with [SUCCESS] and the budget is [R >= 0],
    the swap through the leg's swapper is followed by exactly [R] swaps
    through [self._swapper_1]; and a first swap answered with
    [SUCCESS] is followed by no other call. *)
Theorem C3_swap_retries_use_first_swapper (fuel : nat) (self : Arbitrage.t)
    (sell_coin : Coin)
    (swapper : Swapper) (buy_coin_address : Address) (w : W) :
  let approve :=
    Call_approve sell_coin (swapper_address swapper) (Arbitrage.amount self) in
  let own_swap :=
    Call_swap swapper (coin_address sell_coin) buy_coin_address
      (Arbitrage.amount self) in
  let first_swap :=
    Call_swap (Arbitrage._swapper_1 self) (coin_address sell_coin)
      buy_coin_address (Arbitrage.amount self) in
  let calls :=
    calls_of (trace_of (Arbitrage._swap answers fuel self sell_coin swapper
                          buy_coin_address w)) in
  (exists m rest,
     calls = replicate (S m) approve ++ rest
     /\ (rest = []
         \/ exists n, rest = own_swap :: replicate n first_swap))
  /\ (forall h w1 r1 w2,
        answers approve w = (inr (mkResult SUCCESS h), w1) ->
        answers own_swap w1 = (inr r1, w2) ->
        status r1 <> SUCCESS ->
        Arbitrage.retries self <> Some 0 ->
        (0 < fuel)%nat ->
        exists n,
          calls = approve :: own_swap :: first_swap :: replicate n first_swap)
  /\ (forall h w1 R,
        answers approve w = (inr (mkResult SUCCESS h), w1) ->
        never_succeeds answers [own_swap; first_swap] ->
        Arbitrage.retries self = Some R ->
        0 <= R ->
        (Z.to_nat R <= fuel)%nat ->
        calls = approve :: own_swap :: replicate (Z.to_nat R) first_swap)
  /\ (forall h w1 r1 w2,
        answers approve w = (inr (mkResult SUCCESS h), w1) ->
        answers own_swap w1 = (inr r1, w2) ->
        status r1 = SUCCESS ->
        calls = [approve; own_swap]).
Proof.
  intros approve own_swap first_swap calls.
  split; [|split; [|split]].
  2: { intros h w1 r1 w2 Happrove Hown Hs Hbudget Hfuel.
       destruct (with_retries_first_retry answers "Swap Unsucessful" own_swap
                   first_swap (Arbitrage.retries self) fuel w1 r1 w2 Hown Hs
                   Hbudget Hfuel) as [n Hn].
       exists n. unfold calls.
       rewrite (leg_calls_after_approval fuel self sell_coin swapper
                  buy_coin_address w h w1 Happrove).
       fold own_swap first_swap. rewrite Hn. reflexivity. }
  2: { intros h w1 R Happrove Hnever Hretries HR Hfuel.
       destruct (with_retries_exhausts answers "Swap Unsucessful" own_swap
                   first_swap R fuel w1 Hnever HR Hfuel)
         as (r & w2 & t & Hrun & Hcalls & _).
       unfold calls.
       rewrite (leg_calls_after_approval fuel self sell_coin swapper
                  buy_coin_address w h w1 Happrove).
       fold own_swap first_swap. rewrite Hretries, Hrun.
       unfold trace_of. cbn [snd]. rewrite Hcalls. reflexivity. }
  2: { intros h w1 r1 w2 Happrove Hown Hs.
       unfold calls.
       rewrite (leg_calls_after_approval fuel self sell_coin swapper
                  buy_coin_address w h w1 Happrove).
       fold own_swap first_swap.
       rewrite (with_retries_no_retry answers "Swap Unsucessful" own_swap
                  first_swap (Arbitrage.retries self) fuel w1 r1 w2 Hown Hs).
       reflexivity. }
  unfold calls, approve, own_swap, first_swap. clear calls.
  unfold Arbitrage._swap.
  rewrite trace_of_bind.
  set (approve' := Call_approve _ _ _).
  destruct (with_retries_calls answers "Approval Unsucessful" approve' approve'
              (Arbitrage.retries self) fuel w) as [m Hm].
  destruct (with_retries fuel "Approval Unsucessful" (invoke answers approve')
              (invoke answers approve') (Arbitrage.retries self) w)
    as [[[p| |] w1] t1]; unfold trace_of in Hm; simpl in Hm.
  2,3: exists m, []; split; [rewrite app_nil_r; exact Hm | left; reflexivity].
  rewrite calls_of_app, Hm.
  exists m. eexists. split; [reflexivity|].
  destruct (bool_decide (status (fst p) = SUCCESS)).
  2: { destruct (bool_decide (status (fst p) = FAILURE)); left; reflexivity. }
  right.
  rewrite bind_print_ret.
  set (own := Call_swap swapper _ _ _).
  set (first := Call_swap (Arbitrage._swapper_1 self) _ _ _).
  destruct (with_retries_calls answers "Swap Unsucessful" own first
              (Arbitrage.retries self) fuel w1) as [n Hn].
  exists n.
  match goal with |- context [bind ?m ?k w1] =>
    pose proof (trace_of_bind m k w1) as Hb; destruct (bind m k w1) as [[r2 w2] t2]
  end.
  unfold trace_of in Hb. simpl in Hb. simpl. subst t2.
  destruct (with_retries fuel "Swap Unsucessful" (invoke answers own)
              (invoke answers first) (Arbitrage.retries self) w1)
    as [[[q| |] w3] t3]; unfold trace_of in Hn; simpl in Hn.
  2,3: exact Hn.
  rewrite calls_of_app, Hn.
  destruct (bool_decide (status (fst q) = SUCCESS));
    [|destruct (bool_decide (status (fst q) = FAILURE))];
    simpl; rewrite app_nil_r; reflexivity.
Qed.

End LegFacts.

Lemma C3_swap_retries_use_first_swapper_witness :
  calls_of (trace_of (Arbitrage._swap Scenario.swaps_fail 2
                        (ArbitrageScenario.program 2)
                        ArbitrageScenario.coin2_2 ArbitrageScenario.swapper_2
                        "0xCoin1on2" 0%nat))
  = Call_approve ArbitrageScenario.coin2_2 "0xSwap2" 100
    :: Call_swap ArbitrageScenario.swapper_2 "0xCoin2on2" "0xCoin1on2" 100
    :: replicate (Z.to_nat 2)
         (Call_swap ArbitrageScenario.swapper_1 "0xCoin2on2" "0xCoin1on2"
            100).
Proof.
  refine (proj1 (proj2 (proj2
            (C3_swap_retries_use_first_swapper Scenario.swaps_fail 2
               (ArbitrageScenario.program 2) ArbitrageScenario.coin2_2
               ArbitrageScenario.swapper_2 "0xCoin1on2" 0%nat)))
            "0xabc" 1%nat 2 _ _ _ _ _).
  - reflexivity.
  - intros c w [<-|[<-|[]]]; exists (mkResult FAILURE "0xdef"), (S w);
      (split; [reflexivity | discriminate]).
  - reflexivity.
  - lia.
  - simpl. lia.
Defined.

(** The second leg of an arbitrage with two retries, when approvals
    succeed and swaps fail: the first swap goes through the Curve
    swapper of the leg, the two retries through the Uniswap swapper of
    the other leg. *)
Example second_leg_retries_on_first_swapper :
  calls_of (trace_of (Arbitrage.leg_2 Scenario.swaps_fail 2
                        ArbitrageScenario.config
                        (ArbitrageScenario.program 2) 0%nat))
  = [Call_approve ArbitrageScenario.coin2_2 "0xSwap2" 100;
     Call_swap ArbitrageScenario.swapper_2 "0xCoin2on2" "0xCoin1on2" 100;
     Call_swap ArbitrageScenario.swapper_1 "0xCoin2on2" "0xCoin1on2" 100;
     Call_swap ArbitrageScenario.swapper_1 "0xCoin2on2" "0xCoin1on2" 100].
Proof. reflexivity. Qed.

Section LegApproval.
Context {W : Type} (answers : Answers W).

(** A leg whose approval never succeeds ends normally after [R + 1]
    approvals and makes no swap. *)
Lemma leg_stops_when_approval_fails (fuel : nat) (self : Arbitrage.t)
    (sell_coin : Coin) (swapper : Swapper) (buy_coin_address : Address)
    (R : Z) (w : W) :
  let approve :=
    Call_approve sell_coin (swapper_address swapper) (Arbitrage.amount self) in
  Arbitrage.retries self = Some R ->
  0 <= R ->
  (Z.to_nat R <= fuel)%nat ->
  never_succeeds answers [approve] ->
  let run := Arbitrage._swap answers fuel self sell_coin swapper
               buy_coin_address w in
  result_of run = Ok tt
  /\ calls_of (trace_of run) = replicate (S (Z.to_nat R)) approve
  /\ existsb is_swap (calls_of (trace_of run)) = false.
Proof.
  intros approve Hretries HR Hfuel Hnever run.
  assert (never_succeeds answers [approve; approve]) as Hnever2.
  { intros c w0 [<-|[<-|[]]]; apply Hnever; left; reflexivity. }
  destruct (with_retries_exhausts answers "Approval Unsucessful" approve
              approve R fuel w Hnever2 HR Hfuel)
    as (r & w' & t & Hrun & Hcalls & _ & Hs).
  assert (run = (Ok tt, w',
                 t ++ [EPrint (if bool_decide (status r = FAILURE)
                               then "Approval Processed but Failed"
                               else "Approval Not Processed")])) as ->.
  { unfold run, Arbitrage._swap. fold approve. rewrite Hretries.
    unfold bind at 1. rewrite Hrun. cbn [fst].
    rewrite bool_decide_eq_false_2 by exact Hs.
    destruct (bool_decide (status r = FAILURE)); reflexivity. }
  unfold result_of, trace_of. cbn [fst snd].
  rewrite calls_of_app, Hcalls. simpl. rewrite app_nil_r.
  split; [reflexivity|]. split; [reflexivity|].
  clear. induction (Z.to_nat R); [reflexivity | exact IHn].
Qed.

End LegApproval.

(** C4.  The run the claim fails on.  The second leg works on endpoint
    2: its coin and its swapper live there.  With approvals that
    succeed, swaps that fail and two retries, the leg ends normally,
    and its two retried swaps are calls on [_swapper_1], the swapper of
    the first leg on endpoint 1. *)
Theorem C4_second_leg_calls_into_first_leg :
  let self := ArbitrageScenario.program 2 in
  let run := Arbitrage.leg_2 Scenario.swaps_fail 2 ArbitrageScenario.config
               self 0%nat in
  coin_node (Arbitrage._coin2_2 self) = ArbitrageScenario.node_2
  /\ swapper_node (Arbitrage._swapper_2 self) = ArbitrageScenario.node_2
  /\ swapper_node (Arbitrage._swapper_1 self) = ArbitrageScenario.node_1
  /\ result_of run = Ok tt
  /\ map call_node (calls_of (trace_of run))
     = [ArbitrageScenario.node_2; ArbitrageScenario.node_2;
        ArbitrageScenario.node_1; ArbitrageScenario.node_1]
  /\ In (Call_swap (Arbitrage._swapper_1 self) "0xCoin2on2" "0xCoin1on2" 100)
       (calls_of (trace_of run)).
Proof.
  cbv zeta. repeat split; try reflexivity.
  right; right; left; reflexivity.
Qed.

(** ** Receipt verification *)

Section VerifyFacts.
Context {W : Type}.

(** A receipt with status 1 or 0 is reported as [SUCCESS] or
    [FAILURE]. *)
Lemma verify_transaction_receipt (self : Web3Node.t) (h : Hash)
    (timeout : Z) (receipt : Receipt) (s : TransactionStatus) (w : W) :
  eth_wait_for_transaction_receipt (Web3Node._web3 self) h timeout
  = inr receipt ->
  receipt_status receipt = status_value s ->
  Web3Node.verify_transaction self h timeout w
  = (Ok s, w, [EEth (wait_for_transaction_receipt h timeout)]).
Proof.
  intros Hwait Hstatus.
  unfold Web3Node.verify_transaction, try_except.
  rewrite bind_emit, Hwait. cbn [of_sum]. rewrite bind_ret, Hstatus.
  destruct s; reflexivity.
Qed.

(** Whatever the wait raises, the [except] clause, which names a module
    among its classes, raises [TypeError] in its place. *)
Lemma verify_transaction_wait_raises (self : Web3Node.t) (h : Hash)
    (timeout : Z) (e : Exn) (w : W) :
  eth_wait_for_transaction_receipt (Web3Node._web3 self) h timeout = inl e ->
  Web3Node.verify_transaction self h timeout w
  = (Raise TypeError, w, [EEth (wait_for_transaction_receipt h timeout)]).
Proof.
  intros Hwait.
  unfold Web3Node.verify_transaction, try_except.
  rewrite bind_emit, Hwait. reflexivity.
Qed.

End VerifyFacts.

(** C2.  The run the claim fails on.  When the wait for the receipt
    times out, or fails in transport, [verify_transaction] does not
    return [NOT_VERIFIED]: it raises [TypeError].  Receipts with status
    1 and 0 are mapped to [SUCCESS] and [FAILURE] as claimed. *)
Theorem C2_verify_transaction_raises_on_timeout :
  result_of (Web3Node.verify_transaction
               (NodeScenario.node (inl TimeExhausted)) "0xhash" 120 tt)
  = Raise TypeError
  /\ result_of (Web3Node.verify_transaction
                  (NodeScenario.node (inl RequestException)) "0xhash" 120 tt)
     = Raise TypeError
  /\ result_of (Web3Node.verify_transaction
                  (NodeScenario.node (inr (mkReceipt 1))) "0xhash" 120 tt)
     = Ok SUCCESS
  /\ result_of (Web3Node.verify_transaction
                  (NodeScenario.node (inr (mkReceipt 0))) "0xhash" 120 tt)
     = Ok FAILURE.
Proof. repeat split; reflexivity. Qed.

(** ** The transaction builder *)

Section BuilderFacts.
Context {W : Type}.

Lemma get_gas_fees_run (self : Web3Node.t) (w : W) :
  Web3Node.get_gas_fees self w
  = (Ok (mkGasFees
           (eth_max_priority_fee (Web3Node._web3 self))
           (2 * baseFeePerGas (eth_get_block_latest (Web3Node._web3 self))
            + eth_max_priority_fee (Web3Node._web3 self))),
     w, [EEth get_block_latest; EEth max_priority_fee]).
Proof. reflexivity. Qed.

Lemma fill_parameters_run (self : Web3Node.t)
    (overrides : gmap string PyVal) (w : W) :
  Web3Node.fill_parameters self overrides w
  = (Ok (overrides ∪ chain_fields self), w, queries_made self overrides).
Proof.
  unfold Web3Node.fill_parameters, queries_made, Web3Node.not_in.
  destruct (overrides !! "nonce") as [n|] eqn:Hn;
  destruct (overrides !! "maxFeePerGas") as [f|] eqn:Hf;
  destruct (overrides !! "maxPriorityFeePerGas") as [p|] eqn:Hp;
  destruct (overrides !! "chainId") as [c|] eqn:Hc.
  all: unfold bind.
  all: repeat first
         [ rewrite lookup_insert_ne by discriminate
         | rewrite Hn | rewrite Hf | rewrite Hp | rewrite Hc
         | progress cbn -[insert lookup union chain_fields] ].
  all: match goal with
       | |- (Ok ?a, _, _) = (Ok ?b, _, _) =>
           replace b with a; [reflexivity|]
       end; apply map_eq; intros k.
  all: unfold chain_fields; cbv zeta; rewrite lookup_union.
  all: destruct (decide (k = "nonce")) as [->|];
       [|destruct (decide (k = "maxFeePerGas")) as [->|];
         [|destruct (decide (k = "maxPriorityFeePerGas")) as [->|];
           [|destruct (decide (k = "chainId")) as [->|]]]].
  all: simplify_map_eq; try done.
  all: rewrite ?Hn, ?Hf, ?Hp, ?Hc; done.
Qed.

Lemma build_transaction_data_run
    (to_dictionary : gmap string PyVal -> Exn + gmap string PyVal)
    (self : Web3Node.t) (overrides : gmap string PyVal) (w : W) :
  Web3Node.build_transaction_data to_dictionary self overrides w
  = (match to_dictionary (overrides ∪ chain_fields self) with
     | inr fields => Ok fields
     | inl e => if bool_decide (e = ValidationError)
                then Raise TransactionException else Raise e
     end, w, queries_made self overrides).
Proof.
  unfold Web3Node.build_transaction_data, bind.
  rewrite fill_parameters_run. unfold try_except.
  destruct (to_dictionary (overrides ∪ chain_fields self)) as [e|fields];
    [destruct e|]; cbn;
    rewrite ?bool_decide_eq_false_2 by discriminate;
    rewrite ?bool_decide_eq_true_2 by reflexivity;
    cbn; rewrite ?app_nil_r; reflexivity.
Qed.

Lemma filled_lookup (self : Web3Node.t) (overrides : gmap string PyVal)
    (k : string) :
  (overrides ∪ chain_fields self) !! k
  = match overrides !! k with
    | Some v => Some v
    | None => chain_fields self !! k
    end.
Proof. rewrite lookup_union. destruct (overrides !! k), (chain_fields self !! k); done. Qed.

Lemma chain_fields_other (self : Web3Node.t) (k : string) :
  k <> "nonce" -> k <> "maxFeePerGas" -> k <> "maxPriorityFeePerGas" ->
  k <> "chainId" ->
  chain_fields self !! k = None.
Proof. intros. unfold chain_fields. cbv zeta. simplify_map_eq. done. Qed.

End BuilderFacts.

Section BuilderQueries.

Lemma fee_queries_iff (self : Web3Node.t) (overrides : gmap string PyVal) :
  (In (EEth get_block_latest) (queries_made self overrides)
   <-> overrides !! "maxFeePerGas" = None
       \/ overrides !! "maxPriorityFeePerGas" = None)
  /\ (In (EEth max_priority_fee) (queries_made self overrides)
      <-> overrides !! "maxFeePerGas" = None
          \/ overrides !! "maxPriorityFeePerGas" = None).
Proof.
  unfold queries_made, Web3Node.not_in.
  destruct (overrides !! "nonce"), (overrides !! "maxFeePerGas"),
    (overrides !! "maxPriorityFeePerGas"), (overrides !! "chainId");
    simpl; intuition congruence.
Qed.

Lemma nonce_query_iff (self : Web3Node.t) (overrides : gmap string PyVal) :
  In (EEth (get_transaction_count (Web3Node._account_address self)))
     (queries_made self overrides)
  <-> overrides !! "nonce" = None.
Proof.
  unfold queries_made, Web3Node.not_in.
  destruct (overrides !! "nonce"), (overrides !! "maxFeePerGas"),
    (overrides !! "maxPriorityFeePerGas"), (overrides !! "chainId");
    simpl; intuition congruence.
Qed.

Lemma chain_id_query_iff (self : Web3Node.t) (overrides : gmap string PyVal) :
  In (EEth chain_id) (queries_made self overrides)
  <-> overrides !! "chainId" = None.
Proof.
  unfold queries_made, Web3Node.not_in.
  destruct (overrides !! "nonce"), (overrides !! "maxFeePerGas"),
    (overrides !! "maxPriorityFeePerGas"), (overrides !! "chainId");
    simpl; intuition congruence.
Qed.

End BuilderQueries.

(** C5.  The builder, for every set of overrides.  The fields it hands
    to validation are the overrides with, for each of [nonce],
    [maxFeePerGas], [maxPriorityFeePerGas] and [chainId], the supplied
    value when there is one and otherwise the value read from the chain;
    every other key is as supplied.  The transaction count is queried
    exactly when the nonce is missing, the chain id exactly when it is
    missing, and both fee queries exactly when at least one fee field is
    missing.  A [ValidationError] of the model becomes
    [TransactionException]. *)
Theorem C5_builder_fills_missing_fields {W : Type}
    (to_dictionary : gmap string PyVal -> Exn + gmap string PyVal)
    (self : Web3Node.t) (overrides : gmap string PyVal) (w : W) :
  let web3 := Web3Node._web3 self in
  let account := Web3Node._account_address self in
  let priority := eth_max_priority_fee web3 in
  let base_fee := baseFeePerGas (eth_get_block_latest web3) in
  let queries := queries_made self overrides in
  exists filled,
    Web3Node.fill_parameters self overrides w = (Ok filled, w, queries)
    /\ filled !! "nonce"
       = Some (default (PyInt (eth_get_transaction_count web3 account))
                 (overrides !! "nonce"))
    /\ filled !! "maxFeePerGas"
       = Some (default (PyInt (2 * base_fee + priority))
                 (overrides !! "maxFeePerGas"))
    /\ filled !! "maxPriorityFeePerGas"
       = Some (default (PyInt priority) (overrides !! "maxPriorityFeePerGas"))
    /\ filled !! "chainId"
       = Some (default (PyInt (eth_chain_id web3)) (overrides !! "chainId"))
    /\ (forall k, k <> "nonce" -> k <> "maxFeePerGas" ->
                  k <> "maxPriorityFeePerGas" -> k <> "chainId" ->
                  filled !! k = overrides !! k)
    /\ (In (EEth (get_transaction_count account)) queries
        <-> overrides !! "nonce" = None)
    /\ (In (EEth get_block_latest) queries
        <-> overrides !! "maxFeePerGas" = None
            \/ overrides !! "maxPriorityFeePerGas" = None)
    /\ (In (EEth max_priority_fee) queries
        <-> overrides !! "maxFeePerGas" = None
            \/ overrides !! "maxPriorityFeePerGas" = None)
    /\ (In (EEth chain_id) queries <-> overrides !! "chainId" = None)
    /\ Web3Node.build_transaction_data to_dictionary self overrides w
       = (match to_dictionary filled with
          | inr fields => Ok fields
          | inl e => if bool_decide (e = ValidationError)
                     then Raise TransactionException else Raise e
          end, w, queries).
Proof.
  cbv zeta. exists (overrides ∪ chain_fields self).
  split; [apply fill_parameters_run|].
  repeat split.
  1-4: rewrite filled_lookup; unfold chain_fields; cbv zeta;
       simplify_map_eq;
       match goal with |- context [default _ ?o] => destruct o end;
       reflexivity.
  - intros k H1 H2 H3 H4. rewrite filled_lookup.
    rewrite chain_fields_other by assumption.
    destruct (overrides !! k); reflexivity.
  - apply nonce_query_iff.
  - apply nonce_query_iff.
  - apply fee_queries_iff.
  - apply fee_queries_iff.
  - apply fee_queries_iff.
  - apply fee_queries_iff.
  - apply chain_id_query_iff.
  - apply chain_id_query_iff.
  - apply build_transaction_data_run.
Qed.

(** Only [maxFeePerGas] supplied, on a chain with base fee 7 and
    priority fee 2: both fee queries are made, the supplied 99 stays,
    and the priority fee is filled in. *)
Example one_fee_supplied :
  let run := Web3Node.fill_parameters
               (NodeScenario.node (inr (mkReceipt 1)))
               {[ "maxFeePerGas" := PyInt 99 ]} tt in
  trace_of run = [EEth (get_transaction_count "0xMe"); EEth get_block_latest;
                  EEth max_priority_fee; EEth chain_id]
  /\ result_of run
     = Ok (<["nonce" := PyInt 5]>
           (<["maxFeePerGas" := PyInt 99]>
           (<["maxPriorityFeePerGas" := PyInt 2]>
           (<["chainId" := PyInt 11155111]> ∅)))).
Proof.
  cbv zeta. rewrite fill_parameters_run. split; reflexivity.
Qed.

(** C9.  Gas fees.  [get_gas_fees] reads the latest block and the
    priority-fee oracle and gives [maxFeePerGas = 2 * baseFeePerGas +
    maxPriorityFeePerGas] with the priority fee of the oracle.  In each
    call of the builder a fee field that is not overridden gets the
    value computed in that call, an overridden one keeps the override,
    and the fees are computed unless both fields are overridden. *)
Theorem C9_gas_fees {W : Type} (self : Web3Node.t)
    (overrides : gmap string PyVal) (w : W) :
  let web3 := Web3Node._web3 self in
  exists fees filled,
    Web3Node.get_gas_fees self w
    = (Ok fees, w, [EEth get_block_latest; EEth max_priority_fee])
    /\ maxPriorityFeePerGas fees = eth_max_priority_fee web3
    /\ maxFeePerGas fees
       = 2 * baseFeePerGas (eth_get_block_latest web3)
         + maxPriorityFeePerGas fees
    /\ Web3Node.fill_parameters self overrides w
       = (Ok filled, w, queries_made self overrides)
    /\ filled !! "maxFeePerGas"
       = Some (default (PyInt (maxFeePerGas fees))
                 (overrides !! "maxFeePerGas"))
    /\ filled !! "maxPriorityFeePerGas"
       = Some (default (PyInt (maxPriorityFeePerGas fees))
                 (overrides !! "maxPriorityFeePerGas"))
    /\ (In (EEth get_block_latest) (queries_made self overrides)
        <-> ~ (is_Some (overrides !! "maxFeePerGas")
               /\ is_Some (overrides !! "maxPriorityFeePerGas"))).
Proof.
  cbv zeta. eexists _, (overrides ∪ chain_fields self).
  split; [apply get_gas_fees_run|]. cbn [maxPriorityFeePerGas maxFeePerGas].
  split; [reflexivity|]. split; [reflexivity|].
  split; [apply fill_parameters_run|].
  split; [|split].
  1-2: rewrite filled_lookup; unfold chain_fields; cbv zeta;
       simplify_map_eq;
       match goal with |- context [default _ ?o] => destruct o end;
       reflexivity.
  destruct (fee_queries_iff self overrides) as [-> _].
  rewrite <- !not_eq_None_Some.
  destruct (overrides !! "maxFeePerGas"), (overrides !! "maxPriorityFeePerGas");
    intuition congruence.
Qed.

(** ** The block watcher *)

Section WatcherFacts.
Context {W : Type} (answers : Answers W).

Lemma observed_changes_app (t1 t2 : list Event) :
  observed_changes (t1 ++ t2) = observed_changes t1 + observed_changes t2.
Proof.
  induction t1 as [|ev t1 IH]; [reflexivity|].
  destruct ev; simpl; rewrite ?IH; lia.
Qed.

Lemma transfers_started_app (t1 t2 : list Event) :
  transfers_started (t1 ++ t2) = transfers_started t1 + transfers_started t2.
Proof.
  induction t1 as [|ev t1 IH]; [reflexivity|].
  destruct ev; simpl; rewrite ?IH; lia.
Qed.

(** The retry loop around [send_ETH] leaves the local variables alone,
    reports no height change and starts no transfer. *)
Lemma retry_loop_here (c : Call) (retries : option Z) (fuel : nat) :
  forall (result : TransactionResult) (retried : Z)
         (s : ListenAndSend.Locals * W),
    let run := retry_loop fuel "Transaction Unsucessful"
                 (invoke (ListenAndSend.answers_here answers) c) retries
                 result retried s in
    fst (world_of run) = fst s
    /\ observed_changes (trace_of run) = 0
    /\ transfers_started (trace_of run) = 0.
Proof.
  unfold invoke.
  induction fuel as [|fuel IH]; intros result retried s; cbv zeta;
    cbn [retry_loop].
  - destruct (_ && _); repeat split; reflexivity.
  - destruct (_ && _); [|repeat split; reflexivity].
    rewrite !bind_print.
    destruct (ListenAndSend.answers_here answers c s) as [[e|r1] s1] eqn:Hans;
      assert (fst s1 = fst s) as Hs1
        by (unfold ListenAndSend.answers_here in Hans;
            destruct (answers c (snd s)) as [r0 w0];
            injection Hans as _ <-; reflexivity).
    + rewrite (bind_ask_raise _ _ _ s s1 e Hans).
      repeat split; try reflexivity. exact Hs1.
    + rewrite (bind_ask_ok _ _ _ s s1 r1 Hans).
      specialize (IH r1 (retried + 1) s1). cbv zeta in IH.
      destruct (retry_loop fuel "Transaction Unsucessful"
                  (ask (EMethod c) (ListenAndSend.answers_here answers c))
                  retries r1 (retried + 1) s1) as [[r2 s2] t2].
      unfold world_of, trace_of in *. cbn [fst snd] in *.
      destruct IH as (H1 & H2 & H3).
      repeat split; [congruence | exact H2 | exact H3].
Qed.

(** A transfer, however it ends: the local variables are as before, no
    height change is reported, and it is one transfer. *)
Lemma send_shape (fuel : nat) (self : ListenAndSend.t)
    (s : ListenAndSend.Locals * W) :
  let run := ListenAndSend.send answers fuel self s in
  fst (world_of run) = fst s
  /\ observed_changes (trace_of run) = 0
  /\ transfers_started (trace_of run) = 1.
Proof.
  cbv zeta. unfold ListenAndSend.send, with_retries.
  rewrite bind_print, bind_assoc.
  set (c := Call_send_ETH _ _ _). unfold invoke.
  destruct (ListenAndSend.answers_here answers c s) as [[e|r1] s1] eqn:Hans;
    assert (fst s1 = fst s) as Hs1
      by (unfold ListenAndSend.answers_here in Hans;
          destruct (answers c (snd s)) as [r0 w0];
          injection Hans as _ <-; reflexivity).
  - rewrite (bind_ask_raise _ _ _ s s1 e Hans).
    repeat split; try reflexivity. exact Hs1.
  - rewrite (bind_ask_ok _ _ _ s s1 r1 Hans).
    pose proof (retry_loop_here c (ListenAndSend.retries self) fuel r1 0 s1)
      as Hloop. cbv zeta in Hloop. unfold invoke in Hloop.
    unfold bind.
    destruct (retry_loop fuel "Transaction Unsucessful"
                (ask (EMethod c) (ListenAndSend.answers_here answers c))
                (ListenAndSend.retries self) r1 0 s1) as [[r2 s2] t2].
    unfold world_of, trace_of in *. cbn [fst snd] in *.
    destruct Hloop as (H1 & H2 & H3).
    destruct r2 as [p| |]; cbn [fst snd].
    2,3: simpl; repeat split;
         first [congruence | exact H2 | rewrite H3; reflexivity].
    destruct (bool_decide (status (fst p) = SUCCESS));
      [|destruct (bool_decide (status (fst p) = FAILURE))];
      cbn; rewrite observed_changes_app, transfers_started_app, H2, H3;
      repeat split; first [congruence | reflexivity].
Qed.

(** A pass whose poll raises: [HTTPError] and [TimeExhausted] are
    reported and slept on, anything else leaves the loop. *)
Lemma iteration_poll_raises (fuel : nat) (self : ListenAndSend.t) (e : Exn)
    (s : ListenAndSend.Locals * W) :
  ListenAndSend.iteration answers fuel self (inl e) s
  = if bool_decide (e = HTTPError) || bool_decide (e = TimeExhausted)
    then (Ok tt, s, [EEth get_block_latest; EPrint "Request Error: ";
                     EPrint "Retrying..."; ESleep 3])
    else (Raise e, s, [EEth get_block_latest]).
Proof. destruct e; reflexivity. Qed.

(** A pass whose poll gives the height already known. *)
Lemma iteration_same_height (fuel : nat) (self : ListenAndSend.t)
    (locals : ListenAndSend.Locals) (w : W) :
  ListenAndSend.iteration answers fuel self
    (inr (ListenAndSend.current_number locals)) (locals, w)
  = (Ok tt, (locals, w), [EEth get_block_latest]).
Proof.
  unfold ListenAndSend.iteration, try_except.
  rewrite bind_emit. cbn [of_sum]. rewrite bind_ret.
  unfold bind at 1, ListenAndSend.get_locals at 1. cbn [fst].
  rewrite bool_decide_eq_false_2 by (intros H; apply H; reflexivity).
  reflexivity.
Qed.

(** A pass whose poll gives a new height, for a counter that does not
    wrap. *)
Lemma iteration_new_height (fuel : nat) (self : ListenAndSend.t)
    (latest : Z) (locals : ListenAndSend.Locals) (w : W) :
  let N := ListenAndSend.num_blocks self in
  let m := (ListenAndSend.block_count locals + 1) mod N in
  latest <> ListenAndSend.current_number locals ->
  N <> 0 ->
  m <> 0 ->
  ListenAndSend.iteration answers fuel self (inr latest) (locals, w)
  = (Ok tt, (ListenAndSend.mkLocals latest m, w),
     [EEth get_block_latest; EPrintNumber "Block number: " latest]).
Proof.
  intros N m Hnew HN Hm.
  unfold ListenAndSend.iteration, try_except.
  rewrite bind_emit. cbn [of_sum]. rewrite bind_ret.
  unfold bind at 1, ListenAndSend.get_locals at 1. cbn [fst].
  rewrite bool_decide_eq_true_2 by exact Hnew.
  unfold py_mod. fold N. apply Z.eqb_neq in HN. rewrite HN.
  fold m. apply Z.eqb_neq in Hm.
  unfold bind, ListenAndSend.set_current_number,
    ListenAndSend.set_block_count, emit, of_sum, ret.
  cbn [fst snd ListenAndSend.block_count ListenAndSend.current_number].
  rewrite Hm. reflexivity.
Qed.

(** A pass whose poll gives a new height, for a counter that wraps: the
    transfer runs with the counter at 0; what follows it in the trace,
    if anything, is the report of a caught exception. *)
Lemma iteration_wrap (fuel : nat) (self : ListenAndSend.t)
    (latest : Z) (locals : ListenAndSend.Locals) (w : W) :
  let N := ListenAndSend.num_blocks self in
  latest <> ListenAndSend.current_number locals ->
  N <> 0 ->
  (ListenAndSend.block_count locals + 1) mod N = 0 ->
  let sent := ListenAndSend.send answers fuel self
                (ListenAndSend.mkLocals latest 0, w) in
  exists r tail,
    ListenAndSend.iteration answers fuel self (inr latest) (locals, w)
    = (r, world_of sent,
       EEth get_block_latest :: EPrintNumber "Block number: " latest
       :: trace_of sent ++ tail)
    /\ observed_changes tail = 0
    /\ transfers_started tail = 0
    /\ calls_of tail = []
    /\ (result_of sent = Ok tt -> r = Ok tt /\ tail = []).
Proof.
  intros N Hnew HN Hm sent.
  unfold ListenAndSend.iteration, try_except.
  rewrite bind_emit. cbn [of_sum]. rewrite bind_ret.
  unfold bind at 1, ListenAndSend.get_locals at 1. cbn [fst].
  rewrite bool_decide_eq_true_2 by exact Hnew.
  unfold py_mod. fold N. apply Z.eqb_neq in HN. rewrite HN, Hm.
  unfold bind, ListenAndSend.set_current_number,
    ListenAndSend.set_block_count, emit, of_sum, ret.
  cbn [fst snd ListenAndSend.block_count ListenAndSend.current_number
       Z.eqb].
  fold sent.
  destruct sent as [[[[]| e |] s1] t1]; unfold world_of, trace_of, result_of;
    cbn [fst snd app].
  - exists (Ok tt), []. rewrite app_nil_r. repeat split; reflexivity.
  - destruct e;
      first
        [ exists (Ok tt),
            [EPrint "Request Error: "; EPrint "Retrying..."; ESleep 3];
          repeat split; try reflexivity; discriminate
        | eexists (Raise _), []; rewrite app_nil_r;
          repeat split; try reflexivity; discriminate ].
  - exists OutOfFuel, []. rewrite app_nil_r.
    repeat split; try reflexivity; discriminate.
Qed.

(** One pass of the loop, however it ends: the counter stays within
    [0 .. num_blocks - 1], it has advanced modulo [num_blocks] by the
    height changes reported, at most one, and a transfer was started
    exactly when it wrapped. *)
Lemma iteration_invariant (fuel : nat) (self : ListenAndSend.t)
    (poll : Exn + Z) (locals : ListenAndSend.Locals) (w : W) :
  let N := ListenAndSend.num_blocks self in
  1 <= N ->
  0 <= ListenAndSend.block_count locals < N ->
  let run := ListenAndSend.iteration answers fuel self poll (locals, w) in
  let k := observed_changes (trace_of run) in
  let locals' := fst (world_of run) in
  0 <= ListenAndSend.block_count locals' < N
  /\ ListenAndSend.block_count locals'
     = (ListenAndSend.block_count locals + k) mod N
  /\ transfers_started (trace_of run)
     = (ListenAndSend.block_count locals + k) / N
  /\ 0 <= k <= 1.
Proof.
  intros N HN Hbc. cbv zeta.
  destruct poll as [e|latest].
  - rewrite iteration_poll_raises.
    destruct (_ || _); unfold world_of, trace_of; cbn;
      rewrite Z.add_0_r, Z.mod_small, Z.div_small by lia;
      repeat split; lia.
  - destruct (decide (latest = ListenAndSend.current_number locals))
      as [->|Hnew].
    { rewrite iteration_same_height. unfold world_of, trace_of; cbn.
      rewrite Z.add_0_r, Z.mod_small, Z.div_small by lia.
      repeat split; lia. }
    destruct (decide ((ListenAndSend.block_count locals + 1) mod N = 0))
      as [Hm|Hm].
    + destruct (iteration_wrap fuel self latest locals w Hnew
                  ltac:(fold N; lia) Hm)
        as (r & tail & -> & Htail1 & Htail2 & _ & _).
      destruct (send_shape fuel self (ListenAndSend.mkLocals latest 0, w))
        as (Hl & Hk & Ht).
      unfold world_of, trace_of in *. cbn [fst snd] in *.
      rewrite Hl. cbn [ListenAndSend.block_count].
      assert (ListenAndSend.block_count locals + 1 = N) as HbcN.
      { destruct (decide (ListenAndSend.block_count locals + 1 = N));
          [assumption|].
        rewrite Z.mod_small in Hm by lia. lia. }
      cbn [observed_changes transfers_started].
      rewrite observed_changes_app, transfers_started_app.
      rewrite Hk, Ht, Htail1, Htail2.
      replace (ListenAndSend.block_count locals + (1 + (0 + 0))) with N
        by lia.
      rewrite Z_mod_same_full, Z_div_same_full by lia.
      repeat split; lia.
    + rewrite (iteration_new_height fuel self latest locals w Hnew
                 ltac:(fold N; lia) Hm).
      unfold world_of, trace_of. cbn.
      fold N.
      pose proof (Z.mod_pos_bound (ListenAndSend.block_count locals + 1) N
                    ltac:(lia)) as Hb.
      assert (ListenAndSend.block_count locals + 1 < N) as Hlt.
      { destruct (decide (ListenAndSend.block_count locals + 1 = N))
          as [Heq|]; [|lia].
        rewrite Heq, Z_mod_same_full in Hm. congruence. }
      rewrite Z.div_small by lia.
      repeat split; lia.
Qed.

(** The same over any number of passes. *)
Lemma iterations_invariant (fuel : nat) (self : ListenAndSend.t)
    (polls : list (Exn + Z)) :
  let N := ListenAndSend.num_blocks self in
  1 <= N ->
  forall (locals : ListenAndSend.Locals) (w : W),
    0 <= ListenAndSend.block_count locals < N ->
    let run := ListenAndSend.iterations answers fuel self polls (locals, w) in
    let k := observed_changes (trace_of run) in
    let locals' := fst (world_of run) in
    0 <= ListenAndSend.block_count locals' < N
    /\ ListenAndSend.block_count locals'
       = (ListenAndSend.block_count locals + k) mod N
    /\ transfers_started (trace_of run)
       = (ListenAndSend.block_count locals + k) / N
    /\ 0 <= k.
Proof.
  intros N HN.
  induction polls as [|poll rest IH]; intros locals w Hbc; cbv zeta.
  - unfold world_of, trace_of. cbn.
    rewrite Z.add_0_r, Z.mod_small, Z.div_small by lia.
    repeat split; lia.
  - cbn [ListenAndSend.iterations]. unfold bind.
    pose proof (iteration_invariant fuel self poll locals w HN Hbc) as H1.
    cbv zeta in H1.
    destruct (ListenAndSend.iteration answers fuel self poll (locals, w))
      as [[r1 [l1 w1]] t1].
    unfold world_of, trace_of in H1. cbn [fst snd] in H1.
    destruct H1 as (Hb1 & Hc1 & Ht1 & Hk1).
    destruct r1 as [[]| |].
    2,3: unfold world_of, trace_of; cbn [fst snd];
         repeat split; first [assumption | lia].
    specialize (IH l1 w1 Hb1). cbv zeta in IH.
    destruct (ListenAndSend.iterations answers fuel self rest (l1, w1))
      as [[r2 [l2 w2]] t2].
    unfold world_of, trace_of in *. cbn [fst snd] in *.
    destruct IH as (Hb2 & Hc2 & Ht2 & Hk2).
    rewrite observed_changes_app, transfers_started_app.
    set (k1 := observed_changes t1) in *.
    set (k2 := observed_changes t2) in *.
    set (bc := ListenAndSend.block_count locals) in *.
    fold N in Hb1, Hc1, Ht1, Hb2, Hc2, Ht2 |- *.
    pose proof (Z.div_mod (bc + k1) N ltac:(lia)) as Hdm.
    rewrite <- Hc1 in Hdm.
    replace (bc + (k1 + k2))
      with (ListenAndSend.block_count l1 + k2 + (bc + k1) / N * N) by lia.
    rewrite Z.div_add, Z.mod_add by lia.
    repeat split; lia.
Qed.

End WatcherFacts.

(** ** Runs that end normally *)

Section Returns.
Context {W : Type} (answers : Answers W).

(** With every call answered and a budget [R >= retried], the loop
    ends normally within [R - retried] passes. *)
Lemma retry_loop_returns (msg : string) (c : Call) (R : Z) :
  always_answers answers ->
  forall (k fuel : nat) (result : TransactionResult) (retried : Z) (w : W),
    retried + Z.of_nat k = R ->
    (k <= fuel)%nat ->
    exists p,
      result_of (retry_loop fuel msg (invoke answers c) (Some R) result
                   retried w) = Ok p.
Proof.
  intros Hall k. unfold invoke.
  induction k as [|k IH]; intros fuel result retried w Hk Hfuel.
  - assert (retried = R) as -> by lia.
    exists (result, R).
    destruct fuel; simpl; rewrite Z.eqb_refl, andb_false_r; reflexivity.
  - destruct (decide (status result = SUCCESS)) as [Hs|Hs].
    { exists (result, retried). rewrite retry_loop_success by exact Hs.
      reflexivity. }
    destruct fuel as [|fuel]; [lia|].
    destruct (Hall c w) as (r1 & w1 & Hans).
    destruct (IH fuel r1 (retried + 1) w1 ltac:(lia) ltac:(lia)) as [p Hp].
    exists p.
    cbn [retry_loop].
    rewrite bool_decide_eq_true_2 by exact Hs.
    rewrite int_ne_optional_other by lia. cbn [andb].
    rewrite !bind_print, (bind_ask_ok _ _ _ w w1 r1 Hans).
    destruct (retry_loop fuel msg (ask (EMethod c) (answers c)) (Some R) r1
                (retried + 1) w1) as [[r2 w2] t2].
    unfold result_of in *. exact Hp.
Qed.

Lemma always_answers_here :
  always_answers answers ->
  always_answers (ListenAndSend.answers_here answers).
Proof.
  intros Hall c [l w]. destruct (Hall c w) as (r & w' & Hans).
  exists r, (l, w'). unfold ListenAndSend.answers_here. cbn [fst snd].
  rewrite Hans. reflexivity.
Qed.

End Returns.

Section WatcherReturns.
Context {W : Type} (answers : Answers W).

(** A transfer ends normally when every call is answered and the fuel
    covers the retries. *)
Lemma send_returns (fuel : nat) (self : ListenAndSend.t) (R : Z)
    (s : ListenAndSend.Locals * W) :
  always_answers answers ->
  ListenAndSend.retries self = Some R ->
  0 <= R ->
  (Z.to_nat R <= fuel)%nat ->
  result_of (ListenAndSend.send answers fuel self s) = Ok tt.
Proof.
  intros Hall HR HR0 Hfuel.
  apply always_answers_here in Hall.
  unfold ListenAndSend.send, with_retries.
  rewrite bind_print, bind_assoc. rewrite HR.
  set (c := Call_send_ETH _ _ _). unfold invoke at 1.
  destruct (Hall c s) as (r1 & s1 & Hans).
  rewrite (bind_ask_ok _ _ _ s s1 r1 Hans).
  destruct (retry_loop_returns (ListenAndSend.answers_here answers)
              "Transaction Unsucessful" c R Hall (Z.to_nat R) fuel r1 0 s1
              ltac:(lia) Hfuel) as [p Hp].
  unfold bind.
  destruct (retry_loop fuel "Transaction Unsucessful"
              (invoke (ListenAndSend.answers_here answers) c) (Some R) r1 0
              s1) as [[r2 s2] t2].
  unfold result_of in *. cbn [fst] in Hp. subst r2.
  destruct (bool_decide (status (fst p) = SUCCESS));
    [|destruct (bool_decide (status (fst p) = FAILURE))]; reflexivity.
Qed.

(** Passes over polls that all give a block number end normally, and
    the height changes reported are those of the polls. *)
Lemma iterations_returns (fuel : nat) (self : ListenAndSend.t) (R : Z)
    (polls : list (Exn + Z)) :
  always_answers answers ->
  ListenAndSend.retries self = Some R ->
  0 <= R ->
  (Z.to_nat R <= fuel)%nat ->
  ListenAndSend.num_blocks self <> 0 ->
  Forall is_block_number polls ->
  forall (locals : ListenAndSend.Locals) (w : W),
    let run := ListenAndSend.iterations answers fuel self polls (locals, w) in
    result_of run = Ok tt
    /\ observed_changes (trace_of run)
       = height_changes (ListenAndSend.current_number locals) polls.
Proof.
  intros Hall HR HR0 Hfuel HN Hpolls.
  induction Hpolls as [|poll rest Hpoll _ IH]; intros locals w; cbv zeta.
  - split; reflexivity.
  - destruct poll as [e|latest]; [destruct Hpoll|].
    cbn [ListenAndSend.iterations height_changes]. unfold bind.
    destruct (decide (latest = ListenAndSend.current_number locals))
      as [->|Hnew].
    { rewrite iteration_same_height.
      rewrite bool_decide_eq_false_2 by (intros H; apply H; reflexivity).
      specialize (IH locals w). cbv zeta in IH.
      destruct (ListenAndSend.iterations answers fuel self rest (locals, w))
        as [[r2 s2] t2].
      unfold result_of, trace_of in *. cbn [fst snd] in *.
      destruct IH as [-> IH2]. split; [reflexivity|]. exact IH2. }
    rewrite bool_decide_eq_true_2 by exact Hnew.
    destruct (decide ((ListenAndSend.block_count locals + 1)
                      mod ListenAndSend.num_blocks self = 0)) as [Hm|Hm].
    + destruct (iteration_wrap answers fuel self latest locals w Hnew HN Hm)
        as (r & tail & -> & _ & _ & _ & Hok).
      destruct (Hok (send_returns fuel self R _ Hall HR HR0 Hfuel))
        as [-> ->].
      destruct (send_shape answers fuel self
                  (ListenAndSend.mkLocals latest 0, w)) as (Hl & Hk & _).
      destruct (ListenAndSend.send answers fuel self
                  (ListenAndSend.mkLocals latest 0, w)) as [[r1 [l1 w1]] t1].
      unfold world_of, trace_of in Hl, Hk |- *. cbn [fst snd] in Hl, Hk |- *.
      subst l1.
      specialize (IH (ListenAndSend.mkLocals latest 0) w1). cbv zeta in IH.
      destruct (ListenAndSend.iterations answers fuel self rest
                  (ListenAndSend.mkLocals latest 0, w1)) as [[r2 s2] t2].
      unfold result_of, trace_of in *. cbn [fst snd] in *.
      destruct IH as [-> IH2]. split; [reflexivity|].
      rewrite app_nil_r. cbn [observed_changes app].
      rewrite observed_changes_app, Hk, IH2.
      cbn [ListenAndSend.current_number]. lia.
    + rewrite (iteration_new_height answers fuel self latest locals w Hnew
                 HN Hm).
      set (l1 := ListenAndSend.mkLocals latest _).
      specialize (IH l1 w). cbv zeta in IH.
      destruct (ListenAndSend.iterations answers fuel self rest (l1, w))
        as [[r2 s2] t2].
      unfold result_of, trace_of in *. cbn [fst snd] in *.
      destruct IH as [-> IH2]. split; [reflexivity|].
      cbn [observed_changes app]. rewrite IH2. reflexivity.
Qed.

End WatcherReturns.

(** ** How many calls a transfer makes *)

Section TransferCalls.
Context {W : Type} (answers : Answers W).

(** With [k] retries left the loop makes at most [k] calls, however it
    ends. *)
Lemma retry_loop_calls_bound (msg : string) (c : Call) (R : Z) :
  forall (k fuel : nat) (result : TransactionResult) (retried : Z) (w : W),
    retried + Z.of_nat k = R ->
    (length (calls_of (trace_of (retry_loop fuel msg (invoke answers c)
                                   (Some R) result retried w))) <= k)%nat.
Proof.
  unfold invoke.
  induction k as [|k IH]; intros fuel result retried w Hk.
  - assert (retried = R) as -> by lia.
    destruct fuel; cbn [retry_loop];
      rewrite int_ne_optional_same, andb_false_r; simpl; lia.
  - destruct fuel as [|fuel]; cbn [retry_loop];
      (destruct (_ && _); [|simpl; lia]); [simpl; lia|].
    rewrite !bind_print.
    destruct (answers c w) as [[e|r1] w1] eqn:Hans.
    + rewrite (bind_ask_raise _ _ _ w w1 e Hans). simpl. lia.
    + rewrite (bind_ask_ok _ _ _ w w1 r1 Hans).
      specialize (IH fuel r1 (retried + 1) w1 ltac:(lia)).
      destruct (retry_loop fuel msg (ask (EMethod c) (answers c)) (Some R) r1
                  (retried + 1) w1) as [[r2 w2] t2].
      unfold trace_of in *. simpl in *. lia.
Qed.

(** A loop entered with a [SUCCESS] makes no call. *)
Lemma retry_loop_calls_success (msg : string) (c : Call)
    (retries : option Z) (fuel : nat) (result : TransactionResult)
    (retried : Z) (w : W) :
  status result = SUCCESS ->
  calls_of (trace_of (retry_loop fuel msg (invoke answers c) retries result
                        retried w)) = [].
Proof. intros Hs. rewrite retry_loop_success by exact Hs. reflexivity. Qed.

End TransferCalls.

Section WatcherCalls.
Context {W : Type} (answers : Answers W).

(** A transfer makes between one and [R + 1] calls of [send_ETH]. *)
Lemma send_calls_bound (fuel : nat) (self : ListenAndSend.t) (R : Z)
    (s : ListenAndSend.Locals * W) :
  ListenAndSend.retries self = Some R ->
  0 <= R ->
  1 <= Z.of_nat (length (calls_of (trace_of
                            (ListenAndSend.send answers fuel self s))))
    <= R + 1.
Proof.
  intros HR HR0.
  unfold ListenAndSend.send, with_retries.
  rewrite bind_print, bind_assoc. rewrite HR.
  set (c := Call_send_ETH _ _ _). unfold invoke.
  destruct (ListenAndSend.answers_here answers c s) as [[e|r1] s1] eqn:Hans.
  - rewrite (bind_ask_raise _ _ _ s s1 e Hans). simpl. lia.
  - rewrite (bind_ask_ok _ _ _ s s1 r1 Hans).
    pose proof (retry_loop_calls_bound (ListenAndSend.answers_here answers)
                  "Transaction Unsucessful" c R (Z.to_nat R) fuel r1 0 s1
                  ltac:(lia)) as Hloop.
    unfold invoke in Hloop. unfold bind.
    destruct (retry_loop fuel "Transaction Unsucessful"
                (ask (EMethod c) (ListenAndSend.answers_here answers c))
                (Some R) r1 0 s1) as [[r2 s2] t2].
    unfold trace_of in *. cbn [snd] in *.
    assert (forall tail,
              calls_of tail = [] ->
              1 <= Z.of_nat (length (calls_of
                     (EPrint "Sending ETH..." :: EMethod c :: t2 ++ tail)))
                <= R + 1) as Hshape.
    { intros tail Htail. cbn [calls_of].
      rewrite calls_of_app, Htail, app_nil_r. cbn [length]. lia. }
    destruct r2 as [p| |];
      [destruct (bool_decide (status (fst p) = SUCCESS));
       [|destruct (bool_decide (status (fst p) = FAILURE))]|..];
      try (apply (Hshape [_]); reflexivity).
    all: specialize (Hshape [] eq_refl); rewrite app_nil_r in Hshape;
         exact Hshape.
Qed.

(** When the first answer is [SUCCESS] it makes exactly one. *)
Lemma send_calls_success (fuel : nat) (self : ListenAndSend.t)
    (s : ListenAndSend.Locals * W) :
  (forall c w, exists h w', answers c w = (inr (mkResult SUCCESS h), w')) ->
  Z.of_nat (length (calls_of (trace_of
                      (ListenAndSend.send answers fuel self s)))) = 1.
Proof.
  intros Hall.
  unfold ListenAndSend.send, with_retries.
  rewrite bind_print, bind_assoc.
  set (c := Call_send_ETH _ _ _). unfold invoke at 1.
  destruct (Hall c (snd s)) as (h & w' & Hans).
  assert (ListenAndSend.answers_here answers c s
          = (inr (mkResult SUCCESS h), (fst s, w'))) as Hhere.
  { unfold ListenAndSend.answers_here. rewrite Hans. reflexivity. }
  rewrite (bind_ask_ok _ _ _ s _ _ Hhere).
  unfold bind. rewrite retry_loop_success by reflexivity.
  reflexivity.
Qed.

End WatcherCalls.

Section WatcherCallCount.
Context {W : Type} (answers : Answers W).

(** If every transfer makes between [lo] and [hi] calls, a pass makes
    between [lo] and [hi] calls for each transfer it starts. *)
Lemma iteration_calls_between (lo hi : Z) (fuel : nat)
    (self : ListenAndSend.t) (poll : Exn + Z)
    (locals : ListenAndSend.Locals) (w : W) :
  ListenAndSend.num_blocks self <> 0 ->
  (forall s, lo <= Z.of_nat (length (calls_of (trace_of
                        (ListenAndSend.send answers fuel self s)))) <= hi) ->
  let t := trace_of (ListenAndSend.iteration answers fuel self poll
                       (locals, w)) in
  lo * transfers_started t <= Z.of_nat (length (calls_of t))
  <= hi * transfers_started t.
Proof.
  intros HN Hsend. cbv zeta.
  destruct poll as [e|latest].
  { rewrite iteration_poll_raises. destruct (_ || _); cbn; lia. }
  destruct (decide (latest = ListenAndSend.current_number locals))
    as [->|Hnew].
  { rewrite iteration_same_height. cbn. lia. }
  destruct (decide ((ListenAndSend.block_count locals + 1)
                    mod ListenAndSend.num_blocks self = 0)) as [Hm|Hm].
  - destruct (iteration_wrap answers fuel self latest locals w Hnew HN Hm)
      as (r & tail & -> & _ & Htail & Hcalls & _).
    destruct (send_shape answers fuel self
                (ListenAndSend.mkLocals latest 0, w)) as (_ & _ & Ht).
    specialize (Hsend (ListenAndSend.mkLocals latest 0, w)).
    unfold trace_of in *. cbn [snd calls_of transfers_started].
    rewrite calls_of_app, transfers_started_app, Hcalls, Htail, app_nil_r.
    cbn [snd] in Ht, Hsend. rewrite Ht. lia.
  - rewrite (iteration_new_height answers fuel self latest locals w Hnew
               HN Hm).
    cbn. lia.
Qed.

(** The same over any number of passes. *)
Lemma iterations_calls_between (lo hi : Z) (fuel : nat)
    (self : ListenAndSend.t) (polls : list (Exn + Z)) :
  ListenAndSend.num_blocks self <> 0 ->
  (forall s, lo <= Z.of_nat (length (calls_of (trace_of
                        (ListenAndSend.send answers fuel self s)))) <= hi) ->
  forall (s : ListenAndSend.Locals * W),
    let t := trace_of (ListenAndSend.iterations answers fuel self polls s) in
    lo * transfers_started t <= Z.of_nat (length (calls_of t))
    <= hi * transfers_started t.
Proof.
  intros HN Hsend.
  induction polls as [|poll rest IH]; intros [locals w]; cbv zeta.
  - cbn. lia.
  - cbn [ListenAndSend.iterations]. rewrite trace_of_bind.
    pose proof (iteration_calls_between lo hi fuel self poll locals w HN
                  Hsend) as H1.
    cbv zeta in H1.
    destruct (ListenAndSend.iteration answers fuel self poll (locals, w))
      as [[r1 s1] t1].
    unfold trace_of in H1. cbn [snd] in H1.
    destruct r1 as [[]| |]; try exact H1.
    specialize (IH s1). cbv zeta in IH.
    rewrite calls_of_app, transfers_started_app, length_app. lia.
Qed.

End WatcherCallCount.

(** C8.  The block counter.  Take a watcher with [num_blocks >= 1], a
    world that answers every call, and fuel for the retries; start the
    loop with the counter within [0 .. num_blocks - 1] and run it over
    polls that each give a block number, [k] of them a change of
    height.  Then all passes end normally, each change is reported
    once, the counter ends at [(counter + k) mod num_blocks], and the
    transfers started are [(counter + k) / num_blocks]: one for each
    time the counter wrapped to 0.  A transfer is one entry into the
    sending phase; it makes between one and [R + 1] calls of
    [send_ETH], and exactly one when the world answers [SUCCESS].  In
    one pass, whatever the poll
    gives, a transfer is started exactly when a change is reported and
    the counter is 0 after it.  With [num_blocks = 3], a counter that
    starts at 0 and three changes, one transfer is started and the
    counter is 0 again. *)
Theorem C8_block_counter {W : Type} (answers : Answers W) (fuel : nat)
    (self : ListenAndSend.t) (R : Z) (polls : list (Exn + Z))
    (locals : ListenAndSend.Locals) (w : W) :
  let N := ListenAndSend.num_blocks self in
  let start := ListenAndSend.block_count locals in
  1 <= N ->
  0 <= start < N ->
  always_answers answers ->
  ListenAndSend.retries self = Some R ->
  0 <= R ->
  (Z.to_nat R <= fuel)%nat ->
  Forall is_block_number polls ->
  let run := ListenAndSend.iterations answers fuel self polls (locals, w) in
  let k := height_changes (ListenAndSend.current_number locals) polls in
  let counter := ListenAndSend.block_count (fst (world_of run)) in
  result_of run = Ok tt
  /\ observed_changes (trace_of run) = k
  /\ counter = (start + k) mod N
  /\ transfers_started (trace_of run) = (start + k) / N
  /\ transfers_started (trace_of run)
     <= Z.of_nat (length (calls_of (trace_of run)))
     <= (R + 1) * transfers_started (trace_of run)
  /\ ((forall c w', exists h w'',
         answers c w' = (inr (mkResult SUCCESS h), w'')) ->
      Z.of_nat (length (calls_of (trace_of run)))
      = transfers_started (trace_of run))
  /\ (forall poll,
        let pass := ListenAndSend.iteration answers fuel self poll
                      (locals, w) in
        transfers_started (trace_of pass) = 1
        <-> observed_changes (trace_of pass) = 1
            /\ ListenAndSend.block_count (fst (world_of pass)) = 0)
  /\ (N = 3 -> start = 0 -> k = 3 ->
      transfers_started (trace_of run) = 1 /\ counter = 0).
Proof.
  intros N start HN Hstart Hall HR HR0 Hfuel Hpolls run k counter.
  destruct (iterations_returns answers fuel self R polls Hall HR HR0 Hfuel
              ltac:(fold N; lia) Hpolls locals w) as [Hok Hk].
  destruct (iterations_invariant answers fuel self polls HN locals w Hstart)
    as (_ & Hc & Ht & _).
  fold run in Hok, Hk, Hc, Ht. fold N start in Hc, Ht. rewrite Hk in Hc, Ht.
  fold k in Hc, Ht.
  split; [exact Hok|]. split; [exact Hk|]. split; [exact Hc|].
  split; [exact Ht|]. split; [|split; [|split]].
  - pose proof (iterations_calls_between answers 1 (R + 1) fuel self polls
                  ltac:(fold N; lia)
                  (fun s => send_calls_bound answers fuel self R s HR HR0)
                  (locals, w)) as Hcalls.
    cbv zeta in Hcalls. fold run in Hcalls. lia.
  - intros Hsuccess.
    pose proof (iterations_calls_between answers 1 1 fuel self polls
                  ltac:(fold N; lia)
                  (fun s => ltac:(rewrite (send_calls_success answers fuel
                                             self s Hsuccess); lia))
                  (locals, w)) as Hcalls.
    cbv zeta in Hcalls. fold run in Hcalls. lia.
  - intros poll pass.
    destruct (iteration_invariant answers fuel self poll locals w HN Hstart)
      as (Hb1 & Hc1 & Ht1 & Hk1).
    fold pass N start in Hb1, Hc1, Ht1, Hk1.
    rewrite Hc1, Ht1.
    assert (observed_changes (trace_of pass) = 0
            \/ observed_changes (trace_of pass) = 1) as [-> | ->] by lia.
    + rewrite Z.add_0_r, Z.div_small by lia. split; [lia|intros [? _]; lia].
    + destruct (decide (start + 1 = N)) as [->|Hne].
      * rewrite Z_div_same_full, Z_mod_same_full by lia. tauto.
      * rewrite Z.div_small, Z.mod_small by lia. split; [lia|intros [_ ?]; lia].
  - intros HN3 H0 H3. unfold counter. rewrite Hc, Ht, HN3, H0, H3.
    split; reflexivity.
Qed.

Lemma C8_block_counter_witness :
  let run := ListenAndSend.iterations (Scenario.always SUCCESS) 5
               WatcherScenario.program WatcherScenario.polls
               (ListenAndSend.mkLocals 100 0, 0%nat) in
  result_of run = Ok tt
  /\ transfers_started (trace_of run) = 1
  /\ ListenAndSend.block_count (fst (world_of run)) = 0.
Proof.
  pose proof (C8_block_counter (Scenario.always SUCCESS) 5
                WatcherScenario.program 5 WatcherScenario.polls
                (ListenAndSend.mkLocals 100 0) 0%nat) as H.
  cbv zeta in H.
  destruct H as (Hok & _ & _ & _ & _ & _ & _ & H3).
  - simpl. lia.
  - simpl. lia.
  - intros c w. exists (mkResult SUCCESS "0xabc"), (S w). reflexivity.
  - reflexivity.
  - lia.
  - simpl. lia.
  - repeat constructor.
  - cbv zeta. split; [exact Hok|]. apply H3; reflexivity.
Defined.

(** The same run, event by event: the third change of height starts the
    one transfer, which succeeds at once. *)
Example watcher_three_blocks :
  trace_of (ListenAndSend.iterations (Scenario.always SUCCESS) 5
              WatcherScenario.program WatcherScenario.polls
              (ListenAndSend.mkLocals 100 0, 0%nat))
  = [EEth get_block_latest; EPrintNumber "Block number: " 101;
     EEth get_block_latest;
     EEth get_block_latest; EPrintNumber "Block number: " 102;
     EEth get_block_latest; EPrintNumber "Block number: " 103;
     EPrint "Sending ETH...";
     EMethod (Call_send_ETH "https://testnet" 0.5%float "0xTo");
     EPrint "Transaction Succeeded"].
Proof. reflexivity. Qed.

(** ** The validator of [num_blocks] and the counter update *)

Section ZeroBlocks.
Context {W : Type} (answers : Answers W).

(** With [num_blocks = 0] the first change of height raises
    [ZeroDivisionError], which no [except] clause of the loop catches. *)
Lemma iteration_zero_blocks (fuel : nat) (self : ListenAndSend.t)
    (latest : Z) (locals : ListenAndSend.Locals) (w : W) :
  ListenAndSend.num_blocks self = 0 ->
  latest <> ListenAndSend.current_number locals ->
  ListenAndSend.iteration answers fuel self (inr latest) (locals, w)
  = (Raise ZeroDivisionError,
     (ListenAndSend.mkLocals latest (ListenAndSend.block_count locals), w),
     [EEth get_block_latest; EPrintNumber "Block number: " latest]).
Proof.
  intros HN Hnew.
  unfold ListenAndSend.iteration, try_except.
  rewrite bind_emit. cbn [of_sum]. rewrite bind_ret.
  unfold bind at 1, ListenAndSend.get_locals at 1. cbn [fst].
  rewrite bool_decide_eq_true_2 by exact Hnew.
  rewrite HN. reflexivity.
Qed.

End ZeroBlocks.

(** C10.  [validate_num_blocks] rejects exactly the negative values, so
    it accepts 0.  For an accepted value the counter update
    [(block_count + 1) % num_blocks] gives a value for every counter
    exactly when [num_blocks >= 1]; with [num_blocks = 0] the first
    change of height the watcher sees raises [ZeroDivisionError] out of
    the loop body. *)
Theorem C10_num_blocks_zero_accepted :
  (forall v, (exists e, ListenAndSendConfig.validate_num_blocks v = inl e)
             <-> v < 0)
  /\ ListenAndSendConfig.validate_num_blocks 0 = inr 0
  /\ (forall n,
        ListenAndSendConfig.validate_num_blocks n = inr n ->
        ((forall block_count, exists m, py_mod (block_count + 1) n = inr m)
         <-> 1 <= n))
  /\ (forall (W : Type) (answers : Answers W) (fuel : nat)
             (self : ListenAndSend.t) (latest : Z)
             (locals : ListenAndSend.Locals) (w : W),
        ListenAndSend.num_blocks self = 0 ->
        latest <> ListenAndSend.current_number locals ->
        result_of (ListenAndSend.iteration answers fuel self (inr latest)
                     (locals, w)) = Raise ZeroDivisionError).
Proof.
  split; [|split; [|split]].
  - intros v. unfold ListenAndSendConfig.validate_num_blocks.
    destruct (Z.ltb_spec v 0); split.
    + intros _. assumption.
    + intros _. exists ValueError. reflexivity.
    + intros [e He]. discriminate.
    + lia.
  - reflexivity.
  - intros n. unfold ListenAndSendConfig.validate_num_blocks, py_mod.
    destruct (Z.ltb_spec n 0); [discriminate|]. intros _.
    destruct (Z.eqb_spec n 0) as [->|Hn]; split.
    + intros Hall. destruct (Hall 0) as [m Hm]. discriminate.
    + lia.
    + intros _. lia.
    + intros _ block_count. eexists. reflexivity.
  - intros W answers fuel self latest locals w HN Hnew.
    rewrite iteration_zero_blocks by assumption. reflexivity.
Qed.

(** A watcher built with [num_blocks = 0]: the validator lets it pass
    and the first new block ends [execute] with [ZeroDivisionError]. *)
Example watcher_zero_blocks :
  ListenAndSendConfig.validate_num_blocks 0 = inr 0
  /\ result_of (ListenAndSend.execute (Scenario.always SUCCESS) 5
                  (ListenAndSend.mk 0.5%float 0 (Some 5) "0xTo"
                     "https://testnet")
                  (inr 100) [inr 100; inr 101] 0%nat)
     = Raise ZeroDivisionError.
Proof. split; reflexivity. Qed.

(** ** Connection setup *)

Section ConnectFacts.
Context {W : Type}.

Lemma attempts_of_app (t1 t2 : list Event) :
  attempts_of (t1 ++ t2) = (attempts_of t1 + attempts_of t2)%nat.
Proof.
  induction t1 as [|ev t1 IH]; [reflexivity|].
  destruct ev; simpl; rewrite ?IH; reflexivity.
Qed.

Lemma sleeps_of_app (t1 t2 : list Event) :
  sleeps_of (t1 ++ t2) = sleeps_of t1 ++ sleeps_of t2.
Proof.
  induction t1 as [|ev t1 IH]; [reflexivity|].
  destruct ev; simpl; rewrite ?IH; reflexivity.
Qed.

Lemma attempts_of_retries (endpoint : Endpoint) (n : nat) :
  attempts_of (retries_events endpoint n) = n.
Proof. induction n as [|n IH]; [reflexivity|]. simpl. rewrite IH. reflexivity. Qed.

Lemma sleeps_of_retries (endpoint : Endpoint) (n : nat) :
  sleeps_of (retries_events endpoint n) = replicate n 1.
Proof. induction n as [|n IH]; [reflexivity|]. simpl. rewrite IH. reflexivity. Qed.

(** What [settle] finds. *)
Lemma settle_bounds (clients : nat -> Web3) (k j : nat) :
  (j <= settle clients k j <= j + k)%nat.
Proof.
  revert j. induction k as [|k IH]; intros j; simpl; [lia|].
  destruct (is_connected (clients j) 0%nat); [lia|].
  specialize (IH (S j)). lia.
Qed.

Lemma settle_before (clients : nat -> Web3) (k j i : nat) :
  (j <= i < settle clients k j)%nat ->
  is_connected (clients i) 0%nat = false.
Proof.
  revert j. induction k as [|k IH]; intros j Hi; simpl in Hi; [lia|].
  destruct (is_connected (clients j) 0%nat) eqn:Hc; [lia|].
  destruct (decide (i = j)) as [->|]; [exact Hc|].
  apply (IH (S j)). lia.
Qed.

Lemma settle_stops (clients : nat -> Web3) (k j : nat) :
  is_connected (clients (settle clients k j)) 0%nat = true
  \/ settle clients k j = (j + k)%nat.
Proof.
  revert j. induction k as [|k IH]; intros j; simpl; [right; lia|].
  destruct (is_connected (clients j) 0%nat) eqn:Hc; [left; exact Hc|].
  destruct (IH (S j)) as [H | H]; [left; exact H | right; lia].
Qed.

Lemma settle_unconnected (clients : nat -> Web3) (k j : nat) :
  is_connected (clients (settle clients k j)) 0%nat = false
  <-> forall i, (j <= i <= j + k)%nat ->
                is_connected (clients i) 0%nat = false.
Proof.
  revert j. induction k as [|k IH]; intros j; simpl.
  - split.
    + intros H i Hi. replace i with j by lia. exact H.
    + intros H. apply H. lia.
  - destruct (is_connected (clients j) 0%nat) eqn:Hc.
    + split.
      * intros H. rewrite Hc in H. discriminate.
      * intros H. specialize (H j ltac:(lia)). congruence.
    + rewrite IH. split.
      * intros H i Hi. destruct (decide (i = j)) as [->|]; [exact Hc|].
        apply H. lia.
      * intros H i Hi. apply H. lia.
Qed.

Lemma settle_exhausted (clients : nat -> Web3) (k j : nat) :
  (forall i, (j <= i <= j + k)%nat ->
             is_connected (clients i) 0%nat = false) ->
  settle clients k j = (j + k)%nat.
Proof.
  revert j. induction k as [|k IH]; intros j H; simpl; [lia|].
  rewrite (H j) by lia. rewrite IH; [lia|].
  intros i Hi. apply H. lia.
Qed.

(** The loop, from attempt [j] with [k] retries left and the client of
    attempt [j] not probed yet: it stops at attempt
    [settle clients k j], after that many retries less [j], and has
    probed the client it stops at once. *)
Lemma connect_loop_run (endpoint : Endpoint) (clients : nat -> Web3) (R : Z) :
  forall (k fuel j : nat) (w : W),
    Z.of_nat j + Z.of_nat k = R ->
    (k <= fuel)%nat ->
    Web3Node.connect_loop fuel endpoint (Some R) clients (S j) (clients j)
      0%nat (Z.of_nat j) w
    = (Ok (clients (settle clients k j), 1%nat,
           Z.of_nat (settle clients k j)), w,
       retries_events endpoint (settle clients k j - j)
       ++ [EIsConnected endpoint]).
Proof.
  induction k as [|k IH]; intros fuel j w Hk Hfuel.
  - assert (Z.of_nat j = R) as <- by lia.
    cbn [settle]. rewrite Nat.sub_diag.
    destruct fuel; cbn [Web3Node.connect_loop]; rewrite bind_emit;
      cbv zeta; rewrite int_ne_optional_same, andb_false_r; reflexivity.
  - destruct fuel as [|fuel]; [lia|].
    cbn [Web3Node.connect_loop settle]. rewrite bind_emit. cbv zeta.
    destruct (is_connected (clients j) 0%nat) eqn:Hc.
    + cbn [negb andb]. rewrite Nat.sub_diag. reflexivity.
    + cbn [negb andb]. rewrite int_ne_optional_other by lia.
      rewrite bind_print, !bind_emit.
      replace (Z.of_nat j + 1) with (Z.of_nat (S j)) by lia.
      rewrite (IH fuel (S j) w ltac:(lia) ltac:(lia)).
      pose proof (settle_bounds clients k (S j)) as Hle.
      replace (settle clients k (S j) - j)%nat
        with (S (settle clients k (S j) - S j)) by lia.
      reflexivity.
Qed.

(** [_initialize_web3] with a budget [R >= 0] and fuel for it: the
    outcome is decided by the second answer of the client the loop
    stops at. *)
Lemma initialize_web3_run (endpoint : Endpoint) (clients : nat -> Web3)
    (R : Z) (fuel : nat) (w : W) :
  0 <= R ->
  (Z.to_nat R <= fuel)%nat ->
  let j := settle clients (Z.to_nat R) 0 in
  Web3Node._initialize_web3 fuel endpoint (Some R) clients w
  = (if is_connected (clients j) 1%nat then Ok (clients j)
     else Raise Web3ConnectionException,
     w,
     ENewWeb3 endpoint
     :: retries_events endpoint j
     ++ [EIsConnected endpoint; EIsConnected endpoint]).
Proof.
  intros HR Hfuel j.
  pose proof (connect_loop_run endpoint clients R (Z.to_nat R) fuel 0%nat w
                ltac:(lia) Hfuel) as Hloop.
  rewrite Nat.sub_0_r in Hloop. change (Z.of_nat 0) with 0 in Hloop.
  fold j in Hloop.
  unfold Web3Node._initialize_web3.
  rewrite bind_emit. unfold bind at 1. rewrite Hloop. cbn [fst snd].
  rewrite bind_emit.
  destruct (is_connected (clients j) 1%nat); cbn;
    rewrite <- app_assoc; reflexivity.
Qed.

End ConnectFacts.

(** C7.  Connection setup with a budget [R >= 0] and fuel for it.  Each
    attempt is a client object made for the endpoint; [clients i] is the
    client of attempt [i], counted from 0.  The test of the loop asks
    each client once whether it is connected, and the check after the
    loop asks the client the loop has left a second time.  The loop
    stops at the first attempt [j] whose client answers its test with
    connected, or at attempt [R]; it has then made [j + 1] attempts and
    slept [j] times one second, once before each attempt after the
    first.  The setup raises [Web3ConnectionException] exactly when the
    client of attempt [j] answers the check after the loop with
    unconnected, and hands back that client otherwise.  When every
    client answers both questions alike, the setup raises exactly when
    all [R + 1] attempts fail, after [R + 1] attempts and [R] sleeps,
    and otherwise stops at the first attempt that connects.  For
    [R = 5] and an endpoint that never reports connected: six attempts,
    five sleeps of one second, then the exception. *)
Theorem C7_connection_setup {W : Type} (endpoint : Endpoint)
    (clients : nat -> Web3) (R : Z) (fuel : nat) (w : W) :
  0 <= R ->
  (Z.to_nat R <= fuel)%nat ->
  let run := Web3Node._initialize_web3 fuel endpoint (Some R) clients w in
  let all_fail :=
    forall i, (i <= Z.to_nat R)%nat ->
              is_connected (clients i) 0%nat = false in
  let steady :=
    forall i, (i <= Z.to_nat R)%nat ->
              is_connected (clients i) 1%nat
              = is_connected (clients i) 0%nat in
  (exists j,
     (j <= Z.to_nat R)%nat
     /\ (forall i, (i < j)%nat -> is_connected (clients i) 0%nat = false)
     /\ (is_connected (clients j) 0%nat = true \/ j = Z.to_nat R)
     /\ attempts_of (trace_of run) = S j
     /\ sleeps_of (trace_of run) = replicate j 1
     /\ result_of run
        = if is_connected (clients j) 1%nat then Ok (clients j)
          else Raise Web3ConnectionException)
  /\ (steady ->
      (result_of run = Raise Web3ConnectionException <-> all_fail))
  /\ (steady -> all_fail ->
      trace_of run
      = ENewWeb3 endpoint
        :: retries_events endpoint (Z.to_nat R)
        ++ [EIsConnected endpoint; EIsConnected endpoint]
      /\ attempts_of (trace_of run) = S (Z.to_nat R)
      /\ sleeps_of (trace_of run) = replicate (Z.to_nat R) 1)
  /\ (steady -> ~ all_fail ->
      exists j,
        (j <= Z.to_nat R)%nat
        /\ is_connected (clients j) 0%nat = true
        /\ (forall i, (i < j)%nat -> is_connected (clients i) 0%nat = false)
        /\ result_of run = Ok (clients j)
        /\ attempts_of (trace_of run) = S j)
  /\ (R = 5 -> (forall i n, is_connected (clients i) n = false) ->
      result_of run = Raise Web3ConnectionException
      /\ attempts_of (trace_of run) = 6%nat
      /\ sleeps_of (trace_of run) = [1; 1; 1; 1; 1]).
Proof.
  intros HR Hfuel run all_fail steady.
  pose proof (initialize_web3_run endpoint clients R fuel w HR Hfuel) as Hrun.
  cbv zeta in Hrun. fold run in Hrun.
  set (j := settle clients (Z.to_nat R) 0) in *.
  pose proof (settle_bounds clients (Z.to_nat R) 0) as Hb. fold j in Hb.
  pose proof (settle_unconnected clients (Z.to_nat R) 0) as Hsettle.
  fold j in Hsettle.
  assert (is_connected (clients j) 0%nat = false <-> all_fail) as Hfail.
  { rewrite Hsettle. unfold all_fail. split; intros H i Hi; apply H; lia. }
  assert (all_fail -> j = Z.to_nat R) as Hj.
  { intros H. unfold j. rewrite settle_exhausted; [lia|].
    intros i Hi. apply H. lia. }
  assert (forall i, (i < j)%nat -> is_connected (clients i) 0%nat = false)
    as Hbefore.
  { intros i Hi. apply (settle_before clients (Z.to_nat R) 0). fold j. lia. }
  assert (attempts_of (trace_of run) = S j) as Hattempts.
  { rewrite Hrun. unfold trace_of. cbn [snd attempts_of].
    rewrite attempts_of_app, attempts_of_retries. simpl. lia. }
  assert (sleeps_of (trace_of run) = replicate j 1) as Hsleeps.
  { rewrite Hrun. unfold trace_of. cbn [snd sleeps_of].
    rewrite sleeps_of_app, sleeps_of_retries. simpl.
    rewrite app_nil_r. reflexivity. }
  assert (result_of run
          = if is_connected (clients j) 1%nat then Ok (clients j)
            else Raise Web3ConnectionException) as Hresult.
  { rewrite Hrun. reflexivity. }
  assert (steady ->
          (result_of run = Raise Web3ConnectionException <-> all_fail))
    as Hiff.
  { intros Hsteady. rewrite <- Hfail, Hresult, (Hsteady j) by lia.
    destruct (is_connected (clients j) 0%nat); split; congruence. }
  split; [|split; [|split; [|split]]].
  - exists j. split; [lia|]. split; [exact Hbefore|]. split.
    { destruct (settle_stops clients (Z.to_nat R) 0) as [H | H];
        [left; exact H | right; fold j in H; lia]. }
    split; [exact Hattempts|]. split; [exact Hsleeps | exact Hresult].
  - exact Hiff.
  - intros _ Hall. rewrite <- (Hj Hall). split; [|split]; try assumption.
    rewrite Hrun. reflexivity.
  - intros Hsteady Hnot. exists j.
    destruct (is_connected (clients j) 0%nat) eqn:Hc.
    2: { exfalso. apply Hnot, Hfail. reflexivity. }
    split; [lia|]. split; [reflexivity|]. split; [exact Hbefore|].
    split; [|exact Hattempts].
    rewrite Hresult, (Hsteady j), Hc by lia. reflexivity.
  - intros HR5 Hnever.
    assert (all_fail) as Hall by (intros i _; apply Hnever).
    rewrite Hresult, Hnever, Hattempts, Hsleeps, (Hj Hall), HR5.
    split; [|split]; reflexivity.
Qed.

Lemma C7_connection_setup_witness :
  result_of (Web3Node._initialize_web3 5 "https://testnet" (Some 5)
               ConnectScenario.unreachable tt)
  = Raise Web3ConnectionException
  /\ attempts_of (trace_of (Web3Node._initialize_web3 5 "https://testnet"
                              (Some 5) ConnectScenario.unreachable tt))
     = 6%nat
  /\ sleeps_of (trace_of (Web3Node._initialize_web3 5 "https://testnet"
                            (Some 5) ConnectScenario.unreachable tt))
     = [1; 1; 1; 1; 1].
Proof.
  refine (proj2 (proj2 (proj2 (proj2
            (C7_connection_setup "https://testnet"
               ConnectScenario.unreachable 5 5 tt _ _)))) _ _).
  - lia.
  - simpl. lia.
  - reflexivity.
  - intros i n. reflexivity.
Defined.

(** C7, the sentence "the setup raises if and only if all retries + 1
    attempts fail to connect" at an endpoint whose connection drops
    after the first probe, with [retries = 5]: the client of the first
    attempt answers the test of the loop with connected, so the loop
    makes no retry, and answers the check after the loop with
    unconnected, so the setup raises after one attempt and no sleep,
    although not all six attempts have failed. *)
Lemma C7_raises_after_one_attempt :
  let run := Web3Node._initialize_web3 5 "https://testnet" (Some 5)
               ConnectScenario.dropping tt in
  let all_fail :=
    forall i, (i <= 5)%nat ->
              is_connected (ConnectScenario.dropping i) 0%nat = false in
  result_of run = Raise Web3ConnectionException
  /\ attempts_of (trace_of run) = 1%nat
  /\ sleeps_of (trace_of run) = []
  /\ ~ all_fail
  /\ ~ (result_of run = Raise Web3ConnectionException <-> all_fail).
Proof.
  cbv zeta.
  assert (~ (forall i, (i <= 5)%nat ->
                       is_connected (ConnectScenario.dropping i) 0%nat
                       = false)) as Hnot.
  { intros H. specialize (H 0%nat ltac:(lia)). discriminate. }
  split; [reflexivity|]. split; [reflexivity|]. split; [reflexivity|].
  split; [exact Hnot|].
  intros [H _]. apply Hnot, H. reflexivity.
Qed.

(** The other way round: every client answers the test of the loop with
    unconnected, the budget is used up, and the last client answers the
    check after the loop with connected, so the setup returns it. *)
Example reconnected_at_the_final_check :
  let run := Web3Node._initialize_web3 2 "https://testnet" (Some 2)
               ConnectScenario.late tt in
  result_of run = Ok (ConnectScenario.late 2)
  /\ attempts_of (trace_of run) = 3%nat
  /\ sleeps_of (trace_of run) = [1; 1].
Proof. repeat split; reflexivity. Qed.

(** An endpoint whose third client connects: three attempts, two
    sleeps, and no exception. *)
Example connects_third_time :
  let run := Web3Node._initialize_web3 5 "https://testnet" (Some 5)
               ConnectScenario.third_time tt in
  result_of run = Ok (ConnectScenario.third_time 2)
  /\ attempts_of (trace_of run) = 3%nat
  /\ sleeps_of (trace_of run) = [1; 1].
Proof. repeat split; reflexivity. Qed.

(** ** The Curve index lookup *)

Section CurveFacts.
Context {W : Type}.

Lemma lookup_coin_run (self : Curve.t) (pool : Z -> Address)
    (coin_set : gset Address) (i : Z) (w : W) :
  call_coins (Curve._contract self) i = inr (pool i) ->
  Curve._lookup_coin self i coin_set w
  = (Ok (slot_entry pool coin_set i), w, [EContract (coins i)]).
Proof.
  intros H. unfold Curve._lookup_coin, try_except.
  rewrite bind_emit, H. reflexivity.
Qed.

Lemma run_all_lookups (self : Curve.t) (pool : Z -> Address)
    (coin_set : gset Address) (indexes : list Z) (w : W) :
  (forall i, i ∈ indexes -> call_coins (Curve._contract self) i = inr (pool i)) ->
  run_all (map (fun i => Curve._lookup_coin self i coin_set) indexes) w
  = (Ok (map (fun i => inr (slot_entry pool coin_set i)) indexes), w,
     map (fun i => EContract (coins i)) indexes).
Proof.
  induction indexes as [|i rest IH]; intros H; [reflexivity|].
  cbn [map run_all]. unfold bind at 1, attempt.
  rewrite (lookup_coin_run self pool) by (apply H; left).
  unfold bind at 1. rewrite IH by (intros j Hj; apply H; right; exact Hj).
  cbn. rewrite app_nil_r. reflexivity.
Qed.

Lemma first_error_or_values_inr {A} (values : list A) :
  first_error_or_values (map (fun v => inr v) values) = inr values.
Proof.
  induction values as [|v rest IH]; [reflexivity|].
  simpl. rewrite IH. reflexivity.
Qed.

Lemma gather_lookups (self : Curve.t) (pool : Z -> Address)
    (coin_set : gset Address) (indexes : list Z) (w : W) :
  (forall i, i ∈ indexes -> call_coins (Curve._contract self) i = inr (pool i)) ->
  gather (map (fun i => Curve._lookup_coin self i coin_set) indexes) w
  = (Ok (map (slot_entry pool coin_set) indexes), w,
     map (fun i => EContract (coins i)) indexes).
Proof.
  intros H. unfold gather, bind. rewrite (run_all_lookups self pool) by exact H.
  rewrite <- (map_map (slot_entry pool coin_set) (fun v => inr v)).
  rewrite first_error_or_values_inr. cbn. rewrite app_nil_r. reflexivity.
Qed.

Lemma slot_entry_lookup (pool : Z -> Address) (coin_set : gset Address)
    (j i : Z) (a : Address) :
  slot_entry pool coin_set j !! a = Some i
  <-> pool j ∈ coin_set /\ pool j = a /\ j = i.
Proof.
  unfold slot_entry. case_bool_decide as Hin.
  - rewrite lookup_singleton_Some. tauto.
  - rewrite lookup_empty. split; [discriminate | tauto].
Qed.

Lemma merge_lookup_Some (results : list (gmap Address Z))
    (acc : gmap Address Z) (a : Address) (i : Z) :
  foldl (fun acc result => result ∪ acc) acc results !! a = Some i ->
  acc !! a = Some i \/ exists r, r ∈ results /\ r !! a = Some i.
Proof.
  revert acc. induction results as [|r rest IH]; intros acc H; simpl in H.
  - left. exact H.
  - destruct (IH _ H) as [Hacc | (r' & Hin & Hr')].
    + apply lookup_union_Some_raw in Hacc as [Hr | [_ Hacc]].
      * right. exists r. split; [left | exact Hr].
      * left. exact Hacc.
    + right. exists r'. split; [right; exact Hin | exact Hr'].
Qed.

Lemma merge_lookup_is_Some (results : list (gmap Address Z))
    (acc : gmap Address Z) (a : Address) :
  is_Some (acc !! a) \/ (exists r, r ∈ results /\ is_Some (r !! a)) ->
  is_Some (foldl (fun acc result => result ∪ acc) acc results !! a).
Proof.
  revert acc. induction results as [|r rest IH]; intros acc H; simpl.
  - destruct H as [H | (r & Hin & _)]; [exact H|].
    apply elem_of_nil in Hin. destruct Hin.
  - apply IH. destruct H as [H | (r' & Hin & Hr')].
    + left. apply lookup_union_is_Some. right. exact H.
    + apply elem_of_cons in Hin as [-> | Hin].
      * left. apply lookup_union_is_Some. left. exact Hr'.
      * right. exists r'. split; assumption.
Qed.

(** What the merged result holds: an index only for a requested coin,
    and then a slot of the pool that holds that coin; and an index for
    every requested coin that is in the pool. *)
Lemma merged_indexes (pool : Z -> Address) (coin_set : gset Address)
    (K : Z) (a : Address) :
  let indexes :=
    Curve.merge_results (map (slot_entry pool coin_set) (seqZ 0 K)) in
  (forall i, indexes !! a = Some i ->
             0 <= i < K /\ pool i = a /\ a ∈ coin_set)
  /\ (is_Some (indexes !! a) <-> a ∈ coin_set /\ resolves K pool a).
Proof.
  cbv zeta. unfold Curve.merge_results.
  assert (forall i,
            foldl (fun acc result => result ∪ acc) ∅
              (map (slot_entry pool coin_set) (seqZ 0 K)) !! a = Some i ->
            0 <= i < K /\ pool i = a /\ a ∈ coin_set) as Hsome.
  { intros i H.
    apply merge_lookup_Some in H as [H | (r & Hin & Hr)].
    { rewrite lookup_empty in H. discriminate. }
    apply list_elem_of_fmap in Hin as (j & -> & Hj).
    apply elem_of_seqZ in Hj.
    apply slot_entry_lookup in Hr as (Hset & Hpool & ->).
    split; [lia|]. split; [exact Hpool|]. rewrite <- Hpool. exact Hset. }
  split; [exact Hsome|]. split.
  - intros [i Hi]. destruct (Hsome i Hi) as (Hrange & Hpool & Hset).
    split; [exact Hset|]. exists i. split; assumption.
  - intros [Hset (i & Hrange & Hpool)].
    apply merge_lookup_is_Some. right.
    exists (slot_entry pool coin_set i). split.
    + apply list_elem_of_fmap. exists i. split; [reflexivity|].
      apply elem_of_seqZ. lia.
    + exists i. apply slot_entry_lookup. rewrite Hpool. tauto.
Qed.

(** [get_coin_indexes] on a pool that answers its reads. *)
Lemma get_coin_indexes_run (self : Curve.t) (K : Z) (pool : Z -> Address)
    (coin_addresses : list Address) (w : W) :
  pool_reads (Curve._contract self) K pool ->
  Curve.get_coin_indexes self coin_addresses w
  = (Ok (Curve.merge_results
           (map (slot_entry pool (list_to_set coin_addresses)) (seqZ 0 K))),
     w, lookup_events K).
Proof.
  intros [HK Hslots].
  unfold Curve.get_coin_indexes. rewrite HK.
  unfold bind at 1.
  change (try_except (emit (EContract N_COINS);; of_sum (inr K)) _ _ w)
    with (@Ok Z K, w, [EContract N_COINS]).
  cbv iota beta. unfold bind at 1.
  rewrite (gather_lookups self pool).
  2: { intros i Hi. apply elem_of_seqZ in Hi. apply Hslots. lia. }
  cbn. rewrite app_nil_r. reflexivity.
Qed.

(** The result has two entries exactly when the two requested coins
    differ and both are in the pool. *)
Lemma merged_size_two (pool : Z -> Address) (K : Z) (sell buy : Address) :
  let indexes :=
    Curve.merge_results
      (map (slot_entry pool (list_to_set [sell; buy])) (seqZ 0 K)) in
  size indexes = 2%nat
  <-> sell <> buy /\ resolves K pool sell /\ resolves K pool buy.
Proof.
  intros indexes.
  assert (forall a, a ∈ dom indexes
                    <-> (a = sell \/ a = buy) /\ resolves K pool a) as Hdom.
  { intros a. rewrite elem_of_dom.
    pose proof (merged_indexes pool (list_to_set [sell; buy]) K a) as Hm.
    cbv zeta in Hm. fold indexes in Hm. destruct Hm as [_ ->].
    rewrite elem_of_list_to_set, !elem_of_cons, elem_of_nil. tauto. }
  rewrite <- (size_dom indexes). split.
  - intros Hsize.
    destruct (decide (sell = buy)) as [->|Hne].
    { exfalso.
      assert (dom indexes ⊆ {[ buy ]}) as Hsub.
      { intros a Ha. apply Hdom in Ha.
        destruct Ha as [[-> | ->] _]; apply elem_of_singleton; reflexivity. }
      apply subseteq_size in Hsub. rewrite size_singleton in Hsub. lia. }
    assert (dom indexes ⊆ {[ sell; buy ]}) as Hsub.
    { intros a Ha. apply Hdom in Ha.
      destruct Ha as [[-> | ->] _]; apply elem_of_union; [left | right];
        apply elem_of_singleton; reflexivity. }
    assert (size ({[ sell; buy ]} : gset Address) = 2%nat) as Htwo.
    { rewrite size_union by (clear -Hne; set_solver).
      rewrite !size_singleton. reflexivity. }
    apply set_subseteq_size_eq in Hsub; [|lia].
    split; [exact Hne|].
    split; apply Hdom; rewrite Hsub; clear; set_solver.
  - intros (Hne & Hsell & Hbuy).
    assert (dom indexes = {[ sell; buy ]}) as ->.
    { apply set_eq. intros a. rewrite Hdom.
      rewrite elem_of_union, !elem_of_singleton.
      split; [tauto|]. intros [-> | ->]; tauto. }
    rewrite size_union by (clear -Hne; set_solver).
    rewrite !size_singleton. reflexivity.
Qed.

(** When the two requested coins are not both in the pool,
    [_prepare_swap] raises after the index lookup, and so does [swap]. *)
Lemma prepare_swap_mismatch (self : Curve.t) (K : Z) (pool : Z -> Address)
    (sell buy : Address) (amount : Z) (min_dy : option Z) (w : W) :
  pool_reads (Curve._contract self) K pool ->
  ~ (sell <> buy /\ resolves K pool sell /\ resolves K pool buy) ->
  Curve._prepare_swap self sell buy amount min_dy w
  = (Raise SwapException, w, lookup_events K).
Proof.
  intros Hreads Hnot.
  unfold Curve._prepare_swap. unfold bind at 1.
  rewrite (get_coin_indexes_run self K pool) by exact Hreads.
  rewrite <- merged_size_two in Hnot.
  destruct (Z.eqb_spec (Z.of_nat (size (Curve.merge_results
              (map (slot_entry pool (list_to_set [sell; buy])) (seqZ 0 K)))))
              2) as [Heq|Hne].
  - exfalso. apply Hnot. lia.
  - cbn. rewrite app_nil_r. reflexivity.
Qed.

Lemma swap_mismatch
    (to_dictionary : gmap string PyVal -> Exn + gmap string PyVal)
    (self : Curve.t) (K : Z) (pool : Z -> Address)
    (sell buy : Address) (amount : Z) (min_dy : option Z) (w : W) :
  pool_reads (Curve._contract self) K pool ->
  ~ (sell <> buy /\ resolves K pool sell /\ resolves K pool buy) ->
  Curve.swap to_dictionary self sell buy amount min_dy w
  = (Raise SwapException, w, lookup_events K).
Proof.
  intros Hreads Hnot.
  unfold Curve.swap. unfold bind at 1.
  rewrite (prepare_swap_mismatch self K pool) by assumption.
  reflexivity.
Qed.

Lemma lookup_events_no_swap (K : Z) :
  existsb swap_event (lookup_events K) = false.
Proof.
  unfold lookup_events. cbn [existsb swap_event orb].
  induction (seqZ 0 K) as [|i rest IH]; [reflexivity|]. exact IH.
Qed.

End CurveFacts.

(** C6.  Venue B, on a pool of [K] slots that answers its reads, for
    the two requested coins [sell] and [buy].  The index lookup reads
    the pool size and every slot and returns a mapping from coin address
    to slot index: every entry is for a requested coin and names a slot
    that holds it.  When the two coins differ and both are in the pool,
    both have an entry and there are exactly two entries.  When they are
    not both in the pool, [_prepare_swap] and [swap] raise
    [SwapException] right after the lookup: the trace holds the lookup
    reads only, so no estimate is read and no exchange is built, signed
    or sent. *)
Theorem C6_curve_index_lookup {W : Type}
    (to_dictionary : gmap string PyVal -> Exn + gmap string PyVal)
    (self : Curve.t) (K : Z) (pool : Z -> Address) (sell buy : Address)
    (amount : Z) (min_dy : option Z) (w : W) :
  pool_reads (Curve._contract self) K pool ->
  exists indexes : gmap Address Z,
    Curve.get_coin_indexes self [sell; buy] w
    = (Ok indexes, w, lookup_events K)
    /\ (forall a i, indexes !! a = Some i ->
                    (a = sell \/ a = buy) /\ 0 <= i < K /\ pool i = a)
    /\ (sell <> buy -> resolves K pool sell -> resolves K pool buy ->
        is_Some (indexes !! sell) /\ is_Some (indexes !! buy)
        /\ size indexes = 2%nat)
    /\ (~ (resolves K pool sell /\ resolves K pool buy) ->
        Curve._prepare_swap self sell buy amount min_dy w
        = (Raise SwapException, w, lookup_events K)
        /\ Curve.swap to_dictionary self sell buy amount min_dy w
           = (Raise SwapException, w, lookup_events K)
        /\ existsb swap_event (lookup_events K) = false).
Proof.
  intros Hreads.
  eexists. split; [apply (get_coin_indexes_run self K pool); exact Hreads|].
  split; [|split].
  - intros a i Hi.
    destruct (merged_indexes pool (list_to_set [sell; buy]) K a) as [Hsome _].
    destruct (Hsome i Hi) as (Hrange & Hpool & Hset).
    split; [|split; assumption].
    rewrite elem_of_list_to_set, !elem_of_cons, elem_of_nil in Hset. tauto.
  - intros Hne Hsell Hbuy.
    split; [|split].
    + apply (merged_indexes pool (list_to_set [sell; buy]) K sell).
      split; [|exact Hsell]. rewrite elem_of_list_to_set. left.
    + apply (merged_indexes pool (list_to_set [sell; buy]) K buy).
      split; [|exact Hbuy]. rewrite elem_of_list_to_set. right; left.
    + apply merged_size_two. tauto.
  - intros Hnot.
    assert (~ (sell <> buy /\ resolves K pool sell /\ resolves K pool buy))
      as Hnot' by tauto.
    split; [|split].
    + apply (prepare_swap_mismatch self K pool); assumption.
    + apply (swap_mismatch to_dictionary self K pool); assumption.
    + apply lookup_events_no_swap.
Qed.

Lemma C6_curve_index_lookup_witness :
  Curve.swap NodeScenario.to_dictionary CurveScenario.swapper
    "0xDAI" "0xWBTC" 100 (Some 0) tt
  = (Raise SwapException, tt, lookup_events 3).
Proof.
  destruct (C6_curve_index_lookup NodeScenario.to_dictionary
              CurveScenario.swapper 3 CurveScenario.slots "0xDAI" "0xWBTC"
              100 (Some 0) tt) as (indexes & _ & _ & _ & Hmismatch).
  - split; [reflexivity|]. intros i _. reflexivity.
  - apply Hmismatch. intros [_ (i & Hi & Hslot)].
    unfold CurveScenario.slots in Hslot.
    destruct (i =? 0); [discriminate|].
    destruct (i =? 1); discriminate.
Defined.

(** Both coins in the pool: the lookup gives their slots, and the swap
    goes on to the estimate, the exchange call and the submission. *)
Example curve_swap_in_pool :
  let run := Curve.swap NodeScenario.to_dictionary CurveScenario.swapper
               "0xUSDC" "0xDAI" 100 (Some 0) tt in
  result_of (Curve.get_coin_indexes CurveScenario.swapper
               ["0xUSDC"; "0xDAI"] tt)
  = Ok (<["0xUSDC" := 1]> (<["0xDAI" := 0]> ∅))
  /\ result_of run = Ok (mkResult SUCCESS "0xhash")
  /\ filter swap_event (trace_of run)
     = [EContract (get_dy 1 0 100); EContract (exchange 1 0 100 0);
        EEth sign_transaction; EEth send_raw_transaction].
Proof. cbv zeta. repeat split; vm_compute; reflexivity. Qed.

(** * Further properties *)

(** ** The retry loop: stopping and not stopping *)

Section RetryStops.
Context {W : Type} (answers : Answers W).

(** The loop entered after [j] more failures before a success. *)
Lemma retry_loop_first_success (msg : string) (c : Call) (R : Z) :
  forall (j fuel : nat) (result : TransactionResult) (retried : Z) (w : W)
         (r : TransactionResult) (w' : W),
    (forall i, (i < j)%nat ->
       exists ri wi, last_answer answers c i (inr result, w) = (inr ri, wi)
                     /\ status ri <> SUCCESS) ->
    last_answer answers c j (inr result, w) = (inr r, w') ->
    status r = SUCCESS ->
    retried + Z.of_nat j <= R ->
    (j <= fuel)%nat ->
    exists t,
      retry_loop fuel msg (invoke answers c) (Some R) result retried w
      = (Ok (r, retried + Z.of_nat j), w', t)
      /\ calls_of t = replicate j c.
Proof.
  unfold invoke.
  induction j as [|j IH]; intros fuel result retried w r w' Hfail Hlast Hs HR
    Hfuel.
  - cbn in Hlast. injection Hlast as <- <-.
    exists []. rewrite retry_loop_success by exact Hs.
    rewrite Z.add_0_r. split; reflexivity.
  - destruct fuel as [|fuel]; [lia|].
    destruct (Hfail 0%nat ltac:(lia)) as (r0 & w0 & H0 & Hs0).
    cbn in H0. injection H0 as <- <-.
    destruct (answers c w) as [[e|r1] w1] eqn:Hans.
    { exfalso. destruct j as [|j].
      - cbn in Hlast. rewrite Hans in Hlast. discriminate.
      - destruct (Hfail 1%nat ltac:(lia)) as (r1 & w1' & H1 & _).
        cbn in H1. rewrite Hans in H1. discriminate. }
    destruct (IH fuel r1 (retried + 1) w1 r w') as (t & Hrun & Hcalls).
    + intros i Hi. destruct (Hfail (S i) ltac:(lia)) as (ri & wi & Hi' & Hsi).
      exists ri, wi. cbn in Hi'. rewrite Hans in Hi'. split; assumption.
    + cbn in Hlast. rewrite Hans in Hlast. exact Hlast.
    + exact Hs.
    + lia.
    + lia.
    + exists (EPrint msg :: EPrint "Retrying..." :: EMethod c :: t).
      split.
      * cbn [retry_loop].
        rewrite bool_decide_eq_true_2 by exact Hs0.
        rewrite int_ne_optional_other by lia. cbn [andb].
        rewrite !bind_print, (bind_ask_ok _ _ _ w w1 r1 Hans), Hrun.
        replace (retried + 1 + Z.of_nat j) with (retried + Z.of_nat (S j))
          by lia.
        reflexivity.
      * simpl. rewrite Hcalls. reflexivity.
Qed.

Lemma unreachable_budget_ne (retries : option Z) (retried : Z) :
  unreachable_budget retries -> 0 <= retried ->
  int_ne_optional retried retries = true.
Proof.
  intros [-> | (R & -> & HR)] Hr; [reflexivity|].
  apply int_ne_optional_other. lia.
Qed.

Lemma retry_loop_never_stops (msg : string) (c : Call)
    (retries : option Z) :
  unreachable_budget retries ->
  never_succeeds answers [c] ->
  forall (fuel : nat) (result : TransactionResult) (retried : Z) (w : W),
    status result <> SUCCESS ->
    0 <= retried ->
    exists w' t,
      retry_loop fuel msg (invoke answers c) retries result retried w
      = (OutOfFuel, w', t)
      /\ calls_of t = replicate fuel c.
Proof.
  intros Hbudget Hnever. unfold invoke.
  induction fuel as [|fuel IH]; intros result retried w Hs Hr;
    cbn [retry_loop]; rewrite bool_decide_eq_true_2 by exact Hs;
    rewrite unreachable_budget_ne by assumption; cbn [andb].
  - exists w, []. split; reflexivity.
  - destruct (Hnever c w) as (r1 & w1 & Hans & Hs1); [left; reflexivity|].
    destruct (IH r1 (retried + 1) w1 Hs1 ltac:(lia)) as (w' & t & Hrun & Hcalls).
    exists w', (EPrint msg :: EPrint "Retrying..." :: EMethod c :: t).
    rewrite !bind_print, (bind_ask_ok _ _ _ w w1 r1 Hans), Hrun.
    split; [reflexivity|]. simpl. rewrite Hcalls. reflexivity.
Qed.

End RetryStops.

(** X1.  The retry loop stops at the first success.  If the first [j]
    calls are answered without [SUCCESS] and the next one with
    [SUCCESS], and the budget allows [j] retries, the loop makes exactly
    [j + 1] calls, [retried] ends at [j], and the result is the
    successful answer: nothing is called after a success. *)
Theorem X1_retry_stops_at_first_success {W : Type} (answers : Answers W)
    (unsuccessful : string) (c1 c2 : Call) (R : Z) (j fuel : nat) (w : W)
    (r : TransactionResult) (w' : W) :
  (forall i, (i < j)%nat ->
     exists ri wi, last_answer answers c2 i (answers c1 w) = (inr ri, wi)
                   /\ status ri <> SUCCESS) ->
  last_answer answers c2 j (answers c1 w) = (inr r, w') ->
  status r = SUCCESS ->
  Z.of_nat j <= R ->
  (j <= fuel)%nat ->
  exists t,
    with_retries fuel unsuccessful (invoke answers c1) (invoke answers c2)
      (Some R) w = (Ok (r, Z.of_nat j), w', t)
    /\ calls_of t = c1 :: replicate j c2.
Proof.
  intros Hfail Hlast Hs HR Hfuel.
  destruct (answers c1 w) as [[e|r0] w0] eqn:Hans.
  { exfalso. destruct j as [|j].
    - cbn in Hlast. discriminate.
    - destruct (Hfail 0%nat ltac:(lia)) as (ri & wi & Hi & _).
      cbn in Hi. discriminate. }
  destruct (retry_loop_first_success answers unsuccessful c2 R j fuel r0 0 w0
              r w' Hfail Hlast Hs ltac:(lia) Hfuel) as (t & Hrun & Hcalls).
  exists (EMethod c1 :: t). split.
  - unfold with_retries, invoke at 1.
    rewrite (bind_ask_ok _ _ _ w w0 r0 Hans), Hrun. reflexivity.
  - simpl. rewrite Hcalls. reflexivity.
Qed.

Lemma X1_retry_stops_at_first_success_witness :
  exists t,
    with_retries 5 "Transaction Unsucessful"
      (invoke (RetryScenario.succeeds_after 2) Scenario.transfer)
      (invoke (RetryScenario.succeeds_after 2) Scenario.transfer)
      (Some 5) 0%nat
    = (Ok (mkResult SUCCESS "0xabc", Z.of_nat 2), 3%nat, t)
    /\ calls_of t = Scenario.transfer :: replicate 2 Scenario.transfer.
Proof.
  apply (X1_retry_stops_at_first_success (RetryScenario.succeeds_after 2)
           "Transaction Unsucessful" Scenario.transfer Scenario.transfer 5
           2 5 0%nat).
  - intros i Hi.
    destruct i as [|[|i]]; [| |lia];
      eexists _, _; (split; [reflexivity | discriminate]).
  - reflexivity.
  - reflexivity.
  - lia.
  - lia.
Defined.

(** X2.  A budget of [None] or of a negative number is never reached
    by [retried], so an operation that never succeeds is retried for as
    long as the loop is run: with fuel for [n] passes it has made
    [n + 1] calls and has not ended. *)
Theorem X2_retry_without_reachable_budget {W : Type} (answers : Answers W)
    (unsuccessful : string) (c1 c2 : Call) (retries : option Z)
    (fuel : nat) (w : W) :
  unreachable_budget retries ->
  never_succeeds answers [c1; c2] ->
  exists w' t,
    with_retries fuel unsuccessful (invoke answers c1) (invoke answers c2)
      retries w = (OutOfFuel, w', t)
    /\ calls_of t = c1 :: replicate fuel c2.
Proof.
  intros Hbudget Hnever.
  destruct (Hnever c1 w) as (r1 & w1 & Hans & Hs1); [left; reflexivity|].
  assert (never_succeeds answers [c2]) as Hnever2.
  { intros c w0 [<-|[]]. apply Hnever. right; left; reflexivity. }
  destruct (retry_loop_never_stops answers unsuccessful c2 retries Hbudget
              Hnever2 fuel r1 0 w1 Hs1 ltac:(lia))
    as (w' & t & Hrun & Hcalls).
  exists w', (EMethod c1 :: t). split.
  - unfold with_retries, invoke at 1.
    rewrite (bind_ask_ok _ _ _ w w1 r1 Hans).
    fold (invoke answers c2). rewrite Hrun. reflexivity.
  - simpl. rewrite Hcalls. reflexivity.
Qed.

Lemma X2_retry_without_reachable_budget_witness :
  exists w' t,
    with_retries 7 "Transaction Unsucessful"
      (invoke (Scenario.always FAILURE) Scenario.transfer)
      (invoke (Scenario.always FAILURE) Scenario.transfer)
      None 0%nat = (OutOfFuel, w', t)
    /\ calls_of t = Scenario.transfer :: replicate 7 Scenario.transfer.
Proof.
  apply (X2_retry_without_reachable_budget (Scenario.always FAILURE)
           "Transaction Unsucessful" Scenario.transfer Scenario.transfer
           None 7 0%nat).
  - left. reflexivity.
  - intros c w _. exists (mkResult FAILURE "0xabc"), (S w).
    split; [reflexivity | discriminate].
Defined.

(** ** The arbitrage leg: approval and swap budgets *)

(** X3.  A leg swaps only after an approval that succeeded.  When the
    approval is never answered with [SUCCESS], the leg makes its
    [R + 1] approvals, makes no swap at all, and returns normally. *)
Theorem X3_no_swap_without_approval {W : Type} (answers : Answers W)
    (fuel : nat) (self : Arbitrage.t) (sell_coin : Coin) (swapper : Swapper)
    (buy_coin_address : Address) (R : Z) (w : W) :
  Arbitrage.retries self = Some R ->
  0 <= R ->
  (Z.to_nat R <= fuel)%nat ->
  never_succeeds answers
    [Call_approve sell_coin (swapper_address swapper) (Arbitrage.amount self)] ->
  result_of (Arbitrage._swap answers fuel self sell_coin swapper
               buy_coin_address w) = Ok tt
  /\ calls_of (trace_of (Arbitrage._swap answers fuel self sell_coin swapper
                           buy_coin_address w))
     = replicate (S (Z.to_nat R))
         (Call_approve sell_coin (swapper_address swapper)
            (Arbitrage.amount self))
  /\ existsb is_swap
       (calls_of (trace_of (Arbitrage._swap answers fuel self sell_coin
                              swapper buy_coin_address w))) = false.
Proof.
  intros Hretries HR Hfuel Hnever.
  exact (leg_stops_when_approval_fails answers fuel self sell_coin swapper
           buy_coin_address R w Hretries HR Hfuel Hnever).
Qed.

Lemma X3_no_swap_without_approval_witness :
  result_of (Arbitrage.leg_1 (Scenario.always FAILURE) 2
               ArbitrageScenario.config (ArbitrageScenario.program 2) 0%nat)
  = Ok tt
  /\ calls_of (trace_of (Arbitrage.leg_1 (Scenario.always FAILURE) 2
                           ArbitrageScenario.config
                           (ArbitrageScenario.program 2) 0%nat))
     = replicate 3 (Call_approve ArbitrageScenario.coin1_1 "0xSwap1" 100)
  /\ existsb is_swap
       (calls_of (trace_of (Arbitrage.leg_1 (Scenario.always FAILURE) 2
                              ArbitrageScenario.config
                              (ArbitrageScenario.program 2) 0%nat))) = false.
Proof.
  apply (X3_no_swap_without_approval (Scenario.always FAILURE) 2
           (ArbitrageScenario.program 2) ArbitrageScenario.coin1_1
           ArbitrageScenario.swapper_1 "0xCoin2on1" 2 0%nat).
  - reflexivity.
  - lia.
  - simpl. lia.
  - intros c w _. exists (mkResult FAILURE "0xabc"), (S w).
    split; [reflexivity | discriminate].
Defined.

(** X4.  A leg whose approval succeeds at once and whose swaps never
    succeed: one approval, one swap through the leg's swapper, [R]
    retried swaps through [_swapper_1], and a normal return; the
    exhausted swap raises nothing. *)
Theorem X4_swap_budget_exhausted {W : Type} (answers : Answers W)
    (fuel : nat) (self : Arbitrage.t) (sell_coin : Coin) (swapper : Swapper)
    (buy_coin_address : Address) (R : Z) (w : W) :
  let approve :=
    Call_approve sell_coin (swapper_address swapper) (Arbitrage.amount self) in
  let own_swap :=
    Call_swap swapper (coin_address sell_coin) buy_coin_address
      (Arbitrage.amount self) in
  let first_swap :=
    Call_swap (Arbitrage._swapper_1 self) (coin_address sell_coin)
      buy_coin_address (Arbitrage.amount self) in
  Arbitrage.retries self = Some R ->
  0 <= R ->
  (Z.to_nat R <= fuel)%nat ->
  (forall w0, exists h w1, answers approve w0 = (inr (mkResult SUCCESS h), w1)) ->
  never_succeeds answers [own_swap; first_swap] ->
  result_of (Arbitrage._swap answers fuel self sell_coin swapper
               buy_coin_address w) = Ok tt
  /\ calls_of (trace_of (Arbitrage._swap answers fuel self sell_coin swapper
                           buy_coin_address w))
     = approve :: own_swap :: replicate (Z.to_nat R) first_swap.
Proof.
  intros approve own_swap first_swap Hretries HR Hfuel Happrove Hnever.
  destruct (Happrove w) as (h & w1 & Hans).
  destruct (with_retries_exhausts answers "Swap Unsucessful" own_swap
              first_swap R fuel w1 Hnever HR Hfuel)
    as (r & w2 & t & Hrun & Hcalls & _ & Hs).
  assert (Arbitrage._swap answers fuel self sell_coin swapper
            buy_coin_address w
          = (Ok tt, w2,
             EMethod approve :: EPrint "Approval Succeeded"
             :: t ++ [EPrint (if bool_decide (status r = FAILURE)
                              then "Swap Processed but Failed"
                              else "Swap Not Processed")])) as ->.
  { unfold Arbitrage._swap. fold approve own_swap first_swap.
    rewrite Hretries.
    unfold with_retries at 1. rewrite bind_assoc. unfold invoke at 1.
    rewrite (bind_ask_ok _ _ _ w w1 _ Hans).
    unfold bind at 1. rewrite retry_loop_success by reflexivity.
    cbn [fst status].
    rewrite bool_decide_eq_true_2 by reflexivity.
    rewrite bind_print_ret.
    unfold bind at 1. rewrite Hrun. cbn [fst].
    rewrite bool_decide_eq_false_2 by exact Hs.
    destruct (bool_decide (status r = FAILURE)); reflexivity. }
  unfold result_of, trace_of. cbn [fst snd calls_of].
  rewrite calls_of_app, Hcalls. simpl. rewrite app_nil_r.
  split; reflexivity.
Qed.

Lemma X4_swap_budget_exhausted_witness :
  result_of (Arbitrage.leg_1 Scenario.swaps_fail 2 ArbitrageScenario.config
               (ArbitrageScenario.program 2) 0%nat) = Ok tt
  /\ calls_of (trace_of (Arbitrage.leg_1 Scenario.swaps_fail 2
                           ArbitrageScenario.config
                           (ArbitrageScenario.program 2) 0%nat))
     = Call_approve ArbitrageScenario.coin1_1 "0xSwap1" 100
       :: Call_swap ArbitrageScenario.swapper_1 "0xCoin1on1" "0xCoin2on1" 100
       :: replicate (Z.to_nat 2)
            (Call_swap ArbitrageScenario.swapper_1 "0xCoin1on1" "0xCoin2on1"
               100).
Proof.
  apply (X4_swap_budget_exhausted Scenario.swaps_fail 2
           (ArbitrageScenario.program 2) ArbitrageScenario.coin1_1
           ArbitrageScenario.swapper_1 "0xCoin2on1" 2 0%nat).
  - reflexivity.
  - lia.
  - simpl. lia.
  - intros w0. exists "0xabc", (S w0). reflexivity.
  - intros c w [<-|[<-|[]]]; exists (mkResult FAILURE "0xdef"), (S w);
      (split; [reflexivity | discriminate]).
Defined.

(** ** The block watcher: interruptions and failures *)

Section WatcherFailures.
Context {W : Type} (answers : Answers W).

Lemma bind_ext {A B} (m : M (ListenAndSend.Locals * W) A)
    (k1 k2 : A -> M (ListenAndSend.Locals * W) B)
    (s : ListenAndSend.Locals * W) :
  (forall a s', k1 a s' = k2 a s') -> bind m k1 s = bind m k2 s.
Proof.
  intros H. unfold bind. destruct (m s) as [[[a| |] s1] t1]; try reflexivity.
  rewrite H. reflexivity.
Qed.

Lemma iterations_app (fuel : nat) (self : ListenAndSend.t)
    (pre rest : list (Exn + Z)) (s : ListenAndSend.Locals * W) :
  ListenAndSend.iterations answers fuel self (pre ++ rest) s
  = bind (ListenAndSend.iterations answers fuel self pre)
      (fun _ => ListenAndSend.iterations answers fuel self rest) s.
Proof.
  revert s. induction pre as [|poll pre IH]; intros s.
  - cbn [app ListenAndSend.iterations]. unfold bind, ret.
    destruct (ListenAndSend.iterations answers fuel self rest s) as [[r s1] t].
    reflexivity.
  - cbn [app ListenAndSend.iterations]. rewrite bind_assoc.
    apply bind_ext. intros _ s'. apply IH.
Qed.

(** A transfer whose [send_ETH] raises: the exception leaves [send]
    after the one call; nothing is retried. *)
Lemma send_raises (fuel : nat) (self : ListenAndSend.t) (e : Exn)
    (s : ListenAndSend.Locals * W) (w' : W) :
  answers (Call_send_ETH (ListenAndSend._web3node self)
             (ListenAndSend.amount self) (ListenAndSend.to_address self))
    (snd s) = (inl e, w') ->
  ListenAndSend.send answers fuel self s
  = (Raise e, (fst s, w'),
     [EPrint "Sending ETH...";
      EMethod (Call_send_ETH (ListenAndSend._web3node self)
                 (ListenAndSend.amount self) (ListenAndSend.to_address self))]).
Proof.
  intros Hans.
  unfold ListenAndSend.send, with_retries.
  rewrite bind_print, bind_assoc. unfold invoke.
  rewrite (bind_ask_raise _ _ _ s (fst s, w') e); [reflexivity|].
  unfold ListenAndSend.answers_here. rewrite Hans. reflexivity.
Qed.

End WatcherFailures.

(** X5.  The first read of the block number is made before the loop
    and outside its [try]: whatever it raises, also [HTTPError] or
    [TimeExhausted], ends [execute] with that exception before any
    pass of the loop.  The same two exceptions raised by a poll inside
    the loop are reported, slept on for three seconds and survived. *)
Theorem X5_first_block_read_is_fatal {W : Type} (answers : Answers W)
    (fuel : nat) (self : ListenAndSend.t) (e : Exn)
    (polls : list (Exn + Z)) (locals : ListenAndSend.Locals) (w : W) :
  ListenAndSend.execute answers fuel self (inl e) polls w
  = (Raise e, w, [EPrint "Starting execution..."; EEth get_block_latest])
  /\ ListenAndSend.iteration answers fuel self (inl e) (locals, w)
     = if caught_in_loop e
       then (Ok tt, (locals, w),
             [EEth get_block_latest; EPrint "Request Error: ";
              EPrint "Retrying..."; ESleep 3])
       else (Raise e, (locals, w), [EEth get_block_latest]).
Proof.
  split; [reflexivity|]. apply iteration_poll_raises.
Qed.

(** X6.  An interrupt while polling ends [execute] normally.  When the
    passes over [pre] end normally and the next poll raises
    [KeyboardInterrupt], [execute] returns without an exception, its
    last print is the farewell, and the polls after the interrupt are
    never made. *)
Theorem X6_interrupt_exits_gracefully {W : Type} (answers : Answers W)
    (fuel : nat) (self : ListenAndSend.t) (n0 : Z)
    (pre post : list (Exn + Z)) (w : W)
    (s1 : ListenAndSend.Locals * W) (t1 : list Event) :
  ListenAndSend.iterations answers fuel self pre
    (ListenAndSend.mkLocals n0 0, w) = (Ok tt, s1, t1) ->
  ListenAndSend.execute answers fuel self (inr n0)
    (pre ++ inl KeyboardInterrupt :: post) w
  = (Ok tt, snd s1,
     [EPrint "Starting execution..."; EEth get_block_latest;
      EPrintNumber "Block number: " n0]
     ++ t1
     ++ [EEth get_block_latest;
         EPrint "Program interrupted. Exiting gracefully..."]).
Proof.
  intros Hpre.
  unfold ListenAndSend.execute.
  rewrite bind_print, bind_emit. cbn [of_sum]. rewrite bind_ret, bind_emit.
  unfold ListenAndSend.with_locals, try_except.
  rewrite iterations_app. unfold bind at 1. rewrite Hpre.
  cbn [ListenAndSend.iterations]. unfold bind at 1.
  rewrite iteration_poll_raises.
  change (bool_decide (KeyboardInterrupt = HTTPError)
          || bool_decide (KeyboardInterrupt = TimeExhausted)) with false.
  cbv iota beta.
  change (except_matches [ExcClass KeyboardInterrupt] KeyboardInterrupt)
    with (@inr Exn bool true).
  cbn. rewrite <- app_assoc. reflexivity.
Qed.

Lemma X6_interrupt_exits_gracefully_witness :
  result_of (ListenAndSend.execute (Scenario.always SUCCESS) 5
               WatcherScenario.program (inr 100)
               (WatcherScenario.polls ++ inl KeyboardInterrupt :: [inr 104])
               0%nat) = Ok tt.
Proof.
  rewrite (X6_interrupt_exits_gracefully (Scenario.always SUCCESS) 5
             WatcherScenario.program 100 WatcherScenario.polls [inr 104]
             0%nat
             (world_of (ListenAndSend.iterations (Scenario.always SUCCESS) 5
                          WatcherScenario.program WatcherScenario.polls
                          (ListenAndSend.mkLocals 100 0, 0%nat)))
             (trace_of (ListenAndSend.iterations (Scenario.always SUCCESS) 5
                          WatcherScenario.program WatcherScenario.polls
                          (ListenAndSend.mkLocals 100 0, 0%nat)))).
  - reflexivity.
  - reflexivity.
Defined.

Section TransientPolls.
Context {W : Type} (answers : Answers W).

Lemma iteration_transient (fuel : nat) (self : ListenAndSend.t)
    (poll : Exn + Z) (s : ListenAndSend.Locals * W) :
  transient poll = true ->
  ListenAndSend.iteration answers fuel self poll s
  = (Ok tt, s, [EEth get_block_latest; EPrint "Request Error: ";
                EPrint "Retrying..."; ESleep 3]).
Proof.
  destruct poll as [e|n]; [|discriminate].
  destruct e; try discriminate; intros _; reflexivity.
Qed.

End TransientPolls.

(** X7.  Polls that fail with [HTTPError] or [TimeExhausted] are
    invisible to the counter.  Running the loop over any polls, or over
    the same polls with those failures left out, ends in the same way,
    with the same local variables and outside world, the same calls of
    [send_ETH], the same transfers started and the same height changes
    reported. *)
Theorem X7_transient_poll_errors_are_skipped {W : Type}
    (answers : Answers W) (fuel : nat) (self : ListenAndSend.t)
    (polls : list (Exn + Z)) (s : ListenAndSend.Locals * W) :
  let all := ListenAndSend.iterations answers fuel self polls s in
  let kept := ListenAndSend.iterations answers fuel self
                (List.filter (fun poll => negb (transient poll)) polls) s in
  result_of all = result_of kept
  /\ world_of all = world_of kept
  /\ calls_of (trace_of all) = calls_of (trace_of kept)
  /\ transfers_started (trace_of all) = transfers_started (trace_of kept)
  /\ observed_changes (trace_of all) = observed_changes (trace_of kept).
Proof.
  cbv zeta. revert s.
  induction polls as [|poll rest IH]; intros s.
  - repeat split; reflexivity.
  - cbn [List.filter ListenAndSend.iterations].
    destruct (transient poll) eqn:Hp; cbn [negb].
    + unfold bind.
      rewrite (iteration_transient answers fuel self poll s Hp).
      specialize (IH s).
      destruct (ListenAndSend.iterations answers fuel self rest s)
        as [[r1 s1] t1].
      destruct (ListenAndSend.iterations answers fuel self
                  (List.filter (fun poll => negb (transient poll)) rest) s)
        as [[r2 s2] t2].
      unfold result_of, world_of, trace_of in *. cbn [fst snd] in *.
      exact IH.
    + cbn [ListenAndSend.iterations]. unfold bind.
      destruct (ListenAndSend.iteration answers fuel self poll s)
        as [[[[]| |] s1] t1]; try (repeat split; reflexivity).
      specialize (IH s1).
      destruct (ListenAndSend.iterations answers fuel self rest s1)
        as [[r1 s1'] t1'].
      destruct (ListenAndSend.iterations answers fuel self
                  (List.filter (fun poll => negb (transient poll)) rest) s1)
        as [[r2 s2] t2].
      unfold result_of, world_of, trace_of in *. cbn [fst snd] in *.
      destruct IH as (H1 & H2 & H3 & H4 & H5).
      rewrite !calls_of_app, !transfers_started_app, !observed_changes_app.
      repeat split; congruence.
Qed.

(** X8.  An exception out of [send_ETH] is never retried.  On the pass
    in which the counter wraps, if the call raises, the transfer is
    over after that one call and the counter stays at 0, so the next
    transfer is due only after [num_blocks] further blocks.
    [HTTPError] and [TimeExhausted] are reported and slept on and the
    loop goes on; any other exception, [TransactionException] among
    them, leaves the loop. *)
Theorem X8_send_exception_is_not_retried {W : Type} (answers : Answers W)
    (fuel : nat) (self : ListenAndSend.t) (latest : Z)
    (locals : ListenAndSend.Locals) (w w' : W) (e : Exn) :
  let N := ListenAndSend.num_blocks self in
  let send_ETH :=
    Call_send_ETH (ListenAndSend._web3node self) (ListenAndSend.amount self)
      (ListenAndSend.to_address self) in
  latest <> ListenAndSend.current_number locals ->
  N <> 0 ->
  (ListenAndSend.block_count locals + 1) mod N = 0 ->
  answers send_ETH w = (inl e, w') ->
  ListenAndSend.iteration answers fuel self (inr latest) (locals, w)
  = if caught_in_loop e
    then (Ok tt, (ListenAndSend.mkLocals latest 0, w'),
          [EEth get_block_latest; EPrintNumber "Block number: " latest;
           EPrint "Sending ETH..."; EMethod send_ETH;
           EPrint "Request Error: "; EPrint "Retrying..."; ESleep 3])
    else (Raise e, (ListenAndSend.mkLocals latest 0, w'),
          [EEth get_block_latest; EPrintNumber "Block number: " latest;
           EPrint "Sending ETH..."; EMethod send_ETH]).
Proof.
  intros N send_ETH Hnew HN Hm Hans.
  unfold ListenAndSend.iteration, try_except.
  rewrite bind_emit. cbn [of_sum]. rewrite bind_ret.
  unfold bind at 1, ListenAndSend.get_locals at 1. cbn [fst].
  rewrite bool_decide_eq_true_2 by exact Hnew.
  unfold py_mod. fold N. apply Z.eqb_neq in HN. rewrite HN, Hm.
  unfold bind, ListenAndSend.set_current_number,
    ListenAndSend.set_block_count, emit, of_sum, ret.
  cbn [fst snd ListenAndSend.block_count ListenAndSend.current_number
       Z.eqb].
  rewrite (send_raises answers fuel self e
             (ListenAndSend.mkLocals latest 0, w) w' Hans).
  destruct e; reflexivity.
Qed.

Lemma X8_send_exception_is_not_retried_witness :
  result_of (ListenAndSend.iteration
               (FailureScenario.raises TransactionException) 5
               FailureScenario.every_block (inr 101)
               (ListenAndSend.mkLocals 100 0, 0%nat))
  = Raise TransactionException.
Proof.
  rewrite (X8_send_exception_is_not_retried
             (FailureScenario.raises TransactionException) 5
             FailureScenario.every_block 101 (ListenAndSend.mkLocals 100 0)
             0%nat 1%nat TransactionException).
  - reflexivity.
  - cbn. lia.
  - cbn. lia.
  - reflexivity.
  - reflexivity.
Defined.

(** ** Submitting a transaction *)

Section SubmitFacts.
Context {W : Type}.

(** [send_transaction], step by step. *)
Lemma send_transaction_run (self : Web3Node.t)
    (transaction : gmap string PyVal) (w : W) :
  let web3 := Web3Node._web3 self in
  Web3Node.send_transaction self transaction w
  = match eth_sign_transaction web3 transaction (Web3Node._private_key self)
    with
    | inl e =>
        (Raise (if issubclass e ValueError || issubclass e TypeError
                then TransactionException else e),
         w, [EEth sign_transaction])
    | inr signed =>
        match eth_send_raw_transaction web3 signed with
        | inl e =>
            (Raise (if issubclass e ValueError
                       || issubclass e RequestException
                    then TransactionException else e),
             w, [EEth sign_transaction; EEth send_raw_transaction])
        | inr h =>
            (match eth_wait_for_transaction_receipt web3 h
                     Web3Node.default_timeout with
             | inl _ => Raise TypeError
             | inr receipt =>
                 match TransactionStatus_of_value (receipt_status receipt)
                 with
                 | inl _ => Raise TypeError
                 | inr s => Ok (mkResult s h)
                 end
             end,
             w,
             [EEth sign_transaction; EEth send_raw_transaction;
              EEth (wait_for_transaction_receipt h Web3Node.default_timeout)])
        end
    end.
Proof.
  cbv zeta. unfold Web3Node.send_transaction.
  unfold bind at 1. unfold try_except at 1. rewrite bind_emit.
  destruct (eth_sign_transaction (Web3Node._web3 self) transaction
              (Web3Node._private_key self)) as [e|signed].
  { destruct e; reflexivity. }
  cbn [of_sum ret]. cbv iota beta.
  unfold bind at 1. unfold try_excepts at 1. rewrite bind_emit.
  destruct (eth_send_raw_transaction (Web3Node._web3 self) signed) as [e|h].
  { destruct e; reflexivity. }
  cbn [of_sum ret]. cbv iota beta.
  unfold bind at 1.
  destruct (eth_wait_for_transaction_receipt (Web3Node._web3 self) h
              Web3Node.default_timeout) as [e|receipt] eqn:Hwait.
  - rewrite (verify_transaction_wait_raises self h _ e w Hwait). reflexivity.
  - unfold Web3Node.verify_transaction, try_except.
    rewrite bind_emit, Hwait. cbn [of_sum]. rewrite bind_ret.
    destruct (TransactionStatus_of_value (receipt_status receipt)) as [e|s];
      [destruct e|]; reflexivity.
Qed.

End SubmitFacts.

(** X9.  A transaction that cannot be signed is never sent.  When
    signing raises [ValueError] or [TypeError], [send_transaction]
    raises [TransactionException] and the only thing it has done is the
    attempt to sign: no broadcast and no wait for a receipt. *)
Theorem X9_signing_failure_sends_nothing {W : Type} (self : Web3Node.t)
    (transaction : gmap string PyVal) (e : Exn) (w : W) :
  eth_sign_transaction (Web3Node._web3 self) transaction
    (Web3Node._private_key self) = inl e ->
  e = ValueError \/ e = TypeError ->
  Web3Node.send_transaction self transaction w
  = (Raise TransactionException, w, [EEth sign_transaction]).
Proof.
  intros Hsign He. rewrite send_transaction_run. cbv zeta. rewrite Hsign.
  destruct He as [-> | ->]; reflexivity.
Qed.

Lemma X9_signing_failure_sends_nothing_witness :
  Web3Node.send_transaction
    (SubmitScenario.node (inl ValueError) (inr "0xhash") (inr (mkReceipt 1)))
    ∅ tt
  = (Raise TransactionException, tt, [EEth sign_transaction]).
Proof.
  apply (X9_signing_failure_sends_nothing
           (SubmitScenario.node (inl ValueError) (inr "0xhash")
              (inr (mkReceipt 1))) ∅ ValueError tt).
  - reflexivity.
  - left. reflexivity.
Defined.

(** X10.  A broadcast that is refused is not waited for.  When the
    signed transaction is rejected by the node ([ValueError]) or the
    network fails ([RequestException], or its subclass [HTTPError]),
    [send_transaction] raises [TransactionException] after exactly one
    broadcast attempt and never waits for a receipt. *)
Theorem X10_broadcast_failure_is_terminal {W : Type} (self : Web3Node.t)
    (transaction : gmap string PyVal) (signed : string) (e : Exn) (w : W) :
  eth_sign_transaction (Web3Node._web3 self) transaction
    (Web3Node._private_key self) = inr signed ->
  eth_send_raw_transaction (Web3Node._web3 self) signed = inl e ->
  e = ValueError \/ e = RequestException \/ e = HTTPError ->
  Web3Node.send_transaction self transaction w
  = (Raise TransactionException, w,
     [EEth sign_transaction; EEth send_raw_transaction]).
Proof.
  intros Hsign Hsend He. rewrite send_transaction_run. cbv zeta.
  rewrite Hsign, Hsend.
  destruct He as [-> | [-> | ->]]; reflexivity.
Qed.

Lemma X10_broadcast_failure_is_terminal_witness :
  Web3Node.send_transaction
    (SubmitScenario.node (inr "signed") (inl HTTPError) (inr (mkReceipt 1)))
    ∅ tt
  = (Raise TransactionException, tt,
     [EEth sign_transaction; EEth send_raw_transaction]).
Proof.
  apply (X10_broadcast_failure_is_terminal
           (SubmitScenario.node (inr "signed") (inl HTTPError)
              (inr (mkReceipt 1))) ∅ "signed" HTTPError tt).
  - reflexivity.
  - reflexivity.
  - right; right. reflexivity.
Defined.

(** X11.  A transaction that is signed, sent and confirmed.  The result
    carries the hash the broadcast returned and the status of the
    receipt (1 is [SUCCESS], 0 is [FAILURE]); there is one signing, one
    broadcast and one wait, with the default timeout of 120, for that
    hash. *)
Theorem X11_confirmed_transaction_result {W : Type} (self : Web3Node.t)
    (transaction : gmap string PyVal) (signed : string) (h : Hash)
    (receipt : Receipt) (s : TransactionStatus) (w : W) :
  eth_sign_transaction (Web3Node._web3 self) transaction
    (Web3Node._private_key self) = inr signed ->
  eth_send_raw_transaction (Web3Node._web3 self) signed = inr h ->
  eth_wait_for_transaction_receipt (Web3Node._web3 self) h 120
  = inr receipt ->
  receipt_status receipt = status_value s ->
  Web3Node.send_transaction self transaction w
  = (Ok (mkResult s h), w,
     [EEth sign_transaction; EEth send_raw_transaction;
      EEth (wait_for_transaction_receipt h 120)]).
Proof.
  intros Hsign Hsend Hwait Hstatus. rewrite send_transaction_run. cbv zeta.
  rewrite Hsign, Hsend. unfold Web3Node.default_timeout.
  rewrite Hwait, Hstatus. destruct s; reflexivity.
Qed.

Lemma X11_confirmed_transaction_result_witness :
  Web3Node.send_transaction
    (SubmitScenario.node (inr "signed") (inr "0xhash") (inr (mkReceipt 0)))
    ∅ tt
  = (Ok (mkResult FAILURE "0xhash"), tt,
     [EEth sign_transaction; EEth send_raw_transaction;
      EEth (wait_for_transaction_receipt "0xhash" 120)]).
Proof.
  apply (X11_confirmed_transaction_result
           (SubmitScenario.node (inr "signed") (inr "0xhash")
              (inr (mkReceipt 0))) ∅ "signed" "0xhash" (mkReceipt 0)
           FAILURE tt); reflexivity.
Defined.

(** X12.  A transaction that was broadcast but whose receipt does not
    arrive.  Whatever the wait for the receipt raises, [TimeExhausted]
    included, [send_transaction] raises [TypeError] after the
    broadcast: the caller gets neither the hash of the transaction that
    is now on its way nor a [NOT_VERIFIED] status. *)
Theorem X12_lost_receipt_loses_the_hash {W : Type} (self : Web3Node.t)
    (transaction : gmap string PyVal) (signed : string) (h : Hash)
    (e : Exn) (w : W) :
  eth_sign_transaction (Web3Node._web3 self) transaction
    (Web3Node._private_key self) = inr signed ->
  eth_send_raw_transaction (Web3Node._web3 self) signed = inr h ->
  eth_wait_for_transaction_receipt (Web3Node._web3 self) h 120 = inl e ->
  Web3Node.send_transaction self transaction w
  = (Raise TypeError, w,
     [EEth sign_transaction; EEth send_raw_transaction;
      EEth (wait_for_transaction_receipt h 120)]).
Proof.
  intros Hsign Hsend Hwait. rewrite send_transaction_run. cbv zeta.
  rewrite Hsign, Hsend. unfold Web3Node.default_timeout.
  rewrite Hwait. reflexivity.
Qed.

Lemma X12_lost_receipt_loses_the_hash_witness :
  Web3Node.send_transaction
    (SubmitScenario.node (inr "signed") (inr "0xhash") (inl TimeExhausted))
    ∅ tt
  = (Raise TypeError, tt,
     [EEth sign_transaction; EEth send_raw_transaction;
      EEth (wait_for_transaction_receipt "0xhash" 120)]).
Proof.
  apply (X12_lost_receipt_loses_the_hash
           (SubmitScenario.node (inr "signed") (inr "0xhash")
              (inl TimeExhausted)) ∅ "signed" "0xhash" TimeExhausted tt);
    reflexivity.
Defined.

(** X13.  The builder is idempotent.  Filling the parameters a builder
    run has already filled makes no chain query at all and gives the
    same parameters back. *)
Theorem X13_builder_is_idempotent {W : Type} (self : Web3Node.t)
    (overrides : gmap string PyVal) (w : W) :
  exists filled,
    result_of (Web3Node.fill_parameters self overrides w) = Ok filled
    /\ Web3Node.fill_parameters self filled w = (Ok filled, w, []).
Proof.
  exists (overrides ∪ chain_fields self).
  split; [rewrite fill_parameters_run; reflexivity|].
  rewrite fill_parameters_run.
  assert (forall k, is_Some (chain_fields self !! k) ->
                    is_Some ((overrides ∪ chain_fields self) !! k)) as Hin.
  { intros k Hk. apply lookup_union_is_Some. right. exact Hk. }
  assert (queries_made self (overrides ∪ chain_fields self) = []) as ->.
  { unfold queries_made, Web3Node.not_in.
    destruct (Hin "nonce") as [? ->]; [unfold chain_fields; cbv zeta;
                                        simplify_map_eq; eauto|].
    destruct (Hin "maxFeePerGas") as [? ->]; [unfold chain_fields; cbv zeta;
                                               simplify_map_eq; eauto|].
    destruct (Hin "maxPriorityFeePerGas") as [? ->];
      [unfold chain_fields; cbv zeta; simplify_map_eq; eauto|].
    destruct (Hin "chainId") as [? ->]; [unfold chain_fields; cbv zeta;
                                          simplify_map_eq; eauto|].
    reflexivity. }
  f_equal. f_equal. f_equal.
  rewrite <- (assoc_L (∪)). rewrite (idemp_L (∪)). reflexivity.
Qed.

(** X14.  A transfer to an invalid address touches nothing.  When the
    recipient is not an address, [send_ETH] raises
    [InvalidAddressException] before any chain query, signing or
    sending. *)
Theorem X14_invalid_recipient_touches_nothing {W : Type}
    (to_dictionary : gmap string PyVal -> Exn + gmap string PyVal)
    (is_address : string -> bool) (to_checksum_address : string -> Address)
    (to_wei : float -> Z) (self : Web3Node.t) (amount : float)
    (to_address : string) (w : W) :
  is_address to_address = false ->
  Web3Node.send_ETH to_dictionary is_address to_checksum_address to_wei
    self amount to_address w
  = (Raise InvalidAddressException, w, []).
Proof.
  intros H. unfold Web3Node.send_ETH, validate_address, bind.
  rewrite H. reflexivity.
Qed.

Lemma X14_invalid_recipient_touches_nothing_witness :
  Web3Node.send_ETH NodeScenario.to_dictionary TransferScenario.is_address
    TransferScenario.to_checksum_address TransferScenario.to_wei
    (NodeScenario.node (inr (mkReceipt 1))) 0.5%float "me" tt
  = (Raise InvalidAddressException, tt, []).
Proof.
  apply (X14_invalid_recipient_touches_nothing NodeScenario.to_dictionary
           TransferScenario.is_address TransferScenario.to_checksum_address
           TransferScenario.to_wei (NodeScenario.node (inr (mkReceipt 1)))
           0.5%float "me" tt).
  reflexivity.
Defined.



(** ** Connection setup without a reachable budget *)

Section ConnectUnbounded.
Context {W : Type}.

(** The loop from attempt [j], when the next [k] clients answer its
    test with unconnected and the one after them with connected. *)
Lemma connect_loop_until_connected (endpoint : Endpoint)
    (clients : nat -> Web3) (retries : option Z) :
  unreachable_budget retries ->
  forall (k fuel j : nat) (w : W),
    (forall i, (j <= i < j + k)%nat ->
               is_connected (clients i) 0%nat = false) ->
    is_connected (clients (j + k)%nat) 0%nat = true ->
    (k <= fuel)%nat ->
    Web3Node.connect_loop fuel endpoint retries clients (S j) (clients j)
      0%nat (Z.of_nat j) w
    = (Ok (clients (j + k)%nat, 1%nat, Z.of_nat (j + k)), w,
       retries_events endpoint k ++ [EIsConnected endpoint]).
Proof.
  intros Hbudget.
  induction k as [|k IH]; intros fuel j w Hfail Hconn Hfuel.
  - rewrite Nat.add_0_r in *.
    destruct fuel; cbn [Web3Node.connect_loop]; rewrite bind_emit; cbv zeta;
      rewrite Hconn; reflexivity.
  - destruct fuel as [|fuel]; [lia|].
    cbn [Web3Node.connect_loop]. rewrite bind_emit. cbv zeta.
    rewrite (Hfail j) by lia.
    rewrite unreachable_budget_ne by (assumption || lia).
    cbn [negb andb]. rewrite bind_print, !bind_emit.
    replace (Z.of_nat j + 1) with (Z.of_nat (S j)) by lia.
    rewrite (IH fuel (S j) w).
    + replace (S j + k)%nat with (j + S k)%nat by lia. reflexivity.
    + intros i Hi. apply Hfail. lia.
    + replace (S j + k)%nat with (j + S k)%nat by lia. exact Hconn.
    + lia.
Qed.

(** The loop on an endpoint no client of which answers its test with
    connected. *)
Lemma connect_loop_never_ends (endpoint : Endpoint)
    (clients : nat -> Web3) (retries : option Z) :
  unreachable_budget retries ->
  (forall i, is_connected (clients i) 0%nat = false) ->
  forall (fuel j : nat) (w : W),
    Web3Node.connect_loop fuel endpoint retries clients (S j) (clients j)
      0%nat (Z.of_nat j) w
    = (OutOfFuel, w, retries_events endpoint fuel ++ [EIsConnected endpoint]).
Proof.
  intros Hbudget Hfail.
  induction fuel as [|fuel IH]; intros j w;
    cbn [Web3Node.connect_loop]; rewrite bind_emit; cbv zeta; rewrite Hfail;
    rewrite unreachable_budget_ne by (assumption || lia); cbn [negb andb].
  - reflexivity.
  - rewrite bind_print, !bind_emit.
    replace (Z.of_nat j + 1) with (Z.of_nat (S j)) by lia.
    rewrite IH. reflexivity.
Qed.

End ConnectUnbounded.

(** X16.  Connection setup with [retries] of [None] or of a negative
    number has no last attempt.  The loop goes on until a client
    answers its test with connected: when the client of attempt [k] is
    the first to do so, the setup makes [k + 1] attempts and sleeps [k]
    times, however large [k] is, and then asks that client once more;
    it hands the client back when the second answer is connected and
    raises [Web3ConnectionException] when it is not.  On an endpoint no
    client of which answers the test with connected it never raises:
    run for [n] passes of the loop it has made [n + 1] attempts and has
    not ended. *)
Theorem X16_connection_without_budget {W : Type} (endpoint : Endpoint)
    (clients : nat -> Web3) (retries : option Z) (fuel : nat) (w : W) :
  unreachable_budget retries ->
  let run := Web3Node._initialize_web3 fuel endpoint retries clients w in
  (forall k,
     (forall i, (i < k)%nat -> is_connected (clients i) 0%nat = false) ->
     is_connected (clients k) 0%nat = true ->
     (k <= fuel)%nat ->
     result_of run
     = (if is_connected (clients k) 1%nat then Ok (clients k)
        else Raise Web3ConnectionException)
     /\ attempts_of (trace_of run) = S k
     /\ sleeps_of (trace_of run) = replicate k 1)
  /\ ((forall i, is_connected (clients i) 0%nat = false) ->
      result_of run = OutOfFuel
      /\ attempts_of (trace_of run) = S fuel).
Proof.
  intros Hbudget run. split.
  - intros k Hfail Hconn Hfuel.
    pose proof (connect_loop_until_connected endpoint clients retries Hbudget
                  k fuel 0%nat w) as Hloop.
    cbn [Nat.add] in Hloop. change (Z.of_nat 0) with 0 in Hloop.
    specialize (Hloop ltac:(intros i Hi; apply Hfail; lia) Hconn Hfuel).
    assert (run = (if is_connected (clients k) 1%nat then Ok (clients k)
                   else Raise Web3ConnectionException, w,
                   ENewWeb3 endpoint
                   :: retries_events endpoint k
                   ++ [EIsConnected endpoint; EIsConnected endpoint]))
      as ->.
    { unfold run, Web3Node._initialize_web3.
      rewrite bind_emit. unfold bind at 1. rewrite Hloop. cbn [fst snd].
      rewrite bind_emit.
      destruct (is_connected (clients k) 1%nat); cbn;
        rewrite <- app_assoc; reflexivity. }
    unfold result_of, trace_of. cbn [fst snd attempts_of sleeps_of].
    rewrite attempts_of_app, attempts_of_retries.
    rewrite sleeps_of_app, sleeps_of_retries.
    cbn. rewrite app_nil_r. split; [reflexivity|]. split; [lia|reflexivity].
  - intros Hfail.
    pose proof (connect_loop_never_ends endpoint clients retries Hbudget
                  Hfail fuel 0%nat w) as Hloop.
    change (Z.of_nat 0) with 0 in Hloop.
    assert (run = (OutOfFuel, w,
                   ENewWeb3 endpoint
                   :: retries_events endpoint fuel
                   ++ [EIsConnected endpoint])) as ->.
    { unfold run, Web3Node._initialize_web3.
      rewrite bind_emit. unfold bind at 1. rewrite Hloop. reflexivity. }
    unfold result_of, trace_of. cbn [fst snd attempts_of].
    rewrite attempts_of_app, attempts_of_retries.
    cbn. split; [reflexivity|lia].
Qed.

Lemma X16_connection_without_budget_witness :
  result_of (Web3Node._initialize_web3 7 "https://testnet" None
               ConnectScenario.unreachable tt) = OutOfFuel
  /\ attempts_of (trace_of (Web3Node._initialize_web3 7 "https://testnet" None
                              ConnectScenario.unreachable tt)) = 8%nat.
Proof.
  apply (X16_connection_without_budget "https://testnet"
           ConnectScenario.unreachable None 7 tt).
  - left. reflexivity.
  - intros i. reflexivity.
Defined.

(** ** The Curve swapper: failing reads, repeated coins, the estimate *)

Section CurveReads.
Context {W : Type}.

Lemma lookup_coin_result (self : Curve.t) (coin_set : gset Address)
    (i : Z) (w : W) :
  Curve._lookup_coin self i coin_set w
  = (match lookup_result (Curve._contract self) coin_set i with
     | inl e => Raise e
     | inr entry => Ok entry
     end, w, [EContract (coins i)]).
Proof.
  unfold Curve._lookup_coin, lookup_result, try_except.
  rewrite bind_emit.
  destruct (call_coins (Curve._contract self) i) as [e|address];
    [destruct e|]; reflexivity.
Qed.

Lemma run_all_lookup_results (self : Curve.t) (coin_set : gset Address)
    (indexes : list Z) (w : W) :
  run_all (map (fun i => Curve._lookup_coin self i coin_set) indexes) w
  = (Ok (map (lookup_result (Curve._contract self) coin_set) indexes), w,
     map (fun i => EContract (coins i)) indexes).
Proof.
  induction indexes as [|i rest IH]; [reflexivity|].
  cbn [map run_all]. unfold bind at 1, attempt.
  rewrite lookup_coin_result.
  destruct (lookup_result (Curve._contract self) coin_set i) as [e|entry];
    unfold bind at 1; rewrite IH; cbn; rewrite app_nil_r; reflexivity.
Qed.

(** The first exception of results whose exceptions are all [e]. *)
Lemma first_error_is {A} (rs : list (Exn + A)) (e : Exn) :
  (exists e0, inl e0 ∈ rs) ->
  (forall e0, inl e0 ∈ rs -> e0 = e) ->
  first_error_or_values rs = inl e.
Proof.
  induction rs as [|r rest IH]; intros [e0 Hin] Hall.
  - apply elem_of_nil in Hin. destruct Hin.
  - destruct r as [e1|a]; simpl.
    + rewrite (Hall e1) by left. reflexivity.
    + rewrite IH; [reflexivity| |].
      * exists e0. apply elem_of_cons in Hin as [Heq|Hin];
          [discriminate | exact Hin].
      * intros e1 H1. apply Hall. right. exact H1.
Qed.

Lemma get_coin_indexes_size_fails (self : Curve.t)
    (coin_addresses : list Address) (e : Exn) (w : W) :
  call_N_COINS (Curve._contract self) = inl e ->
  e = ContractLogicError \/ e = ABIFunctionNotFound ->
  Curve.get_coin_indexes self coin_addresses w
  = (Raise SwapException, w, [EContract N_COINS]).
Proof.
  intros HN He. unfold Curve.get_coin_indexes. rewrite HN.
  unfold bind at 1.
  destruct He as [-> | ->]; reflexivity.
Qed.

Lemma merge_lookup_skip (results : list (gmap Address Z))
    (acc : gmap Address Z) (a : Address) :
  (forall r, r ∈ results -> r !! a = None) ->
  foldl (fun acc result => result ∪ acc) acc results !! a = acc !! a.
Proof.
  revert acc. induction results as [|r rest IH]; intros acc H; simpl;
    [reflexivity|].
  rewrite IH by (intros r' Hr'; apply H; right; exact Hr').
  rewrite lookup_union_r; [reflexivity|]. apply H. left.
Qed.

(** A later result replaces an earlier one. *)
Lemma merge_lookup_last (before after : list (gmap Address Z))
    (r : gmap Address Z) (a : Address) (i : Z) :
  r !! a = Some i ->
  (forall r', r' ∈ after -> r' !! a = None) ->
  Curve.merge_results (before ++ r :: after) !! a = Some i.
Proof.
  intros Hr Hafter. unfold Curve.merge_results.
  rewrite foldl_app. simpl. rewrite merge_lookup_skip by exact Hafter.
  apply lookup_union_Some_l. exact Hr.
Qed.

Lemma merged_last_slot (pool : Z -> Address) (coin_set : gset Address)
    (K : Z) (a : Address) (j : Z) :
  a ∈ coin_set ->
  last_slot K pool a j ->
  Curve.merge_results (map (slot_entry pool coin_set) (seqZ 0 K)) !! a
  = Some j.
Proof.
  intros Hset (Hj & Hpool & Hlast).
  replace K with (j + (1 + (K - j - 1))) by lia.
  rewrite seqZ_app by lia. rewrite (seqZ_app _ 1) by lia.
  rewrite !map_app. change (seqZ (0 + j) 1) with [0 + j].
  rewrite Z.add_0_l. cbn [map app].
  apply merge_lookup_last.
  - apply slot_entry_lookup. rewrite Hpool. tauto.
  - intros r Hr. apply list_elem_of_fmap in Hr as (i & -> & Hi).
    apply elem_of_seqZ in Hi.
    destruct (slot_entry pool coin_set i !! a) as [i'|] eqn:Hi';
      [|reflexivity].
    apply slot_entry_lookup in Hi' as (_ & Hp & _).
    exfalso. apply (Hlast i); [lia | exact Hp].
Qed.

(** [_prepare_swap] on a pool that answers its reads and holds both
    coins, the coin sold last in slot [i] and the coin bought last in
    slot [j]. *)
Lemma prepare_swap_run (self : Curve.t) (K : Z) (pool : Z -> Address)
    (sell buy : Address) (i j amount : Z) (min_dy : option Z) (w : W) :
  pool_reads (Curve._contract self) K pool ->
  sell <> buy ->
  last_slot K pool sell i ->
  last_slot K pool buy j ->
  Curve._prepare_swap self sell buy amount min_dy w
  = (match call_get_dy (Curve._contract self) i j amount with
     | inl e =>
         Raise (if issubclass e ContractLogicError
                   || issubclass e ABIFunctionNotFound
                   || issubclass e ValueError
                then SwapException else e)
     | inr estimated_dy =>
         match min_dy with
         | Some m => Ok (CurveData.mk i j estimated_dy m)
         | None => Raise SwapException
         end
     end, w, lookup_events K ++ [EContract (get_dy i j amount)]).
Proof.
  intros Hreads Hne Hsell Hbuy.
  unfold Curve._prepare_swap. unfold bind at 1.
  rewrite (get_coin_indexes_run self K pool) by exact Hreads.
  set (indexes := Curve.merge_results _).
  assert (size indexes = 2%nat) as Hsize.
  { apply merged_size_two. split; [exact Hne|].
    split; [exists i | exists j]; [destruct Hsell | destruct Hbuy]; tauto. }
  assert (indexes !! sell = Some i) as Hi.
  { apply merged_last_slot; [|exact Hsell].
    rewrite elem_of_list_to_set. left. }
  assert (indexes !! buy = Some j) as Hj.
  { apply merged_last_slot; [|exact Hbuy].
    rewrite elem_of_list_to_set. right; left. }
  rewrite Hsize. change (negb (Z.of_nat 2 =? 2)) with false. cbv iota.
  unfold Curve.getitem. rewrite Hi, Hj.
  unfold try_except, bind. cbn.
  destruct (call_get_dy (Curve._contract self) i j amount) as [e|d];
    [destruct e; cbn; rewrite ?app_nil_r; reflexivity|].
  destruct min_dy as [m|]; cbn; rewrite ?app_nil_r; reflexivity.
Qed.

End CurveReads.

(** X17.  A pool whose size cannot be read.  When [N_COINS] raises
    [ContractLogicError] or [ABIFunctionNotFound], the index lookup,
    [_prepare_swap] and [swap] raise [SwapException] after that one
    read: no slot is read and nothing is estimated, built or sent. *)
Theorem X17_unreadable_pool_size {W : Type}
    (to_dictionary : gmap string PyVal -> Exn + gmap string PyVal)
    (self : Curve.t) (coin_addresses : list Address)
    (sell buy : Address) (amount : Z) (min_dy : option Z) (e : Exn) (w : W) :
  call_N_COINS (Curve._contract self) = inl e ->
  e = ContractLogicError \/ e = ABIFunctionNotFound ->
  Curve.get_coin_indexes self coin_addresses w
  = (Raise SwapException, w, [EContract N_COINS])
  /\ Curve._prepare_swap self sell buy amount min_dy w
     = (Raise SwapException, w, [EContract N_COINS])
  /\ Curve.swap to_dictionary self sell buy amount min_dy w
     = (Raise SwapException, w, [EContract N_COINS]).
Proof.
  intros HN He.
  split; [apply (get_coin_indexes_size_fails self _ e); assumption|].
  assert (Curve._prepare_swap self sell buy amount min_dy w
          = (Raise SwapException, w, [EContract N_COINS])) as Hprepare.
  { unfold Curve._prepare_swap. unfold bind at 1.
    rewrite (get_coin_indexes_size_fails self _ e) by assumption.
    reflexivity. }
  split; [exact Hprepare|].
  unfold Curve.swap. unfold bind at 1. rewrite Hprepare. reflexivity.
Qed.

Lemma X17_unreadable_pool_size_witness :
  Curve.swap NodeScenario.to_dictionary
    (CurvePoolScenario.on CurvePoolScenario.sizeless)
    "0xDAI" "0xUSDC" 100 (Some 0) tt
  = (Raise SwapException, tt, [EContract N_COINS]).
Proof.
  apply (X17_unreadable_pool_size NodeScenario.to_dictionary
           (CurvePoolScenario.on CurvePoolScenario.sizeless)
           ["0xDAI"; "0xUSDC"] "0xDAI" "0xUSDC" 100 (Some 0)
           ABIFunctionNotFound tt).
  - reflexivity.
  - right. reflexivity.
Defined.

(** X18.  A slot that cannot be read.  When the pool size [K] is read
    and the read of at least one slot raises, each failing read with
    [ContractLogicError] or [ABIFunctionNotFound], the index lookup
    raises [SwapException] and returns no partial mapping; by then
    every one of the [K] slots has been read, those after the failing
    one as well. *)
Theorem X18_unreadable_slot {W : Type} (self : Curve.t) (K : Z)
    (coin_addresses : list Address) (i0 : Z) (e0 : Exn) (w : W) :
  call_N_COINS (Curve._contract self) = inr K ->
  0 <= i0 < K ->
  call_coins (Curve._contract self) i0 = inl e0 ->
  (forall i e, 0 <= i < K -> call_coins (Curve._contract self) i = inl e ->
               e = ContractLogicError \/ e = ABIFunctionNotFound) ->
  Curve.get_coin_indexes self coin_addresses w
  = (Raise SwapException, w, lookup_events K).
Proof.
  intros HN Hi0 He0 Hall.
  unfold Curve.get_coin_indexes. rewrite HN.
  unfold bind at 1.
  change (try_except (emit (EContract N_COINS);; of_sum (inr K)) _ _ w)
    with (@Ok Z K, w, [EContract N_COINS]).
  cbv iota beta. unfold gather. unfold bind at 1 2.
  rewrite run_all_lookup_results.
  rewrite (first_error_is _ SwapException).
  - cbn. rewrite app_nil_r. reflexivity.
  - exists SwapException. apply list_elem_of_fmap. exists i0.
    split; [|apply elem_of_seqZ; lia].
    unfold lookup_result. rewrite He0.
    destruct (Hall i0 e0 Hi0 He0) as [-> | ->]; reflexivity.
  - intros e Hin. apply list_elem_of_fmap in Hin as (i & Hres & Hi).
    apply elem_of_seqZ in Hi. unfold lookup_result in Hres.
    destruct (call_coins (Curve._contract self) i) as [e1|address] eqn:Hcall;
      [|discriminate].
    destruct (Hall i e1 ltac:(lia) Hcall) as [-> | ->];
      injection Hres as ->; reflexivity.
Qed.

Lemma X18_unreadable_slot_witness :
  Curve.get_coin_indexes (CurvePoolScenario.on CurvePoolScenario.broken)
    ["0xDAI"; "0xUSDT"] tt
  = (Raise SwapException, tt, lookup_events 3).
Proof.
  apply (X18_unreadable_slot
           (CurvePoolScenario.on CurvePoolScenario.broken) 3
           ["0xDAI"; "0xUSDT"] 1 ContractLogicError tt).
  - reflexivity.
  - lia.
  - reflexivity.
  - intros i e _ H. cbn in H. destruct (i =? 1); [|discriminate].
    injection H as <-. left. reflexivity.
Defined.

(** X19.  A coin that sits in more than one slot.  The index lookup
    gives a requested coin the last slot of the pool that holds it: the
    entries of later slots replace those of earlier ones. *)
Theorem X19_last_slot_wins {W : Type} (self : Curve.t) (K : Z)
    (pool : Z -> Address) (coin_addresses : list Address) (a : Address)
    (j : Z) (w : W) :
  pool_reads (Curve._contract self) K pool ->
  a ∈ coin_addresses ->
  last_slot K pool a j ->
  exists indexes : gmap Address Z,
    Curve.get_coin_indexes self coin_addresses w
    = (Ok indexes, w, lookup_events K)
    /\ indexes !! a = Some j.
Proof.
  intros Hreads Hin Hlast.
  eexists. split; [apply (get_coin_indexes_run self K pool); exact Hreads|].
  apply merged_last_slot; [|exact Hlast].
  rewrite elem_of_list_to_set. exact Hin.
Qed.

Lemma X19_last_slot_wins_witness :
  exists indexes : gmap Address Z,
    Curve.get_coin_indexes
      (CurvePoolScenario.on
         (mkCurveContract (inr 4)
            (fun i => inr (CurvePoolScenario.repeated i))
            (fun _ _ amount => inr amount)
            (fun _ _ _ _ => inr (fun tx => inr tx))))
      ["0xDAI"; "0xUSDC"] tt
    = (Ok indexes, tt, lookup_events 4)
    /\ indexes !! "0xDAI" = Some 3.
Proof.
  apply (X19_last_slot_wins
           (CurvePoolScenario.on
              (mkCurveContract (inr 4)
                 (fun i => inr (CurvePoolScenario.repeated i))
                 (fun _ _ amount => inr amount)
                 (fun _ _ _ _ => inr (fun tx => inr tx))))
           4 CurvePoolScenario.repeated ["0xDAI"; "0xUSDC"] "0xDAI" 3 tt).
  - split; [reflexivity|]. intros i _. reflexivity.
  - left.
  - split; [lia|]. split; [reflexivity|]. intros i Hi. lia.
Defined.

(** X20.  A coin cannot be swapped for itself.  With the same address
    as the coin sold and the coin bought the lookup has at most one
    entry, so [_prepare_swap] and [swap] raise [SwapException] right
    after the lookup, also when the coin is in the pool. *)
Theorem X20_same_coin_is_refused {W : Type}
    (to_dictionary : gmap string PyVal -> Exn + gmap string PyVal)
    (self : Curve.t) (K : Z) (pool : Z -> Address) (a : Address)
    (amount : Z) (min_dy : option Z) (w : W) :
  pool_reads (Curve._contract self) K pool ->
  Curve._prepare_swap self a a amount min_dy w
  = (Raise SwapException, w, lookup_events K)
  /\ Curve.swap to_dictionary self a a amount min_dy w
     = (Raise SwapException, w, lookup_events K).
Proof.
  intros Hreads. split.
  - apply (prepare_swap_mismatch self K pool); [exact Hreads|].
    intros [Hne _]. apply Hne. reflexivity.
  - apply (swap_mismatch to_dictionary self K pool); [exact Hreads|].
    intros [Hne _]. apply Hne. reflexivity.
Qed.

Lemma X20_same_coin_is_refused_witness :
  Curve.swap NodeScenario.to_dictionary CurveScenario.swapper
    "0xDAI" "0xDAI" 100 (Some 0) tt
  = (Raise SwapException, tt, lookup_events 3).
Proof.
  apply (X20_same_coin_is_refused NodeScenario.to_dictionary
           CurveScenario.swapper 3 CurveScenario.slots "0xDAI" 100 (Some 0) tt).
  split; [reflexivity|]. intros i _. reflexivity.
Defined.

(** X21.  The swap data of a pool that holds both coins.  When the two
    coins differ, the coin sold is last in slot [i], the coin bought
    last in slot [j] and the pool estimates [d] for the amount,
    [_prepare_swap] returns [CurveData] with [tokenInIndex = i],
    [tokenOutIndex = j], [dy = d] and the [min_dy] given, after the
    lookup reads and one [get_dy i j amount]. *)
Theorem X21_swap_data {W : Type} (self : Curve.t) (K : Z)
    (pool : Z -> Address) (sell buy : Address) (i j amount d m : Z) (w : W) :
  pool_reads (Curve._contract self) K pool ->
  sell <> buy ->
  last_slot K pool sell i ->
  last_slot K pool buy j ->
  call_get_dy (Curve._contract self) i j amount = inr d ->
  Curve._prepare_swap self sell buy amount (Some m) w
  = (Ok (CurveData.mk i j d m), w,
     lookup_events K ++ [EContract (get_dy i j amount)]).
Proof.
  intros Hreads Hne Hsell Hbuy Hdy.
  rewrite (prepare_swap_run self K pool sell buy i j) by assumption.
  rewrite Hdy. reflexivity.
Qed.

Lemma X21_swap_data_witness :
  Curve._prepare_swap CurveScenario.swapper "0xUSDT" "0xDAI" 100 (Some 95) tt
  = (Ok (CurveData.mk 2 0 100 95), tt,
     lookup_events 3 ++ [EContract (get_dy 2 0 100)]).
Proof.
  apply (X21_swap_data CurveScenario.swapper 3 CurveScenario.slots
           "0xUSDT" "0xDAI" 2 0 100 100 95 tt).
  - split; [reflexivity|]. intros i _. reflexivity.
  - discriminate.
  - split; [lia|]. split; [reflexivity|]. intros i Hi. lia.
  - split; [lia|]. split; [reflexivity|]. intros i Hi.
    unfold CurveScenario.slots.
    destruct (Z.eqb_spec i 0) as [->|_]; [lia|].
    destruct (i =? 1); discriminate.
  - reflexivity.
Defined.

(** X22.  A swap that cannot be prepared, on a pool that holds both
    coins.  When [get_dy] raises [ContractLogicError],
    [ABIFunctionNotFound] or [ValueError], [_prepare_swap] raises
    [SwapException]; and when the estimate is read but [min_dy] is
    [None], the model refuses it and [_prepare_swap] raises
    [SwapException] as well.  In both cases [swap] raises the same
    after the lookup and the one estimate: no chain query is made and
    nothing is built, signed or sent. *)
Theorem X22_swap_not_prepared {W : Type}
    (to_dictionary : gmap string PyVal -> Exn + gmap string PyVal)
    (self : Curve.t) (K : Z) (pool : Z -> Address) (sell buy : Address)
    (i j amount : Z) (min_dy : option Z) (w : W) :
  pool_reads (Curve._contract self) K pool ->
  sell <> buy ->
  last_slot K pool sell i ->
  last_slot K pool buy j ->
  (exists e, call_get_dy (Curve._contract self) i j amount = inl e
             /\ (e = ContractLogicError \/ e = ABIFunctionNotFound
                 \/ e = ValueError))
  \/ (exists d, call_get_dy (Curve._contract self) i j amount = inr d)
     /\ min_dy = None ->
  Curve._prepare_swap self sell buy amount min_dy w
  = (Raise SwapException, w,
     lookup_events K ++ [EContract (get_dy i j amount)])
  /\ Curve.swap to_dictionary self sell buy amount min_dy w
     = (Raise SwapException, w,
        lookup_events K ++ [EContract (get_dy i j amount)]).
Proof.
  intros Hreads Hne Hsell Hbuy Hcase.
  assert (Curve._prepare_swap self sell buy amount min_dy w
          = (Raise SwapException, w,
             lookup_events K ++ [EContract (get_dy i j amount)])) as Hprepare.
  { rewrite (prepare_swap_run self K pool sell buy i j) by assumption.
    destruct Hcase as [(e & -> & He) | [(d & ->) ->]]; [|reflexivity].
    destruct He as [-> | [-> | ->]]; reflexivity. }
  split; [exact Hprepare|].
  unfold Curve.swap. unfold bind at 1. rewrite Hprepare. reflexivity.
Qed.

Lemma X22_swap_not_prepared_witness :
  Curve.swap NodeScenario.to_dictionary
    (CurvePoolScenario.on (CurvePoolScenario.estimating (inl ValueError)))
    "0xUSDT" "0xDAI" 100 (Some 95) tt
  = (Raise SwapException, tt,
     lookup_events 3 ++ [EContract (get_dy 2 0 100)]).
Proof.
  apply (X22_swap_not_prepared NodeScenario.to_dictionary
           (CurvePoolScenario.on (CurvePoolScenario.estimating (inl ValueError)))
           3 CurveScenario.slots "0xUSDT" "0xDAI" 2 0 100 (Some 95) tt).
  - split; [reflexivity|]. intros i _. reflexivity.
  - discriminate.
  - split; [lia|]. split; [reflexivity|]. intros i Hi. lia.
  - split; [lia|]. split; [reflexivity|]. intros i Hi.
    unfold CurveScenario.slots.
    destruct (Z.eqb_spec i 0) as [->|_]; [lia|].
    destruct (i =? 1); discriminate.
  - left. exists ValueError. split; [reflexivity|]. right; right. reflexivity.
Defined.

(** ** The ABI loader *)

Section LoaderFacts.
Context {ABI : Type}.

Lemma load_files_lookup (files : list (string * ABILoader.Read ABI))
    (name : string) (abi : ABI) :
  NoDup (fst <$> files) ->
  forall _abis : gmap string ABI,
    snd (ABILoader.load_files files _abis) !! name = Some abi
    <-> (name, ABILoader.Parsed abi) ∈ files
        \/ ((forall abi', (name, ABILoader.Parsed abi') ∉ files)
            /\ _abis !! name = Some abi).
Proof.
  induction files as [|[n [a|]] rest IH]; intros Hnodup _abis.
  - simpl. split.
    + intros H. right. split; [|exact H]. intros abi' Hin.
      apply elem_of_nil in Hin. exact Hin.
    + intros [Hin | [_ H]]; [apply elem_of_nil in Hin; destruct Hin | exact H].
  - rewrite fmap_cons in Hnodup. apply NoDup_cons in Hnodup as [Hn Hnodup].
    assert (forall x, (n, x) ∉ rest) as Hfresh.
    { intros x Hin. apply Hn. apply list_elem_of_fmap. exists (n, x).
      split; [reflexivity | exact Hin]. }
    cbn [ABILoader.load_files]. rewrite (IH Hnodup).
    destruct (decide (name = n)) as [->|Hne].
    + rewrite lookup_insert_eq. split.
      * intros [Hin | [_ H]]; [destruct (Hfresh _ Hin)|].
        injection H as ->. left. left.
      * intros [Hin | [Hnone _]].
        -- apply elem_of_cons in Hin as [Heq | Hin];
             [|destruct (Hfresh _ Hin)].
           injection Heq as ->. right. split; [|reflexivity].
           intros abi' Hin. exact (Hfresh _ Hin).
        -- exfalso. apply (Hnone a). left.
    + rewrite lookup_insert_ne by congruence. split.
      * intros [Hin | [Hnone H]]; [left; right; exact Hin|].
        right. split; [|exact H]. intros abi' Hin.
        apply elem_of_cons in Hin as [Heq | Hin]; [congruence|].
        exact (Hnone _ Hin).
      * intros [Hin | [Hnone H]].
        -- apply elem_of_cons in Hin as [Heq | Hin]; [congruence|].
           left. exact Hin.
        -- right. split; [|exact H]. intros abi' Hin.
           apply (Hnone abi'). right. exact Hin.
  - rewrite fmap_cons in Hnodup. apply NoDup_cons in Hnodup as [_ Hnodup].
    cbn [ABILoader.load_files].
    destruct (ABILoader.load_files rest _abis) as [prints loaded] eqn:Hload.
    specialize (IH Hnodup _abis). rewrite Hload in IH.
    cbn [snd] in *. rewrite IH. split.
    + intros [Hin | [Hnone H]]; [left; right; exact Hin|].
      right. split; [|exact H]. intros abi' Hin.
      apply elem_of_cons in Hin as [Heq | Hin]; [discriminate|].
      exact (Hnone _ Hin).
    + intros [Hin | [Hnone H]].
      * apply elem_of_cons in Hin as [Heq | Hin]; [discriminate|].
        left. exact Hin.
      * right. split; [|exact H]. intros abi' Hin.
        apply (Hnone abi'). right. exact Hin.
Qed.

Lemma load_files_prints (files : list (string * ABILoader.Read ABI)) :
  forall _abis : gmap string ABI,
    fst (ABILoader.load_files files _abis)
    = replicate (length (filter unreadable files)) "Error reading from ".
Proof.
  induction files as [|[n [a|]] rest IH]; intros _abis.
  - reflexivity.
  - cbn [ABILoader.load_files]. rewrite IH. reflexivity.
  - cbn [ABILoader.load_files].
    specialize (IH _abis).
    destruct (ABILoader.load_files rest _abis) as [prints loaded].
    cbn [fst] in *. rewrite IH. reflexivity.
Qed.

Lemma load_files_empty (files : list (string * ABILoader.Read ABI)) :
  forall _abis : gmap string ABI,
    snd (ABILoader.load_files files _abis) = ∅
    <-> _abis = ∅ /\ forallb unreadable files = true.
Proof.
  induction files as [|[n [a|]] rest IH]; intros _abis.
  - simpl. tauto.
  - cbn [ABILoader.load_files]. rewrite IH. cbn. split.
    + intros [H _]. destruct (insert_non_empty _ _ _ H).
    + intros [_ H]. discriminate.
  - cbn [ABILoader.load_files].
    specialize (IH _abis).
    destruct (ABILoader.load_files rest _abis) as [prints loaded].
    cbn [snd] in *. rewrite IH. cbn. tauto.
Qed.

End LoaderFacts.

(** X23.  What is loaded can be fetched.  Over a directory whose files
    have distinct stems, [get_abi name] after [_load_abis] gives the
    content [abi] exactly when the file of that stem was read and
    parsed to [abi], and then without the "No ABIs found" print; for a
    stem with no file, or with a file that could not be read, it has no
    ABI to give, which is [ABIException].  A file that cannot be read
    does not keep the files after it from being loaded. *)
Theorem X23_loaded_abi_is_fetched {ABI : Type}
    (files : list (string * ABILoader.Read ABI)) (name : string) :
  NoDup (fst <$> files) ->
  let _abis := snd (ABILoader._load_abis files) in
  (forall abi,
     snd (ABILoader.get_abi _abis name) = Some abi
     <-> (name, ABILoader.Parsed abi) ∈ files)
  /\ (forall abi,
        (name, ABILoader.Parsed abi) ∈ files ->
        ABILoader.get_abi _abis name = ([], Some abi)).
Proof.
  intros Hnodup _abis.
  assert (forall abi, _abis !! name = Some abi
                      <-> (name, ABILoader.Parsed abi) ∈ files) as Hlookup.
  { intros abi. unfold _abis, ABILoader._load_abis.
    pose proof (load_files_lookup files name abi Hnodup ∅) as H.
    destruct (ABILoader.load_files files ∅) as [prints loaded].
    cbn [snd] in *. rewrite H. rewrite lookup_empty.
    split; [intros [Hin | [_ Hno]]; [exact Hin | discriminate] | tauto]. }
  split; [exact Hlookup|].
  intros abi Hin. apply Hlookup in Hin.
  unfold ABILoader.get_abi. rewrite Hin.
  rewrite bool_decide_eq_false_2; [reflexivity|].
  intros Hempty. rewrite Hempty, lookup_empty in Hin. discriminate.
Qed.

Lemma X23_loaded_abi_is_fetched_witness :
  ABILoader.get_abi (snd (ABILoader._load_abis ABIScenario.directory)) "curve"
  = ([], Some "[exchange]").
Proof.
  apply (X23_loaded_abi_is_fetched ABIScenario.directory "curve").
  - apply (bool_decide_unpack _). vm_compute. exact I.
  - right; right; left.
Defined.

(** X24.  What the loader reports.  [_load_abis] prints one error for
    each file it could not read, in the order of the files, and goes
    on; it prints "No ABIs found" last exactly when no file at all was
    loaded, and then every later [get_abi] prints it again before
    failing. *)
Theorem X24_loader_reports {ABI : Type}
    (files : list (string * ABILoader.Read ABI)) (name : string) :
  let loaded := ABILoader._load_abis files in
  fst loaded
  = replicate (length (filter unreadable files)) "Error reading from "
    ++ (if forallb unreadable files then ["No ABIs found"] else [])
  /\ ABILoader.get_abi (snd loaded) name
     = if forallb unreadable files then (["No ABIs found"], None)
       else ([], snd loaded !! name).
Proof.
  cbv zeta. unfold ABILoader._load_abis, ABILoader.get_abi.
  pose proof (load_files_prints files ∅) as Hprints.
  pose proof (load_files_empty files ∅) as Hempty.
  destruct (ABILoader.load_files files ∅) as [prints _abis].
  cbn [fst snd] in *. rewrite Hprints.
  destruct (forallb unreadable files).
  - assert (_abis = ∅) as -> by (apply Hempty; split; reflexivity).
    rewrite bool_decide_eq_true_2 by reflexivity.
    rewrite lookup_empty. split; reflexivity.
  - rewrite bool_decide_eq_false_2; [split; reflexivity|].
    intros H. apply Hempty in H as [_ H]. discriminate.
Qed.

(** ** Approvals and the Uniswap swapper *)

Section ContractFacts.
Context {W : Type}.

Lemma build_and_submit_run
    (to_dictionary : gmap string PyVal -> Exn + gmap string PyVal)
    (node : Web3Node.t) (function : ContractFunction) (w : W) :
  (build_transaction <- of_sum function ;;
   tx_data <- Web3Node.build_transaction_data to_dictionary node ∅ ;;
   transaction <- of_sum (build_transaction tx_data) ;;
   Web3Node.send_transaction node transaction) w
  = build_and_submit to_dictionary node function w.
Proof.
  unfold build_and_submit.
  destruct function as [e|build_transaction]; [reflexivity|].
  cbn [of_sum]. rewrite bind_ret.
  unfold bind at 1. rewrite build_transaction_data_run.
  rewrite (left_id_L ∅ (∪)).
  change (queries_made node ∅) with (all_queries node).
  destruct (to_dictionary (chain_fields node)) as [e|tx_data].
  - case_bool_decide; reflexivity.
  - unfold bind at 1.
    destruct (build_transaction tx_data) as [e|transaction].
    + cbn. rewrite ?app_nil_r. reflexivity.
    + cbn [of_sum ret]. cbv zeta.
      destruct (Web3Node.send_transaction node transaction w) as [[r w'] t].
      reflexivity.
Qed.

End ContractFacts.

(** X25.  An approval with bad arguments touches nothing.  [approve]
    raises [InvalidAddressException] for a spender that is not an
    address, whatever the amount, and [CoinException] for an amount
    that is not an integer; in both cases the contract is not asked,
    the chain is not read and nothing is signed or sent. *)
Theorem X25_bad_approval_touches_nothing {W : Type}
    (to_dictionary : gmap string PyVal -> Exn + gmap string PyVal)
    (is_address : string -> bool) (to_checksum_address : string -> Address)
    (self : ERC20Coin.t) (address : string) (amount : PyVal) (w : W) :
  let run := ERC20Coin.approve to_dictionary is_address to_checksum_address
               self address amount w in
  (is_address address = false ->
   run = (Raise InvalidAddressException, w, []))
  /\ (is_address address = true -> (forall n, amount <> PyInt n) ->
      run = (Raise CoinException, w, [])).
Proof.
  cbv zeta. unfold ERC20Coin.approve, validate_address. split.
  - intros H. rewrite H. reflexivity.
  - intros H Hint. rewrite H. cbn [negb]. rewrite bind_ret.
    destruct amount as [n| |]; [destruct (Hint n); reflexivity| |];
      reflexivity.
Qed.

(** X26.  An approval with a valid spender and an integer amount.  The
    contract function is made first, with the spender as it was given,
    and a refusal ends the approval before the chain is read.  Then the
    builder runs without overrides, so all four chain fields are read
    on every approval; a transaction the function cannot build is
    never signed; and otherwise the built transaction is what
    [send_transaction] submits, whose result is the result of
    [approve]. *)
Theorem X26_approval_builds_then_submits {W : Type}
    (to_dictionary : gmap string PyVal -> Exn + gmap string PyVal)
    (is_address : string -> bool) (to_checksum_address : string -> Address)
    (self : ERC20Coin.t) (address : string) (amount : Z) (w : W) :
  is_address address = true ->
  let node := ERC20Coin._web3node self in
  let run := ERC20Coin.approve to_dictionary is_address to_checksum_address
               self address (PyInt amount) w in
  run = build_and_submit to_dictionary node
          (ERC20Coin.functions_approve self address amount) w
  /\ (forall e, ERC20Coin.functions_approve self address amount = inl e ->
                run = (Raise e, w, []))
  /\ (forall build_transaction tx_data transaction,
        ERC20Coin.functions_approve self address amount
        = inr build_transaction ->
        to_dictionary (chain_fields node) = inr tx_data ->
        build_transaction tx_data = inr transaction ->
        result_of run
        = result_of (Web3Node.send_transaction node transaction w)
        /\ trace_of run
           = all_queries node
             ++ trace_of (Web3Node.send_transaction node transaction w)).
Proof.
  intros H node run.
  assert (run = build_and_submit to_dictionary node
                  (ERC20Coin.functions_approve self address amount) w)
    as Hrun.
  { unfold run, node, ERC20Coin.approve, validate_address.
    rewrite H. cbn [negb]. rewrite bind_ret, build_and_submit_run.
    destruct (build_and_submit to_dictionary (ERC20Coin._web3node self)
                (ERC20Coin.functions_approve self address amount) w)
      as [[r w'] t].
    reflexivity. }
  split; [exact Hrun|]. split.
  - intros e He. rewrite Hrun, He. reflexivity.
  - intros build_transaction tx_data transaction Hf Htx Hbuild.
    rewrite Hrun. unfold build_and_submit. rewrite Hf, Htx, Hbuild.
    split; reflexivity.
Qed.

Lemma X26_approval_builds_then_submits_witness :
  ERC20Coin.approve NodeScenario.to_dictionary TransferScenario.is_address
    TransferScenario.to_checksum_address ContractScenario.coin
    "0xRouter" (PyInt 100) tt
  = (Ok (mkResult SUCCESS "0xhash"), tt,
     [EEth (get_transaction_count "0xMe"); EEth get_block_latest;
      EEth max_priority_fee; EEth chain_id; EEth sign_transaction;
      EEth send_raw_transaction;
      EEth (wait_for_transaction_receipt "0xhash" 120)]).
Proof.
  destruct (X26_approval_builds_then_submits NodeScenario.to_dictionary
              TransferScenario.is_address TransferScenario.to_checksum_address
              ContractScenario.coin "0xRouter" 100 tt) as [Hrun _].
  - reflexivity.
  - rewrite Hrun. reflexivity.
Defined.

(** X27.  Swap parameters that are refused, on the Uniswap swapper.  An
    additional parameter named [tokenIn], [tokenOut], [recipient] or
    [amountIn] gives that keyword twice, which is a [TypeError] that
    the [except ValidationError] does not catch; swap data the model
    refuses raise [SwapException].  Either way the contract is not
    asked, the chain is not read and nothing is signed or sent. *)
Theorem X27_refused_swap_parameters {W : Type}
    (to_dictionary uniswap_to_dictionary :
       gmap string PyVal -> Exn + gmap string PyVal)
    (self : Uniswap.t) (sell buy : Address) (amount : Z)
    (additional : gmap string PyVal) (w : W) :
  let run := Uniswap.swap to_dictionary uniswap_to_dictionary self sell buy
               amount additional w in
  let fields :=
    <["tokenIn" := PyStr sell]>
    (<["tokenOut" := PyStr buy]>
    (<["recipient" := PyStr (Web3Node._account_address
                               (Uniswap._web3node self))]>
    (<["amountIn" := PyInt amount]> additional))) in
  ((exists key, key ∈ Uniswap.keywords /\ is_Some (additional !! key)) ->
   run = (Raise TypeError, w, []))
  /\ ((forall key, key ∈ Uniswap.keywords -> additional !! key = None) ->
      uniswap_to_dictionary fields = inl ValidationError ->
      run = (Raise SwapException, w, [])).
Proof.
  cbv zeta. unfold Uniswap.swap. split.
  - intros (key & Hkey & Hsome).
    assert (existsb (fun key => negb (Web3Node.not_in key additional))
              Uniswap.keywords = true) as ->.
    { apply existsb_exists. exists key. split.
      - apply list_elem_of_In. exact Hkey.
      - unfold Web3Node.not_in. destruct Hsome as [v ->]. reflexivity. }
    reflexivity.
  - intros Hnone Hrefused.
    assert (existsb (fun key => negb (Web3Node.not_in key additional))
              Uniswap.keywords = false) as ->.
    { unfold Uniswap.keywords, Web3Node.not_in. cbn [existsb].
      rewrite !Hnone; [reflexivity|..]; unfold Uniswap.keywords;
        rewrite !elem_of_cons; tauto. }
    unfold bind at 1, try_except. cbv zeta. rewrite Hrefused. reflexivity.
Qed.

(** X28.  A swap on the Uniswap swapper with parameters that are
    accepted.  The swap data validated are the coin sold as [tokenIn],
    the coin bought as [tokenOut], the amount as [amountIn] and the
    node's own account as [recipient], with the additional parameters;
    the contract function is made from the validated data before the
    chain is read, the builder then reads all four chain fields, and
    the transaction the function builds is what [send_transaction]
    submits. *)
Theorem X28_uniswap_builds_then_submits {W : Type}
    (to_dictionary uniswap_to_dictionary :
       gmap string PyVal -> Exn + gmap string PyVal)
    (self : Uniswap.t) (sell buy : Address) (amount : Z)
    (additional swap_data : gmap string PyVal) (w : W) :
  let node := Uniswap._web3node self in
  let fields :=
    <["tokenIn" := PyStr sell]>
    (<["tokenOut" := PyStr buy]>
    (<["recipient" := PyStr (Web3Node._account_address node)]>
    (<["amountIn" := PyInt amount]> additional))) in
  (forall key, key ∈ Uniswap.keywords -> additional !! key = None) ->
  uniswap_to_dictionary fields = inr swap_data ->
  Uniswap.swap to_dictionary uniswap_to_dictionary self sell buy amount
    additional w
  = build_and_submit to_dictionary node
      (Uniswap.functions_exactInputSingle self swap_data) w.
Proof.
  intros node fields Hnone Hvalid. unfold Uniswap.swap.
  assert (existsb (fun key => negb (Web3Node.not_in key additional))
            Uniswap.keywords = false) as ->.
  { unfold Uniswap.keywords, Web3Node.not_in. cbn [existsb].
    rewrite !Hnone; [reflexivity|..]; unfold Uniswap.keywords;
      rewrite !elem_of_cons; tauto. }
  unfold bind at 1, try_except. cbv zeta. fold node. fold fields.
  rewrite Hvalid. cbn [of_sum ret]. cbv iota beta.
  rewrite <- build_and_submit_run.
  destruct ((build_transaction <- of_sum
               (Uniswap.functions_exactInputSingle self swap_data) ;;
             tx_data <- Web3Node.build_transaction_data to_dictionary node ∅ ;;
             transaction <- of_sum (build_transaction tx_data) ;;
             Web3Node.send_transaction node transaction) w)
    as [[r w'] t].
  reflexivity.
Qed.

Lemma X28_uniswap_builds_then_submits_witness :
  Uniswap.swap NodeScenario.to_dictionary
    ContractScenario.uniswap_to_dictionary ContractScenario.router
    "0xDAI" "0xUSDC" 100 {[ "fee" := PyInt 500 ]} tt
  = (Ok (mkResult SUCCESS "0xhash"), tt,
     [EEth (get_transaction_count "0xMe"); EEth get_block_latest;
      EEth max_priority_fee; EEth chain_id; EEth sign_transaction;
      EEth send_raw_transaction;
      EEth (wait_for_transaction_receipt "0xhash" 120)]).
Proof.
  rewrite (X28_uniswap_builds_then_submits NodeScenario.to_dictionary
             ContractScenario.uniswap_to_dictionary ContractScenario.router
             "0xDAI" "0xUSDC" 100 {[ "fee" := PyInt 500 ]}
             (<["tokenIn" := PyStr "0xDAI"]>
              (<["tokenOut" := PyStr "0xUSDC"]>
              (<["recipient" := PyStr "0xMe"]>
              (<["amountIn" := PyInt 100]> {[ "fee" := PyInt 500 ]}))))
             tt).
  - reflexivity.
  - intros key Hkey. unfold Uniswap.keywords in Hkey.
    rewrite !elem_of_cons, elem_of_nil in Hkey.
    destruct Hkey as [-> | [-> | [-> | [-> | []]]]]; reflexivity.
  - reflexivity.
Defined.

(** X29.  A swap on the Curve swapper, on a pool that holds both coins.
    After the lookup reads and the estimate, the exchange function is
    made from the swap data [(i, j, d, min_dy)] before the chain is
    read, so a refused exchange ends the swap without a chain query;
    then the builder reads all four chain fields, and the transaction
    the function builds is what [send_transaction] submits. *)
Theorem X29_curve_swap_builds_then_submits {W : Type}
    (to_dictionary : gmap string PyVal -> Exn + gmap string PyVal)
    (self : Curve.t) (K : Z) (pool : Z -> Address) (sell buy : Address)
    (i j amount d m : Z) (w : W) :
  pool_reads (Curve._contract self) K pool ->
  sell <> buy ->
  last_slot K pool sell i ->
  last_slot K pool buy j ->
  call_get_dy (Curve._contract self) i j amount = inr d ->
  let prepared :=
    lookup_events K
    ++ [EContract (get_dy i j amount); EContract (exchange i j d m)] in
  let function := functions_exchange (Curve._contract self) i j d m in
  let rest := build_and_submit to_dictionary (Curve._web3node self)
                function w in
  Curve.swap to_dictionary self sell buy amount (Some m) w
  = (result_of rest, world_of rest, prepared ++ trace_of rest)
  /\ (forall e, function = inl e ->
                Curve.swap to_dictionary self sell buy amount (Some m) w
                = (Raise e, w, prepared)).
Proof.
  intros Hreads Hne Hsell Hbuy Hdy prepared function rest.
  assert (Curve.swap to_dictionary self sell buy amount (Some m) w
          = (result_of rest, world_of rest, prepared ++ trace_of rest))
    as Hrun.
  { unfold Curve.swap. unfold bind at 1.
    rewrite (prepare_swap_run self K pool sell buy i j) by assumption.
    rewrite Hdy. cbn [CurveData.to_args CurveData.tokenInIndex
                      CurveData.tokenOutIndex CurveData.dy CurveData.min_dy].
    rewrite bind_emit, build_and_submit_run.
    fold function. fold rest.
    destruct rest as [[r w'] t]. unfold prepared, result_of, world_of, trace_of.
    cbn [fst snd]. rewrite <- !app_assoc. reflexivity. }
  split; [exact Hrun|].
  intros e He. rewrite Hrun. unfold rest, build_and_submit. rewrite He.
  unfold result_of, world_of, trace_of. cbn [fst snd].
  rewrite app_nil_r. reflexivity.
Qed.

Lemma X29_curve_swap_builds_then_submits_witness :
  Curve.swap NodeScenario.to_dictionary CurveScenario.swapper
    "0xUSDT" "0xDAI" 100 (Some 95) tt
  = (Ok (mkResult SUCCESS "0xhash"), tt,
     (lookup_events 3
      ++ [EContract (get_dy 2 0 100); EContract (exchange 2 0 100 95)])
     ++ [EEth (get_transaction_count "0xMe"); EEth get_block_latest;
         EEth max_priority_fee; EEth chain_id; EEth sign_transaction;
         EEth send_raw_transaction;
         EEth (wait_for_transaction_receipt "0xhash" 120)]).
Proof.
  refine (proj1 (X29_curve_swap_builds_then_submits
                   NodeScenario.to_dictionary CurveScenario.swapper 3
                   CurveScenario.slots "0xUSDT" "0xDAI" 2 0 100 100 95 tt
                   _ _ _ _ _)).
  - split; [reflexivity|]. intros i _. reflexivity.
  - discriminate.
  - split; [lia|]. split; [reflexivity|]. intros i Hi. lia.
  - split; [lia|]. split; [reflexivity|]. intros i Hi.
    unfold CurveScenario.slots.
    destruct (Z.eqb_spec i 0) as [->|_]; [lia|].
    destruct (i =? 1); discriminate.
  - reflexivity.
Defined.
